(** * DogCareBot: reminder scheduling and durable state

    A shallow embedding of [dog_bot.py]: the in-memory [user_data]
    dictionary, the JSON data file, the APScheduler job table and the
    Telegram command handlers that update them, followed by the properties
    of the reminder subsystem.

    Conventions.
    - Python [str] values are modelled by [string]; the development covers
      text made of ASCII code points, and numerals within the interpreter's
      limit for the conversion between [int] and [str].
    - The data file is modelled as far as the shape that the module
      documents for it; JSON of another shape is outside the model.
    - A Python [dict] whose iteration order is observable ([user_data]) is an
      association list in insertion order; the scheduler's job store, which
      is only accessed by key, is a [gmap].
    - A Python exception that leaves a function before the function has
      changed anything is a [Raise] result; an exception that leaves a
      handler after it changed the globals is recorded in the handler's
      outcome, which keeps the changes. *)

From Stdlib Require Import ZArith String Ascii List Lia Bool.
From Stdlib Require Import DecimalString DecimalZ Sorted Permutation.
From stdpp Require Import base gmap strings list.

Open Scope string_scope.
Open Scope list_scope.
Open Scope Z_scope.

(** ** Python built-ins used by the bot *)

Module Py.

(** Exceptions that the bot's code can meet. *)
Inductive exn :=
  | ValueError
  | IndexError
  | OSError
  | UnicodeDecodeError
  | RecursionError
  | AttributeError.

Inductive result (A : Type) :=
  | Ok (a : A)
  | Raise (e : exn).
Arguments Ok {A} a.
Arguments Raise {A} e.

Definition bind {A B} (r : result A) (k : A -> result B) : result B :=
  match r with
  | Ok a => k a
  | Raise e => Raise e
  end.

(** [str.isspace] on one ASCII character: TAB, LF, VT, FF, CR, the four
    separators 0x1c-0x1f and the space. *)
Definition isspace (c : ascii) : bool :=
  let n := N_of_ascii c in
  ((9 <=? n) && (n <=? 13) || (28 <=? n) && (n <=? 32))%N.

Definition isdigit (c : ascii) : bool :=
  let n := N_of_ascii c in
  ((48 <=? n) && (n <=? 57))%N.

Definition digit_val (c : ascii) : Z := Z.of_N (N_of_ascii c) - 48.

(** Every character of [s] satisfies [p]. *)
Fixpoint all_chars (p : ascii -> bool) (s : string) : bool :=
  match s with
  | String c s' => p c && all_chars p s'
  | EmptyString => true
  end.

(** The white space that [int] and [float] drop around a numeral
    ([Py_ISSPACE]): TAB, LF, VT, FF, CR and the space, but not the separators
    0x1c-0x1f, which only [str.isspace] counts. *)
Definition isspace_c (c : ascii) : bool :=
  let n := N_of_ascii c in
  ((9 <=? n) && (n <=? 13) || (n =? 32))%N.

(** [s] without that white space at its left end, at its right end and at
    both. *)
Fixpoint lstrip (s : string) : string :=
  match s with
  | String c s' => if isspace_c c then lstrip s' else s
  | EmptyString => EmptyString
  end.

Fixpoint rstrip (s : string) : string :=
  match s with
  | String c s' =>
      match rstrip s' with
      | EmptyString => if isspace_c c then EmptyString else String c EmptyString
      | r => String c r
      end
  | EmptyString => EmptyString
  end.

Definition strip (s : string) : string := rstrip (lstrip s).

(** [s.lower()]. *)
Definition lower_char (c : ascii) : ascii :=
  let n := N_of_ascii c in
  if ((65 <=? n) && (n <=? 90))%N then ascii_of_N (n + 32) else c.

Fixpoint lower (s : string) : string :=
  match s with
  | String c s' => String (lower_char c) (lower s')
  | EmptyString => EmptyString
  end.

(** [s.replace(a, b)] for one-character [a] and [b]. *)
Fixpoint replace (a b : ascii) (s : string) : string :=
  match s with
  | String c s' => String (if Ascii.eqb c a then b else c) (replace a b s')
  | EmptyString => EmptyString
  end.

(** [s.split(sep)] for a one-character separator: the pieces between the
    separators, empty pieces included; never the empty list. *)
Fixpoint split_on (sep : ascii) (s : string) : list string :=
  match s with
  | EmptyString => [EmptyString]
  | String c s' =>
      if Ascii.eqb c sep then EmptyString :: split_on sep s'
      else match split_on sep s' with
           | p :: ps => String c p :: ps
           | [] => [String c EmptyString]
           end
  end.

(** [s.split()]: the maximal runs of non-space characters. *)
Fixpoint split_ws_go (cur : option string) (s : string) : list string :=
  match s with
  | EmptyString =>
      match cur with Some w => [w] | None => [] end
  | String c s' =>
      if isspace c then
        match cur with
        | Some w => w :: split_ws_go None s'
        | None => split_ws_go None s'
        end
      else
        split_ws_go (Some (match cur with
                           | Some w => w +:+ String c EmptyString
                           | None => String c EmptyString
                           end)) s'
  end.

Definition split_ws (s : string) : list string := split_ws_go None s.

(** The digits of a decimal literal in which single underscores may separate
    digits ([1_000]); [None] when the text is not of that form.
    [prev_digit] tells whether the previous character was a digit. *)
Fixpoint digitpart_go (prev_digit : bool) (s : string) : option string :=
  match s with
  | EmptyString => if prev_digit then Some EmptyString else None
  | String c s' =>
      if isdigit c then
        match digitpart_go true s' with
        | Some r => Some (String c r)
        | None => None
        end
      else if Ascii.eqb c "_" then
        if prev_digit then digitpart_go false s' else None
      else None
  end.

Definition digitpart (s : string) : option string := digitpart_go false s.

(** The value of a string of decimal digits. *)
Definition digits_val (ds : string) : option Z :=
  match NilEmpty.uint_of_string ds with
  | Some u => Some (Z.of_uint u)
  | None => None
  end.

(** An optional sign in front of a literal: whether it is a minus, and the
    text after the sign. *)
Definition take_sign (s : string) : bool * string :=
  match s with
  | String c t =>
      if Ascii.eqb c "-" then (true, t)
      else if Ascii.eqb c "+" then (false, t)
      else (false, s)
  | EmptyString => (false, s)
  end.

(** An optionally signed digit part. *)
Definition signed_digitpart (s : string) : option Z :=
  let '(neg, t) := take_sign s in
  match digitpart t with
  | Some ds =>
      match digits_val ds with
      | Some v => Some (if neg then - v else v)
      | None => None
      end
  | None => None
  end.

(** [int(s)] for a [str] argument, base 10: surrounding white space is
    dropped, one sign is allowed, the rest is a digit part.  [None] stands
    for [ValueError].  (The interpreter's limit on the length of a numeral,
    4300 digits unless it is lifted, is outside the model: it is above what
    a Telegram message can hold and above every numeral the bot writes.) *)
Definition int (s : string) : option Z := signed_digitpart (strip s).

(** [str(n)] for an [int]. *)
Definition str (n : Z) : string := NilZero.string_of_int (Z.to_int n).

(** A [float] as the text denotes it: the decimal numeral
    [(-1)^neg * mant * 10^exp10], an infinity or a NaN.  Python rounds the
    numeral to the nearest double; the bot never computes with the value, it
    stores it and prints it back. *)
Inductive pyfloat :=
  | FNum (neg : bool) (mant : Z) (exp10 : Z)
  | FInf (neg : bool)
  | FNan.

(** Cuts [s] at the first character satisfying [p]: the text before it and,
    when there is such a character, the text after it. *)
Fixpoint break_at (p : ascii -> bool) (s : string) : string * option string :=
  match s with
  | EmptyString => (EmptyString, None)
  | String c s' =>
      if p c then (EmptyString, Some s')
      else let '(a, b) := break_at p s' in (String c a, b)
  end.

(** The [number] production of the float grammar:
    [[digitpart] "." digitpart | digitpart ["."]].  The result is the string
    of all digits and the count of digits after the point. *)
Definition float_number (s : string) : option (string * Z) :=
  match break_at (fun c => Ascii.eqb c ".") s with
  | (ip, None) =>
      match digitpart ip with
      | Some ds => Some (ds, 0)
      | None => None
      end
  | (EmptyString, Some fp) =>
      match digitpart fp with
      | Some fs => Some (fs, Z.of_nat (String.length fs))
      | None => None
      end
  | (ip, Some EmptyString) =>
      match digitpart ip with
      | Some ds => Some (ds, 0)
      | None => None
      end
  | (ip, Some fp) =>
      match digitpart ip, digitpart fp with
      | Some ds, Some fs => Some (ds +:+ fs, Z.of_nat (String.length fs))
      | _, _ => None
      end
  end.

(** [float(s)] for a [str] argument; [None] stands for [ValueError]. *)
Definition float (s : string) : option pyfloat :=
  let body (neg : bool) (t : string) : option pyfloat :=
    let lt := lower t in
    if String.eqb lt "inf" || String.eqb lt "infinity" then Some (FInf neg)
    else if String.eqb lt "nan" then Some FNan
    else
      let '(m, x) := break_at (fun c => Ascii.eqb c "e" || Ascii.eqb c "E") t in
      match float_number m with
      | Some (ds, frac) =>
          match digits_val ds with
          | Some v =>
              match x with
              | None => Some (FNum neg v (- frac))
              | Some xs =>
                  match signed_digitpart xs with
                  | Some e => Some (FNum neg v (e - frac))
                  | None => None
                  end
              end
          | None => None
          end
      | None => None
      end in
  let '(neg, t) := take_sign (strip s) in body neg t.

(** [x > 0] on the numeral (the spec's "positive number"). *)
Definition float_positive (x : pyfloat) : bool :=
  match x with
  | FNum neg m _ => negb neg && (0 <? m)
  | FInf neg => negb neg
  | FNan => false
  end.

(** *** [datetime.strptime]

    [strptime] compiles the format into a regular expression with one
    alternation per directive, takes the first match in backtracking order
    and raises [ValueError] when part of the text is left over.  A directive
    is modelled by the list of its alternatives that match a prefix of the
    text, in the order of the alternation, each with its value and the rest
    of the text. *)
Definition field := string -> list (Z * string).

Definition two_digits (a b : ascii) : Z := 10 * digit_val a + digit_val b.

Definition in_range (lo hi c : ascii) : bool :=
  ((N_of_ascii lo <=? N_of_ascii c) && (N_of_ascii c <=? N_of_ascii hi))%N.

(** [%H]: [2[0-3]|[0-1]\d|\d]. *)
Definition field_H : field := fun s =>
  (match s with
   | String a (String b r) =>
       if Ascii.eqb a "2" && in_range "0" "3" b then [(two_digits a b, r)] else []
   | _ => []
   end) ++
  (match s with
   | String a (String b r) =>
       if in_range "0" "1" a && isdigit b then [(two_digits a b, r)] else []
   | _ => []
   end) ++
  (match s with
   | String a r => if isdigit a then [(digit_val a, r)] else []
   | _ => []
   end).

(** [%M]: [[0-5]\d|\d]. *)
Definition field_M : field := fun s =>
  (match s with
   | String a (String b r) =>
       if in_range "0" "5" a && isdigit b then [(two_digits a b, r)] else []
   | _ => []
   end) ++
  (match s with
   | String a r => if isdigit a then [(digit_val a, r)] else []
   | _ => []
   end).

(** [%Y]: [\d\d\d\d]. *)
Definition field_Y : field := fun s =>
  match s with
  | String a (String b (String c (String d r))) =>
      if isdigit a && isdigit b && isdigit c && isdigit d
      then [(100 * two_digits a b + two_digits c d, r)] else []
  | _ => []
  end.

(** [%m]: [1[0-2]|0[1-9]|[1-9]]. *)
Definition field_m : field := fun s =>
  (match s with
   | String a (String b r) =>
       if Ascii.eqb a "1" && in_range "0" "2" b then [(two_digits a b, r)] else []
   | _ => []
   end) ++
  (match s with
   | String a (String b r) =>
       if Ascii.eqb a "0" && in_range "1" "9" b then [(digit_val b, r)] else []
   | _ => []
   end) ++
  (match s with
   | String a r => if in_range "1" "9" a then [(digit_val a, r)] else []
   | _ => []
   end).

(** [%d]: [3[01]|[12]\d|0[1-9]|[1-9]| [1-9]]. *)
Definition field_d : field := fun s =>
  (match s with
   | String a (String b r) =>
       if Ascii.eqb a "3" && in_range "0" "1" b then [(two_digits a b, r)] else []
   | _ => []
   end) ++
  (match s with
   | String a (String b r) =>
       if in_range "1" "2" a && isdigit b then [(two_digits a b, r)] else []
   | _ => []
   end) ++
  (match s with
   | String a (String b r) =>
       if Ascii.eqb a "0" && in_range "1" "9" b then [(digit_val b, r)] else []
   | _ => []
   end) ++
  (match s with
   | String a r => if in_range "1" "9" a then [(digit_val a, r)] else []
   | _ => []
   end) ++
  (match s with
   | String a (String b r) =>
       if Ascii.eqb a " " && in_range "1" "9" b then [(digit_val b, r)] else []
   | _ => []
   end).

(** The first alternative after which the rest of the pattern, [k],
    matches. *)
Fixpoint first_match {A B} (cands : list (A * string))
    (k : A -> string -> option B) : option B :=
  match cands with
  | [] => None
  | (a, r) :: cs =>
      match k a r with
      | Some b => Some b
      | None => first_match cs k
      end
  end.

(** A literal character of the format. *)
Definition lit {B} (c : ascii) (s : string) (k : string -> option B) : option B :=
  match s with
  | String c' r => if Ascii.eqb c' c then k r else None
  | EmptyString => None
  end.

(** [datetime.strptime(s, '%H:%M')]: the hour and the minute, or [None] for
    [ValueError]. *)
Definition strptime_HM (s : string) : option (Z * Z) :=
  match
    first_match (field_H s) (fun h r =>
      lit ":" r (fun r =>
        first_match (field_M r) (fun m r => Some (h, m, r))))
  with
  | Some (h, m, EmptyString) => Some (h, m)
  | Some (_, _, String _ _) => None
  | None => None
  end.

Definition is_leap (y : Z) : bool :=
  (y mod 4 =? 0) && (negb (y mod 100 =? 0) || (y mod 400 =? 0)).

Definition days_in_month (y m : Z) : Z :=
  if m =? 2 then (if is_leap y then 29 else 28)
  else if (m =? 4) || (m =? 6) || (m =? 9) || (m =? 11) then 30
  else 31.

(** [datetime.strptime(s, '%Y-%m-%d')]: year, month and day, or [None] for
    [ValueError] (no match, text left over, year 0 or a day the month does
    not have). *)
Definition strptime_Ymd (s : string) : option (Z * Z * Z) :=
  match
    first_match (field_Y s) (fun y r =>
      lit "-" r (fun r =>
        first_match (field_m r) (fun m r =>
          lit "-" r (fun r =>
            first_match (field_d r) (fun d r => Some (y, m, d, r))))))
  with
  | Some (y, m, d, EmptyString) =>
      if (1 <=? y) && (d <=? days_in_month y m) then Some (y, m, d) else None
  | Some (_, _, _, String _ _) => None
  | None => None
  end.

(** [sorted(l, key=...)] with string keys: a stable sort, ascending in the
    order of [str] comparison (code point by code point). *)
Fixpoint sorted_insert {A} (key : A -> string) (x : A) (l : list A) : list A :=
  match l with
  | [] => [x]
  | y :: l' =>
      if String.leb (key x) (key y) then x :: y :: l'
      else y :: sorted_insert key x l'
  end.

Fixpoint sorted {A} (key : A -> string) (l : list A) : list A :=
  match l with
  | [] => []
  | x :: l' => sorted_insert key x (sorted key l')
  end.

(** [enumerate(l)] with the index shifted by [start]. *)
Fixpoint enumerate_from {A} (start : Z) (l : list A) : list (Z * A) :=
  match l with
  | [] => []
  | x :: l' => (start, x) :: enumerate_from (start + 1) l'
  end.

(** [l.pop(i)] for [0 <= i < len(l)]: the list without its [i]-th element. *)
Definition pop {A} (i : nat) (l : list A) : list A := take i l ++ drop (S i) l.

(** A [dict] with [str] keys, in insertion order. *)
Definition dict (V : Type) : Type := list (string * V).

(** [d.get(k)]. *)
Fixpoint dict_get {V} (k : string) (d : dict V) : option V :=
  match d with
  | [] => None
  | (k', v) :: d' => if String.eqb k' k then Some v else dict_get k d'
  end.

(** [d[k] = v]: the value is replaced where the key stands, a new key goes
    to the end. *)
Fixpoint dict_set {V} (k : string) (v : V) (d : dict V) : dict V :=
  match d with
  | [] => [(k, v)]
  | (k', v') :: d' =>
      if String.eqb k' k then (k', v) :: d' else (k', v') :: dict_set k v d'
  end.

End Py.

(** ** The bot's data *)

(** [{"date": "YYYY-MM-DD", "weight": 12.5}] *)
Record weight_entry := { date : string; weight : Py.pyfloat }.

(** [{"time": "HH:MM", "message": "Feed the dog"}] *)
Record reminder_entry := { time : string; message : string }.

(** [{"weights": [...], "reminders": [...]}] *)
Record user_record := {
  weights : list weight_entry;
  reminders : list reminder_entry
}.

(** The data file [dog_care_data.json] as [load_data] can find it:
    - [FileAbsent]: [os.path.exists] is false;
    - [FileUnreadable]: the file is there and [open] or the read raises
      [OSError];
    - [FileUndecodable]: its bytes are not text in the encoding of [open],
      so the read inside [json.load] raises [UnicodeDecodeError];
    - [FileMalformed]: its text is not JSON, an empty or a truncated file
      included: [json.load] raises [json.JSONDecodeError];
    - [FileTooDeep]: its JSON nests deeper than the interpreter's recursion
      limit: [json.load] raises [RecursionError];
    - [FileJson d]: JSON of the shape that the module documents under
      "Data Structure", represented by the dictionary that [json.load]
      returns for it.
    JSON of another shape (a list at the top, a record without its lists, a
    reminder without its time, a key or a time of more digits than [int]
    converts) is outside the model. *)
Inductive data_file :=
  | FileAbsent
  | FileUnreadable
  | FileUndecodable
  | FileMalformed
  | FileTooDeep
  | FileJson (content : Py.dict user_record).

(** What happens when [save_data] writes: success, [open] raising [IOError]
    (the file is left as it was), or the write raising [IOError] after
    [open(..., 'w')] truncated the file, which leaves a prefix of the JSON
    text. *)
Inductive write_result :=
  | WriteOk
  | OpenFails
  | WriteFails.

(** A job of the scheduler: the cron trigger's hour and minute and what the
    job's [send_reminder] closure captured. *)
Record job := {
  job_hour : Z;
  job_minute : Z;
  job_chat_id : Z;
  job_time : string;
  job_message : string
}.

Inductive level := INFO | WARNING | ERROR.

(** The module's globals ([user_data], [scheduler]), the data file and the
    records handed to [logger]. *)
Record state := {
  user_data : Py.dict user_record;
  file : data_file;
  scheduler : gmap string job;
  logged : list (level * string)
}.

(** [context.user_data] of one user: the keys ['temp_weight'] and
    ['temp_reminder_time'], [None] when the key is absent. *)
Record context := {
  temp_weight : option Py.pyfloat;
  temp_reminder_time : option string
}.

(** What a handler reads from [update] and [context.args]. *)
Record update := {
  from_user_id : Z;
  first_name : string;
  text : string;
  args : list string
}.

(** What a handler reads from its surroundings: the value of
    [datetime.now().strftime('%Y-%m-%d')] and the fate of the write that
    [save_data] attempts. *)
Record env := {
  today : string;
  disk : write_result
}.

(** The texts passed to [reply_text], one constructor per text, with the
    values interpolated in it. *)
Inductive reply :=
  | Welcome (user_name : string)
  | AskWeight
  | AskWeightDate
  | InvalidWeight
  | InvalidDate
  | WeightRecorded (w : Py.pyfloat) (d : string)
  | WeightWentWrong
  | NoWeights
  | WeightHistory (entries : list weight_entry)
  | AskReminderTime
  | AskReminderMessage
  | InvalidTimeFormat
  | ReminderSet (reminder_time reminder_message : string)
  | ReminderNotScheduled
  | ReminderWentWrong
  | NoReminders
  | ReminderList (numbered : list (Z * reminder_entry))
  | DeleteNeedsNumber
  | DeleteInvalidNumber
  | DeleteDone (reminder_message reminder_time : string)
  | DeleteInvalidInput
  | DeleteError
  | Canceled.

(** What a handler leaves behind: the globals, the user's context, the
    replies sent and how control left it.  When [out_raised] is [None] the
    handler returned [out_return] ([None] for the handlers that return
    nothing); when it is [Some e] the exception [e] left the handler after
    the changes that the outcome records. *)
Record outcome := {
  out_state : state;
  out_context : context;
  out_replies : list reply;
  out_return : option Z;
  out_raised : option Py.exn
}.

Definition GET_WEIGHT : Z := 0.
Definition GET_WEIGHT_DATE : Z := 1.
Definition GET_REMINDER_TIME : Z := 0.
Definition GET_REMINDER_MESSAGE : Z := 1.
(** [ConversationHandler.END] *)
Definition END : Z := -1.

(** ** Helper functions *)

Definition log (lv : level) (msg : string) (st : state) : state :=
  {| user_data := user_data st; file := file st;
     scheduler := scheduler st; logged := logged st ++ [(lv, msg)] |}.

Definition set_user_data (d : Py.dict user_record) (st : state) : state :=
  {| user_data := d; file := file st;
     scheduler := scheduler st; logged := logged st |}.

Definition set_file (f : data_file) (st : state) : state :=
  {| user_data := user_data st; file := f;
     scheduler := scheduler st; logged := logged st |}.

Definition set_scheduler (j : gmap string job) (st : state) : state :=
  {| user_data := user_data st; file := file st;
     scheduler := j; logged := logged st |}.

(** [load_data]: only [json.JSONDecodeError] is caught. *)
Definition load_data (st : state) : Py.result state :=
  match file st with
  | FileAbsent =>
      Py.Ok (log INFO "Data file not found. Starting with empty data." st)
  | FileUnreadable => Py.Raise Py.OSError
  | FileUndecodable => Py.Raise Py.UnicodeDecodeError
  | FileTooDeep => Py.Raise Py.RecursionError
  | FileMalformed =>
      Py.Ok (set_user_data []
               (log WARNING
                    "Data file is corrupt or empty. Starting with empty data." st))
  | FileJson d =>
      Py.Ok (log INFO "Data loaded successfully." (set_user_data d st))
  end.

(** [save_data]: [IOError] is caught and logged. *)
Definition save_data (w : write_result) (st : state) : state :=
  match w with
  | WriteOk =>
      log INFO "Data saved successfully." (set_file (FileJson (user_data st)) st)
  | OpenFails => log ERROR "Error saving data" st
  | WriteFails => log ERROR "Error saving data" (set_file FileMalformed st)
  end.

Definition empty_record : user_record := {| weights := []; reminders := [] |}.

(** [get_user_data]: the dictionary after the call and the record returned. *)
Definition get_user_data (user_id : Z) (d : Py.dict user_record)
    : Py.dict user_record * user_record :=
  match Py.dict_get (Py.str user_id) d with
  | Some r => (d, r)
  | None => (Py.dict_set (Py.str user_id) empty_record d, empty_record)
  end.

(** The f-string that names a reminder's job. *)
Definition job_id (chat_id : Z) (reminder_time reminder_message : string) : string :=
  "reminder_" +:+ Py.str chat_id +:+ "_" +:+ reminder_time +:+ "_"
  +:+ Py.replace " " "_" reminder_message.

(** [hour, minute = map(int, reminder_time.split(':'))]; every failure is a
    [ValueError]. *)
Definition parse_hour_minute (reminder_time : string) : option (Z * Z) :=
  match Py.split_on ":" reminder_time with
  | [a; b] =>
      match Py.int a, Py.int b with
      | Some h, Some m => Some (h, m)
      | _, _ => None
      end
  | _ => None
  end.

(** [CronTrigger(hour=hour, minute=minute)] raises [ValueError] outside the
    fields' ranges. *)
Definition cron_trigger_ok (hour minute : Z) : bool :=
  (0 <=? hour) && (hour <=? 23) && (0 <=? minute) && (minute <=? 59).

(** [schedule_reminder_job]: the value returned is [None] when the function
    ends in its bare [return]. *)
Definition schedule_reminder_job (chat_id : Z)
    (reminder_time reminder_message : string) (st : state)
    : state * option bool :=
  match parse_hour_minute reminder_time with
  | None => (log ERROR ("Invalid time format: " +:+ reminder_time) st, Some false)
  | Some (hour, minute) =>
      let jid := job_id chat_id reminder_time reminder_message in
      match scheduler st !! jid with
      | Some _ =>
          (log INFO ("Job '" +:+ jid +:+ "' already exists. Skipping scheduling.") st,
           None)
      | None =>
          if cron_trigger_ok hour minute then
            (log INFO ("Reminder scheduled for chat_id " +:+ Py.str chat_id
                       +:+ " at " +:+ reminder_time +:+ " with message: "
                       +:+ reminder_message)
               (set_scheduler
                  (<[jid := {| job_hour := hour; job_minute := minute;
                               job_chat_id := chat_id;
                               job_time := reminder_time;
                               job_message := reminder_message |}]>
                     (scheduler st)) st),
             Some true)
          else
            (log ERROR ("Invalid time format: " +:+ reminder_time) st, Some false)
      end
  end.

(** [remove_reminder_job]: [scheduler.remove_job] raises [JobLookupError]
    for an unknown id, which is caught. *)
Definition remove_reminder_job (jid : string) (st : state) : state * bool :=
  match scheduler st !! jid with
  | Some _ =>
      (log INFO ("Job '" +:+ jid +:+ "' removed successfully from scheduler.")
         (set_scheduler (delete jid (scheduler st)) st),
       true)
  | None =>
      (log WARNING ("Job '" +:+ jid +:+ "' not found in scheduler.") st, false)
  end.

(** The inner loop of [repopulate_scheduled_jobs]. *)
Fixpoint schedule_all (chat_id : Z) (rs : list reminder_entry) (st : state) : state :=
  match rs with
  | [] => st
  | r :: rs' =>
      schedule_all chat_id rs'
        (fst (schedule_reminder_job chat_id (time r) (message r) st))
  end.

(** The outer loop: [int(user_id_str)] is outside any [try]. *)
Fixpoint repopulate_users (items : Py.dict user_record) (st : state)
    : Py.result state :=
  match items with
  | [] => Py.Ok st
  | (user_id_str, data) :: items' =>
      match Py.int user_id_str with
      | None => Py.Raise Py.ValueError
      | Some chat_id =>
          repopulate_users items' (schedule_all chat_id (reminders data) st)
      end
  end.

Definition repopulate_scheduled_jobs (st : state) : Py.result state :=
  match repopulate_users (user_data st) st with
  | Py.Ok st' => Py.Ok (log INFO "Scheduled jobs repopulated from data file." st')
  | Py.Raise e => Py.Raise e
  end.

(** ** Command handlers *)

(** A handler that sends the replies [rs] and returns [ret]. *)
Definition reply_text (rs : list reply) (ret : option Z) (ctx : context)
    (st : state) : outcome :=
  {| out_state := st; out_context := ctx; out_replies := rs;
     out_return := ret; out_raised := None |}.

(** A handler that the exception [e] leaves before any reply, with the
    globals as they are by then. *)
Definition raises (e : Py.exn) (ctx : context) (st : state) : outcome :=
  {| out_state := st; out_context := ctx; out_replies := [];
     out_return := None; out_raised := Some e |}.

(** [context.dispatcher.updater]: the [Dispatcher] of python-telegram-bot
    13, the release whose interface the module imports ([Updater],
    [Filters], [CallbackContext.dispatcher]), has no attribute [updater], so
    reading it raises [AttributeError]. *)
Definition dispatcher_updater : Py.result unit := Py.Raise Py.AttributeError.

Definition set_temp_weight (w : option Py.pyfloat) (ctx : context) : context :=
  {| temp_weight := w; temp_reminder_time := temp_reminder_time ctx |}.

Definition set_temp_reminder_time (t : option string) (ctx : context) : context :=
  {| temp_weight := temp_weight ctx; temp_reminder_time := t |}.

Definition start (e : env) (u : update) (ctx : context) (st : state)
    : Py.result outcome :=
  Py.Ok (reply_text [Welcome (first_name u)] None ctx st).

Definition add_weight_start (e : env) (u : update) (ctx : context) (st : state)
    : Py.result outcome :=
  Py.Ok (reply_text [AskWeight] (Some GET_WEIGHT) ctx st).

(** [weight_str.split()[0]] raises [IndexError], which no [except] clause of
    the handler catches, when the text has no token. *)
Definition add_weight_get_weight (e : env) (u : update) (ctx : context)
    (st : state) : Py.result outcome :=
  match Py.split_ws (text u) with
  | [] => Py.Raise Py.IndexError
  | tok :: _ =>
      match Py.float tok with
      | Some w =>
          Py.Ok (reply_text [AskWeightDate] (Some GET_WEIGHT_DATE)
                   (set_temp_weight (Some w) ctx) st)
      | None => Py.Ok (reply_text [InvalidWeight] (Some GET_WEIGHT) ctx st)
      end
  end.

(** The date that [add_weight_get_date] stores for the text it received, or
    [None] when it asks again. *)
Definition resolve_date (e : env) (txt : string) : option string :=
  let date_str := Py.lower txt in
  if String.eqb date_str "today" then Some (today e)
  else match Py.strptime_Ymd date_str with
       | Some _ => Some date_str
       | None => None
       end.

Definition add_weight_get_date (e : env) (u : update) (ctx : context)
    (st : state) : Py.result outcome :=
  match resolve_date e (text u) with
  | None => Py.Ok (reply_text [InvalidDate] (Some GET_WEIGHT_DATE) ctx st)
  | Some d =>
      let user_id := from_user_id u in
      let '(ud, user_data_entry) := get_user_data user_id (user_data st) in
      match temp_weight ctx with
      | Some w =>
          let entry' :=
            {| weights := weights user_data_entry ++ [{| date := d; weight := w |}];
               reminders := reminders user_data_entry |} in
          let st1 := set_user_data (Py.dict_set (Py.str user_id) entry' ud) st in
          let st2 := save_data (disk e) st1 in
          Py.Ok (reply_text [WeightRecorded w d] (Some END)
                   (set_temp_weight None ctx) st2)
      | None =>
          Py.Ok (reply_text [WeightWentWrong] (Some END)
                   (set_temp_weight None ctx) (set_user_data ud st))
      end
  end.

Definition view_weights (e : env) (u : update) (ctx : context) (st : state)
    : Py.result outcome :=
  let '(ud, user_data_entry) := get_user_data (from_user_id u) (user_data st) in
  let st1 := set_user_data ud st in
  match weights user_data_entry with
  | [] => Py.Ok (reply_text [NoWeights] None ctx st1)
  | ws => Py.Ok (reply_text [WeightHistory (Py.sorted date ws)] None ctx st1)
  end.

Definition add_reminder_start (e : env) (u : update) (ctx : context)
    (st : state) : Py.result outcome :=
  Py.Ok (reply_text [AskReminderTime] (Some GET_REMINDER_TIME) ctx st).

Definition add_reminder_get_time (e : env) (u : update) (ctx : context)
    (st : state) : Py.result outcome :=
  let time_str := text u in
  match Py.strptime_HM time_str with
  | Some _ =>
      Py.Ok (reply_text [AskReminderMessage] (Some GET_REMINDER_MESSAGE)
               (set_temp_reminder_time (Some time_str) ctx) st)
  | None =>
      Py.Ok (reply_text [InvalidTimeFormat] (Some GET_REMINDER_TIME) ctx st)
  end.

(** Truth value of an optional [str]: [None] and [''] are false. *)
Definition truthy (s : option string) : option string :=
  match s with
  | Some EmptyString => None
  | _ => s
  end.

(** [add_reminder_get_message]: the arguments of the call of
    [schedule_reminder_job] are evaluated before the call, and the first of
    them is [context.dispatcher.updater]; the exception leaves the handler
    after the append and [save_data()], outside any [try]. *)
Definition add_reminder_get_message (e : env) (u : update) (ctx : context)
    (st : state) : Py.result outcome :=
  let reminder_message := text u in
  match truthy (temp_reminder_time ctx), truthy (Some reminder_message) with
  | Some reminder_time, Some _ =>
      let user_id := from_user_id u in
      let '(ud, user_data_entry) := get_user_data user_id (user_data st) in
      let entry' :=
        {| weights := weights user_data_entry;
           reminders := reminders user_data_entry
                        ++ [{| time := reminder_time; message := reminder_message |}] |} in
      let st1 := set_user_data (Py.dict_set (Py.str user_id) entry' ud) st in
      let st2 := save_data (disk e) st1 in
      match dispatcher_updater with
      | Py.Raise ex => Py.Ok (raises ex ctx st2)
      | Py.Ok _ =>
          let '(st3, scheduled) :=
            schedule_reminder_job user_id reminder_time reminder_message st2 in
          Py.Ok (reply_text
                   [match scheduled with
                    | Some true => ReminderSet reminder_time reminder_message
                    | _ => ReminderNotScheduled
                    end]
                   (Some END) (set_temp_reminder_time None ctx) st3)
      end
  | _, _ =>
      Py.Ok (reply_text [ReminderWentWrong] (Some END)
               (set_temp_reminder_time None ctx) st)
  end.

Definition list_reminders (e : env) (u : update) (ctx : context) (st : state)
    : Py.result outcome :=
  let '(ud, user_data_entry) := get_user_data (from_user_id u) (user_data st) in
  let st1 := set_user_data ud st in
  match reminders user_data_entry with
  | [] => Py.Ok (reply_text [NoReminders] None ctx st1)
  | rs => Py.Ok (reply_text [ReminderList (Py.enumerate_from 1 rs)] None ctx st1)
  end.

Definition delete_reminder (e : env) (u : update) (ctx : context) (st : state)
    : Py.result outcome :=
  let user_id := from_user_id u in
  let '(ud, user_data_entry) := get_user_data user_id (user_data st) in
  let st0 := set_user_data ud st in
  let rs := reminders user_data_entry in
  match args u with
  | [] => Py.Ok (reply_text [DeleteNeedsNumber] None ctx st0)
  | arg :: _ =>
      match Py.int arg with
      | None => Py.Ok (reply_text [DeleteInvalidInput] None ctx st0)
      | Some n =>
          let index_to_delete := n - 1 in
          if negb ((0 <=? index_to_delete)
                   && (index_to_delete <? Z.of_nat (length rs))) then
            Py.Ok (reply_text [DeleteInvalidNumber] None ctx st0)
          else
            match rs !! Z.to_nat index_to_delete with
            | None =>
                (* [pop] raising [IndexError]: the [except Exception] clause *)
                Py.Ok (reply_text [DeleteError] None ctx
                         (log ERROR "Error deleting reminder" st0))
            | Some deleted_reminder =>
                let entry' :=
                  {| weights := weights user_data_entry;
                     reminders := Py.pop (Z.to_nat index_to_delete) rs |} in
                let st1 :=
                  set_user_data (Py.dict_set (Py.str user_id) entry' ud) st0 in
                let st2 := save_data (disk e) st1 in
                let jid := job_id user_id (time deleted_reminder)
                                  (message deleted_reminder) in
                let st3 := fst (remove_reminder_job jid st2) in
                Py.Ok (reply_text
                         [DeleteDone (message deleted_reminder)
                                     (time deleted_reminder)]
                         None ctx st3)
            end
      end
  end.

Definition empty_context : context :=
  {| temp_weight := None; temp_reminder_time := None |}.

Definition cancel (e : env) (u : update) (ctx : context) (st : state)
    : Py.result outcome :=
  Py.Ok (reply_text [Canceled] (Some END) empty_context
           (log INFO ("User " +:+ first_name u +:+ " canceled the conversation.") st)).

(** ** The running bot *)

(** [main] up to [updater.start_polling()]: the module starts with an empty
    [user_data] and a fresh scheduler, loads the data file and repopulates
    the scheduler.  An exception here ends the process. *)
Definition initial_state (f : data_file) : state :=
  {| user_data := []; file := f; scheduler := ∅; logged := [] |}.

Definition main_startup (f : data_file) : Py.result state :=
  Py.bind (load_data (initial_state f)) repopulate_scheduled_jobs.

(** The handlers registered on the dispatcher. *)
Inductive handler :=
  | HStart
  | HAddWeightStart
  | HAddWeightGetWeight
  | HAddWeightGetDate
  | HViewWeights
  | HAddReminderStart
  | HAddReminderGetTime
  | HAddReminderGetMessage
  | HListReminders
  | HDeleteReminder
  | HCancel.

Definition run_handler (h : handler)
    : env -> update -> context -> state -> Py.result outcome :=
  match h with
  | HStart => start
  | HAddWeightStart => add_weight_start
  | HAddWeightGetWeight => add_weight_get_weight
  | HAddWeightGetDate => add_weight_get_date
  | HViewWeights => view_weights
  | HAddReminderStart => add_reminder_start
  | HAddReminderGetTime => add_reminder_get_time
  | HAddReminderGetMessage => add_reminder_get_message
  | HListReminders => list_reminders
  | HDeleteReminder => delete_reminder
  | HCancel => cancel
  end.

(** The process between two updates: the globals and the dispatcher's
    per-user [user_data] dictionaries. *)
Record bot := {
  globals : state;
  contexts : gmap Z context
}.

Definition context_of (b : bot) (user_id : Z) : context :=
  default empty_context (contexts b !! user_id).

(** [error_handler] *)
Definition error_handler (st : state) : state :=
  log WARNING "Update caused error" st.

(** One update handled by one handler.  An exception that leaves the
    handler goes to [error_handler], which logs it; what the handler had
    changed by then stays changed. *)
Definition dispatch (h : handler) (e : env) (u : update) (b : bot) : bot :=
  match run_handler h e u (context_of b (from_user_id u)) (globals b) with
  | Py.Ok o =>
      {| globals := match out_raised o with
                    | Some _ => error_handler (out_state o)
                    | None => out_state o
                    end;
         contexts := <[from_user_id u := out_context o]> (contexts b) |}
  | Py.Raise _ =>
      {| globals := error_handler (globals b); contexts := contexts b |}
  end.

(** A text message from a user, as the conversation handlers see it. *)
Definition text_update (user_id : Z) (txt : string) : update :=
  {| from_user_id := user_id; first_name := ""; text := txt; args := [] |}.

(** [/deletereminder] followed by arguments. *)
Definition command_update (user_id : Z) (arguments : list string) : update :=
  {| from_user_id := user_id; first_name := ""; text := ""; args := arguments |}.

(** The add-reminder conversation after [/addreminder]: the user sends the
    time, then the message. *)
Definition addReminder (e : env) (user_id : Z)
    (reminder_time reminder_message : string) (b : bot) : bot :=
  dispatch HAddReminderGetMessage e (text_update user_id reminder_message)
    (dispatch HAddReminderGetTime e (text_update user_id reminder_time) b).

(** The add-weight conversation after [/addweight]: the user sends the
    weight, then the date. *)
Definition addWeight (e : env) (user_id : Z)
    (weight_text date_text : string) (b : bot) : bot :=
  dispatch HAddWeightGetDate e (text_update user_id date_text)
    (dispatch HAddWeightGetWeight e (text_update user_id weight_text) b).

(** The reminders and the weights that the Store holds for a user; none
    when the user has no record. *)
Definition user_reminders (user_id : Z) (d : Py.dict user_record)
    : list reminder_entry :=
  match Py.dict_get (Py.str user_id) d with
  | Some r => reminders r
  | None => []
  end.

Definition user_weights (user_id : Z) (d : Py.dict user_record)
    : list weight_entry :=
  match Py.dict_get (Py.str user_id) d with
  | Some r => weights r
  | None => []
  end.

(** The data file that the process leaves: [main] saves once more when
    [updater.idle()] returns; a killed process does not. *)
Definition file_at_exit (graceful : option write_result) (b : bot) : data_file :=
  match graceful with
  | Some w => file (save_data w (globals b))
  | None => file (globals b)
  end.

(** The data model of the Store: every key reads as an integer and every
    reminder's time is one that [add_reminder_get_time] lets through. *)
Definition record_ok (r : user_record) : bool :=
  forallb (fun x => bool_decide (is_Some (Py.strptime_HM (time x)))) (reminders r).

Definition store_ok (d : Py.dict user_record) : bool :=
  forallb (fun kv => bool_decide (is_Some (Py.int (fst kv))) && record_ok (snd kv)) d.

(** A data file that [load_data] can read and whose content, if any, fits
    the data model. *)
Definition file_ok (f : data_file) : bool :=
  match f with
  | FileJson d => store_ok d
  | FileUnreadable | FileUndecodable | FileTooDeep => false
  | FileAbsent | FileMalformed => true
  end.

(** The bot right after [main] started on the data file [f].  (When the
    start raises, the process ends; the globals are then left as the module
    defines them.) *)
Definition boot (f : data_file) : bot :=
  {| globals := match main_startup f with
                | Py.Ok st => st
                | Py.Raise _ => initial_state f
                end;
     contexts := ∅ |}.

(** Whether the reconciler was the last thing to run. *)
Inductive phase :=
  | JustReconciled
  | Serving.

(** The states of a bot that first started on the data file [f0]: the
    start, then any handler on any update and any number of restarts, each
    of which runs the reconciler again.  A start that raises ends the
    process and yields no state. *)
Inductive reachable (f0 : data_file) : phase -> bot -> Prop :=
  | reach_boot st :
      main_startup f0 = Py.Ok st ->
      reachable f0 JustReconciled {| globals := st; contexts := ∅ |}
  | reach_update p b h e u :
      reachable f0 p b ->
      reachable f0 Serving (dispatch h e u b)
  | reach_restart p b graceful st :
      reachable f0 p b ->
      main_startup (file_at_exit graceful b) = Py.Ok st ->
      reachable f0 JustReconciled {| globals := st; contexts := ∅ |}.

(** An identity is derivable from the Store when some persisted reminder
    yields it, with the recipient that [repopulate_scheduled_jobs] reads off
    the user's key. *)
Definition derivable (d : Py.dict user_record) (jid : string) : Prop :=
  exists k r x chat_id,
    (k, r) ∈ d /\ x ∈ reminders r /\ Py.int k = Some chat_id
    /\ jid = job_id chat_id (time x) (message x).

(** A time that [schedule_reminder_job] turns into a trigger: two fields
    around one colon that [int] reads as an hour up to 23 and a minute up
    to 59. *)
Definition schedulable (reminder_time : string) : bool :=
  match parse_hour_minute reminder_time with
  | Some (hour, minute) => cron_trigger_ok hour minute
  | None => false
  end.

(** The identities of the persisted reminders whose time is schedulable. *)
Definition derivable_schedulable (d : Py.dict user_record) (jid : string) : Prop :=
  exists k r x chat_id,
    (k, r) ∈ d /\ x ∈ reminders r /\ Py.int k = Some chat_id
    /\ schedulable (time x) = true
    /\ jid = job_id chat_id (time x) (message x).

(** The identities that the data file yields: those of its content, none
    for a file without content. *)
Definition derivable_file (f : data_file) (jid : string) : Prop :=
  match f with
  | FileJson d => derivable d jid
  | FileAbsent | FileUnreadable | FileUndecodable | FileMalformed
  | FileTooDeep => False
  end.

(** The data file yields the identities that the Store yields. *)
Definition synced (st : state) : Prop :=
  forall jid, derivable (user_data st) jid <-> derivable_file (file st) jid.

(** ** Invariants of the running bot *)

(** A time kept in a user's context has passed [add_reminder_get_time]. *)
Definition context_ok (ctx : context) : Prop :=
  forall t, temp_reminder_time ctx = Some t -> is_Some (Py.strptime_HM t).

(** Every live job has a backing reminder in the Store. *)
Definition consistent (st : state) : Prop :=
  forall jid, jid ∈ dom (scheduler st) -> derivable (user_data st) jid.

(** The Store and the data file fit the data model. *)
Definition state_inv (st : state) : Prop :=
  store_ok (user_data st) = true /\ file_ok (file st) = true.

Definition bot_inv (b : bot) : Prop :=
  state_inv (globals b)
  /\ forall user_id ctx, contexts b !! user_id = Some ctx -> context_ok ctx.

(** ** Firing *)

(** The closure [send_reminder] of a job: the message handed to
    [bot.send_message] and the record logged after it. *)
Definition send_reminder (j : job) (st : state) : state * (Z * string) :=
  (log INFO ("Reminder sent to " +:+ Py.str (job_chat_id j) +:+ " at "
             +:+ job_time j) st,
   (job_chat_id j, "🔔 Reminder: " +:+ job_message j)).

(** [CronTrigger(hour=hour, minute=minute)] is due once a day, when the
    clock shows that hour and minute. *)
Definition due (hour minute : Z) (j : job) : bool :=
  (job_hour j =? hour) && (job_minute j =? minute).

(** The scheduler's work at one minute of the day: every due job runs its
    [send_reminder]; the job table is not touched.  The jobs of one minute
    run in no particular order. *)
Fixpoint run_jobs (js : list job) (st : state) : state * list (Z * string) :=
  match js with
  | [] => (st, [])
  | j :: js' =>
      let '(st1, sent) := send_reminder j st in
      let '(st2, rest) := run_jobs js' st1 in
      (st2, sent :: rest)
  end.

Definition fire (hour minute : Z) (st : state) : state * list (Z * string) :=
  run_jobs (filter (fun j => due hour minute j = true)
              ((map_to_list (scheduler st)).*2)) st.

(** A job stands under the identity of what it captured, and its trigger
    is the hour and the minute of its time string, within the ranges of a
    cron trigger. *)
Definition job_ok (jid : string) (j : job) : Prop :=
  jid = job_id (job_chat_id j) (job_time j) (job_message j)
  /\ parse_hour_minute (job_time j) = Some (job_hour j, job_minute j)
  /\ cron_trigger_ok (job_hour j) (job_minute j) = true.

(** A job is backed by the Store when some persisted reminder of its
    recipient has its time and its message. *)
Definition backed (d : Py.dict user_record) (j : job) : Prop :=
  exists k r x,
    (k, r) ∈ d /\ x ∈ reminders r /\ Py.int k = Some (job_chat_id j)
    /\ time x = job_time j /\ message x = job_message j.

Definition jobs_backed (st : state) : Prop :=
  forall jid j, scheduler st !! jid = Some j ->
                job_ok jid j /\ backed (user_data st) j.

(** ** Dates *)

(** The place of an accepted date in the calendar: year, month and day as
    one number. *)
Definition date_key (s : string) : Z :=
  match Py.strptime_Ymd s with
  | Some (y, m, d) => 10000 * y + 100 * m + d
  | None => 0
  end.

(** A canonical date: accepted by [strptime], ten characters and no space,
    which is [YYYY-MM-DD] with every field padded with zeros. *)
Definition canonical_date (s : string) : bool :=
  bool_decide (is_Some (Py.strptime_Ymd s))
  && (String.length s =? 10)%nat
  && Py.all_chars (fun c => negb (Ascii.eqb c " ")) s.

(** * Properties *)

(** ** Python built-ins *)

Example int_examples :
  Py.int "08" = Some 8 /\ Py.int " 1_0 " = Some 10 /\ Py.int "-7" = Some (-7)
  /\ Py.int "" = None /\ Py.int "1__0" = None /\ Py.int "abc" = None
  /\ Py.int "- 5" = None /\ Py.int "+" = None /\ Py.int "5_" = None.
Proof. repeat split; reflexivity. Qed.

Example str_examples :
  Py.str 42 = "42" /\ Py.str 0 = "0" /\ Py.str (-7) = "-7".
Proof. repeat split; reflexivity. Qed.

Example split_examples :
  Py.split_on ":" "08:30" = ["08"; "30"] /\ Py.split_on ":" "" = [""]
  /\ Py.split_on ":" "a::b" = ["a"; ""; "b"]
  /\ Py.split_ws "  12.5  kg " = ["12.5"; "kg"] /\ Py.split_ws "   " = [].
Proof. repeat split; reflexivity. Qed.

Example float_examples :
  Py.float "12.5" = Some (Py.FNum false 125 (-1))
  /\ Py.float "-5" = Some (Py.FNum true 5 0)
  /\ Py.float " 1e3 " = Some (Py.FNum false 1 3)
  /\ Py.float ".5" = Some (Py.FNum false 5 (-1))
  /\ Py.float "5." = Some (Py.FNum false 5 0)
  /\ Py.float "." = None /\ Py.float "kg" = None /\ Py.float "1.2.3" = None
  /\ Py.float "NaN" = Some Py.FNan /\ Py.float "-Inf" = Some (Py.FInf true)
  /\ Py.float "1e" = None /\ Py.float "" = None /\ Py.float "1_0.5" = Some (Py.FNum false 105 (-1)).
Proof. repeat split; reflexivity. Qed.

Example strptime_examples :
  Py.strptime_HM "08:30" = Some (8, 30) /\ Py.strptime_HM "8:5" = Some (8, 5)
  /\ Py.strptime_HM "23:59" = Some (23, 59) /\ Py.strptime_HM "25:00" = None
  /\ Py.strptime_HM "24:00" = None /\ Py.strptime_HM "12:60" = None
  /\ Py.strptime_HM "12:30 " = None /\ Py.strptime_HM "1230" = None
  /\ Py.strptime_Ymd "2024-02-29" = Some (2024, 2, 29)
  /\ Py.strptime_Ymd "2023-02-29" = None
  /\ Py.strptime_Ymd "2024-1-5" = Some (2024, 1, 5)
  /\ Py.strptime_Ymd "2024-13-01" = None
  /\ Py.strptime_Ymd "0000-01-01" = None
  /\ Py.strptime_Ymd "2024-01-32" = None
  /\ Py.strptime_Ymd "2024-01- 5" = Some (2024, 1, 5).
Proof. repeat split; reflexivity. Qed.

(** [int] and [float] keep the separators 0x1c-0x1f, which [str.split]
    drops: ["\x1c8"] is no integer. *)
Example int_white_space :
  Py.int (String "009" "8 ") = Some 8
  /\ Py.int (String "028" "8") = None
  /\ Py.int (String "8" (String "031" "")) = None
  /\ Py.float (String "028" "1.5") = None
  /\ Py.split_ws (String "028" "8") = ["8"]
  /\ parse_hour_minute (String "028" "8:30") = None.
Proof. repeat split; reflexivity. Qed.

Lemma isdigit_cases c :
  Py.isdigit c = true ->
  c ∈ ["0"; "1"; "2"; "3"; "4"; "5"; "6"; "7"; "8"; "9"]%char.
Proof.
  intros H.
  assert (Hc : ascii_of_N (N_of_ascii c) = c) by apply ascii_N_embedding.
  unfold Py.isdigit in H. apply andb_true_iff in H as [H1 H2].
  apply N.leb_le in H1, H2.
  remember (N_of_ascii c) as n eqn:Hn. clear Hn.
  assert (Hn : (n = 48 \/ n = 49 \/ n = 50 \/ n = 51 \/ n = 52 \/ n = 53
                \/ n = 54 \/ n = 55 \/ n = 56 \/ n = 57)%N) by lia.
  rewrite <- Hc.
  repeat (destruct Hn as [-> | Hn]; [set_solver |]). subst n. set_solver.
Qed.

Lemma isdigit_not_space c : Py.isdigit c = true -> Py.isspace_c c = false.
Proof.
  intros H. apply isdigit_cases in H.
  repeat (apply elem_of_cons in H as [-> | H]; [reflexivity |]).
  by apply elem_of_nil in H.
Qed.

Lemma isdigit_not_sign c :
  Py.isdigit c = true -> Ascii.eqb c "-" = false /\ Ascii.eqb c "+" = false.
Proof.
  intros H. apply isdigit_cases in H.
  repeat (apply elem_of_cons in H as [-> | H]; [split; reflexivity |]).
  by apply elem_of_nil in H.
Qed.

Lemma isdigit_not_underscore c : Py.isdigit c = true -> Ascii.eqb c "_" = false.
Proof.
  intros H. apply isdigit_cases in H.
  repeat (apply elem_of_cons in H as [-> | H]; [reflexivity |]).
  by apply elem_of_nil in H.
Qed.

Lemma isdigit_not_colon c : Py.isdigit c = true -> Ascii.eqb c ":" = false.
Proof.
  intros H. apply isdigit_cases in H.
  repeat (apply elem_of_cons in H as [-> | H]; [reflexivity |]).
  by apply elem_of_nil in H.
Qed.

Lemma all_chars_impl (p q : ascii -> bool) s :
  (forall c, p c = true -> q c = true) ->
  Py.all_chars p s = true -> Py.all_chars q s = true.
Proof.
  intros Hpq. induction s as [|c s IH]; simpl; [done |].
  intros [Hc Hs]%andb_true_iff. rewrite (Hpq _ Hc). by apply IH.
Qed.

Lemma all_chars_app p s t :
  Py.all_chars p (s +:+ t) = Py.all_chars p s && Py.all_chars p t.
Proof.
  induction s as [|c s IH]; simpl; [done |]. by rewrite IH, andb_assoc.
Qed.

Lemma rstrip_no_space s :
  Py.all_chars (fun c => negb (Py.isspace_c c)) s = true -> Py.rstrip s = s.
Proof.
  induction s as [|c s IH]; simpl; [done |].
  intros [Hc Hs]%andb_true_iff. rewrite (IH Hs).
  apply negb_true_iff in Hc. rewrite Hc. by destruct s.
Qed.

Lemma strip_no_space s :
  Py.all_chars (fun c => negb (Py.isspace_c c)) s = true -> Py.strip s = s.
Proof.
  intros H. unfold Py.strip.
  assert (Py.lstrip s = s) as ->; [| by apply rstrip_no_space].
  destruct s as [|c s]; simpl in *; [done |].
  apply andb_true_iff in H as [Hc _]. apply negb_true_iff in Hc. by rewrite Hc.
Qed.

Lemma digitpart_go_digits prev s :
  Py.all_chars Py.isdigit s = true ->
  (s <> "" \/ prev = true) ->
  Py.digitpart_go prev s = Some s.
Proof.
  revert prev. induction s as [|c s IH]; simpl; intros prev Hs Hne.
  - destruct Hne as [? | ->]; done.
  - apply andb_true_iff in Hs as [Hc Hs]. rewrite Hc.
    rewrite (IH true Hs); [done | by right].
Qed.

(** [int] on a non-empty string of digits is the value of the digits. *)
Lemma int_digits s :
  Py.all_chars Py.isdigit s = true -> s <> "" ->
  Py.int s = Py.digits_val s.
Proof.
  intros Hs Hne. unfold Py.int.
  rewrite strip_no_space.
  2:{ eapply all_chars_impl; [| exact Hs].
      intros c Hc. by rewrite (isdigit_not_space c Hc). }
  unfold Py.signed_digitpart, Py.take_sign.
  destruct s as [|c s]; [done |].
  pose proof Hs as Hs'. simpl in Hs'. apply andb_true_iff in Hs' as [Hc _].
  destruct (isdigit_not_sign c Hc) as [-> ->].
  unfold Py.digitpart. rewrite digitpart_go_digits; [| done | by left].
  by destruct (Py.digits_val (String c s)).
Qed.

Lemma int_minus_digits s :
  Py.all_chars Py.isdigit s = true -> s <> "" ->
  Py.int (String "-" s) = (fun v => - v) <$> Py.digits_val s.
Proof.
  intros Hs Hne. unfold Py.int.
  rewrite strip_no_space.
  2:{ simpl. eapply all_chars_impl; [| exact Hs].
      intros c Hc. by rewrite (isdigit_not_space c Hc). }
  unfold Py.signed_digitpart, Py.take_sign. simpl.
  unfold Py.digitpart. rewrite digitpart_go_digits; [| done | by left].
  by destruct (Py.digits_val s).
Qed.

Lemma string_of_uint_digits d :
  Py.all_chars Py.isdigit (NilEmpty.string_of_uint d) = true.
Proof. induction d; simpl; done. Qed.

Lemma nilzero_uint_props d :
  Py.all_chars Py.isdigit (NilZero.string_of_uint d) = true
  /\ NilZero.string_of_uint d <> ""
  /\ Py.digits_val (NilZero.string_of_uint d) = Some (Z.of_uint d).
Proof.
  assert (d = Decimal.Nil \/ d <> Decimal.Nil) as [-> | Hd]
    by (destruct d; (by left) || (by right)); [done |].
  assert (NilZero.string_of_uint d = NilEmpty.string_of_uint d) as ->
    by (by destruct d).
  split; [apply string_of_uint_digits |].
  split; [by destruct d |].
  unfold Py.digits_val. by rewrite NilEmpty.usu.
Qed.

(** [int(str(n)) == n] *)
Lemma int_str n : Py.int (Py.str n) = Some n.
Proof.
  unfold Py.str.
  pose proof (DecimalZ.of_to n) as Hn.
  destruct (Z.to_int n) as [d | d]; simpl in *.
  - destruct (nilzero_uint_props d) as (Hd & Hne & Hv).
    rewrite int_digits by done. rewrite Hv. f_equal. exact Hn.
  - destruct (nilzero_uint_props d) as (Hd & Hne & Hv).
    rewrite int_minus_digits by done. rewrite Hv. simpl. f_equal. exact Hn.
Qed.

Lemma str_inj a b : Py.str a = Py.str b -> a = b.
Proof.
  intros H. pose proof (int_str a) as Ha. rewrite H, int_str in Ha. congruence.
Qed.

Lemma append_cons c s t : String c s +:+ t = String c (s +:+ t).
Proof. reflexivity. Qed.

Lemma append_empty_r s : s +:+ "" = s.
Proof.
  induction s as [|c s IH]; [done |]. by rewrite append_cons, IH.
Qed.

Lemma int_one_digit a :
  Py.isdigit a = true -> Py.int (String a "") = Some (Py.digit_val a).
Proof.
  intros H. apply isdigit_cases in H.
  repeat (apply elem_of_cons in H as [-> | H]; [reflexivity |]).
  by apply elem_of_nil in H.
Qed.

Lemma int_two_digits a b :
  Py.isdigit a = true -> Py.isdigit b = true ->
  Py.int (String a (String b "")) = Some (Py.two_digits a b).
Proof.
  intros Ha Hb. apply isdigit_cases in Ha, Hb.
  repeat (apply elem_of_cons in Ha as [-> | Ha];
          [repeat (apply elem_of_cons in Hb as [-> | Hb]; [reflexivity |]);
           by apply elem_of_nil in Hb |]).
  by apply elem_of_nil in Ha.
Qed.

Lemma in_range_bounds lo hi c :
  Py.in_range lo hi c = true ->
  (N_of_ascii lo <= N_of_ascii c <= N_of_ascii hi)%N.
Proof.
  unfold Py.in_range. intros [H1 H2]%andb_true_iff.
  apply N.leb_le in H1, H2. lia.
Qed.

Lemma in_range_isdigit lo hi c :
  Py.isdigit lo = true -> Py.isdigit hi = true ->
  Py.in_range lo hi c = true -> Py.isdigit c = true.
Proof.
  intros Hlo Hhi H%in_range_bounds. unfold Py.isdigit in *.
  apply andb_true_iff in Hlo as [Hlo _]. apply andb_true_iff in Hhi as [_ Hhi].
  apply N.leb_le in Hlo, Hhi. apply andb_true_iff. split; apply N.leb_le; lia.
Qed.

Lemma isdigit_bounds c :
  Py.isdigit c = true -> (48 <= N_of_ascii c <= 57)%N.
Proof.
  unfold Py.isdigit. intros [H1 H2]%andb_true_iff.
  apply N.leb_le in H1, H2. lia.
Qed.


Ltac field_cases H :=
  repeat (apply elem_of_app in H as [H | H]);
  repeat case_match; try (by apply elem_of_nil in H);
  apply list_elem_of_singleton in H; injection H as -> ->;
  repeat match goal with
    | H : _ && _ = true |- _ => apply andb_true_iff in H as [? ?]
    | H : Ascii.eqb _ _ = true |- _ => apply Ascii.eqb_eq in H; subst
    end;
  repeat match goal with
    | H : Py.in_range ?lo ?hi ?c = true |- _ =>
        pose proof (in_range_isdigit lo hi c eq_refl eq_refl H);
        apply in_range_bounds in H; simpl in H
    end.

Ltac digit_bounds :=
  repeat match goal with
    | H : Py.isdigit ?c = true |- _ => apply isdigit_bounds in H
    end;
  unfold Py.two_digits, Py.digit_val; simpl N_of_ascii; lia.

Ltac field_solve :=
  match goal with
  | |- context [Some (Py.two_digits ?a ?b)] =>
      exists (String a (String b "")); split; [reflexivity |];
      split; [simpl; rewrite ?andb_true_r;
              repeat match goal with
                | |- _ && _ = true => apply andb_true_iff; split
                end; done |];
      split; [done |];
      split; [by apply int_two_digits | digit_bounds]
  | |- context [Some (Py.digit_val ?a)] =>
      exists (String a ""); split; [reflexivity |];
      split; [simpl; by rewrite ?andb_true_r |];
      split; [done |];
      split; [by apply int_one_digit | digit_bounds]
  end.

Lemma field_H_spec s v r :
  (v, r) ∈ Py.field_H s ->
  exists hs, s = hs +:+ r /\ Py.all_chars Py.isdigit hs = true /\ hs <> ""
             /\ Py.int hs = Some v /\ 0 <= v <= 23.
Proof.
  unfold Py.field_H. intros H.
  destruct s as [|a [|b s]]; field_cases H; field_solve.
Qed.

Lemma field_M_spec s v r :
  (v, r) ∈ Py.field_M s ->
  exists hs, s = hs +:+ r /\ Py.all_chars Py.isdigit hs = true /\ hs <> ""
             /\ Py.int hs = Some v /\ 0 <= v <= 59.
Proof.
  unfold Py.field_M. intros H.
  destruct s as [|a [|b s]]; field_cases H; field_solve.
Qed.

Lemma first_match_Some {A B} (cands : list (A * string))
    (k : A -> string -> option B) b :
  Py.first_match cands k = Some b ->
  exists a r, (a, r) ∈ cands /\ k a r = Some b.
Proof.
  induction cands as [|[a r] cs IH]; simpl; [done |].
  destruct (k a r) eqn:Hk.
  - intros [= ->]. exists a, r. split; [left | done].
  - intros (a' & r' & Hin & Hk')%IH. exists a', r'. split; [by right | done].
Qed.

Lemma lit_Some {B} c s (k : string -> option B) b :
  Py.lit c s k = Some b -> exists r, s = String c r /\ k r = Some b.
Proof.
  destruct s as [|c' r]; simpl; [done |].
  destruct (Ascii.eqb_spec c' c) as [-> |]; [| done]. eauto.
Qed.

(** The texts that [strptime] accepts for ['%H:%M']: one or two digits with
    a value up to 23, a colon, one or two digits with a value up to 59. *)
Lemma strptime_HM_inv s h m :
  Py.strptime_HM s = Some (h, m) ->
  exists hs ms,
    s = hs +:+ ":" +:+ ms
    /\ Py.all_chars Py.isdigit hs = true /\ Py.all_chars Py.isdigit ms = true
    /\ Py.int hs = Some h /\ Py.int ms = Some m
    /\ 0 <= h <= 23 /\ 0 <= m <= 59.
Proof.
  unfold Py.strptime_HM. intros H.
  destruct (Py.first_match _ _) as [[[h' m'] r] |] eqn:Hfm; [| done].
  destruct r; [| done]. injection H as -> ->.
  apply first_match_Some in Hfm as (h' & r1 & Hh & Hfm).
  apply lit_Some in Hfm as (r2 & -> & Hfm).
  apply first_match_Some in Hfm as (m' & r3 & Hm & Hfm).
  injection Hfm as -> -> ->.
  apply field_H_spec in Hh as (hs & -> & Hhs & _ & Hih & Hhr).
  apply field_M_spec in Hm as (ms & -> & Hms & _ & Him & Hmr).
  exists hs, ms. rewrite append_empty_r in *. done.
Qed.

Lemma split_on_no_sep sep s :
  Py.all_chars (fun c => negb (Ascii.eqb c sep)) s = true ->
  Py.split_on sep s = [s].
Proof.
  induction s as [|c s IH]; simpl; [done |].
  intros [Hc Hs]%andb_true_iff. apply negb_true_iff in Hc.
  by rewrite Hc, (IH Hs).
Qed.

Lemma split_on_app sep s t :
  Py.all_chars (fun c => negb (Ascii.eqb c sep)) s = true ->
  Py.split_on sep (s +:+ String sep t) = s :: Py.split_on sep t.
Proof.
  induction s as [|c s IH]; simpl.
  - intros _. by rewrite Ascii.eqb_refl.
  - intros [Hc Hs]%andb_true_iff. apply negb_true_iff in Hc.
    by rewrite Hc, (IH Hs).
Qed.

(** A time that [add_reminder_get_time] accepts is one that
    [schedule_reminder_job] can schedule. *)
Lemma strptime_HM_schedulable s h m :
  Py.strptime_HM s = Some (h, m) ->
  parse_hour_minute s = Some (h, m) /\ cron_trigger_ok h m = true.
Proof.
  intros (hs & ms & -> & Hhs & Hms & Hh & Hm & Hhr & Hmr)%strptime_HM_inv.
  assert (forall x, Py.all_chars Py.isdigit x = true ->
                    Py.all_chars (fun c => negb (Ascii.eqb c ":")) x = true) as Hnc.
  { intros x. apply all_chars_impl. intros c Hc.
    by rewrite (isdigit_not_colon c Hc). }
  split.
  - unfold parse_hour_minute. change (":" +:+ ms) with (String ":" ms).
    rewrite split_on_app, split_on_no_sep by auto. by rewrite Hh, Hm.
  - unfold cron_trigger_ok. repeat (apply andb_true_iff; split); lia.
Qed.

(** ** Job identities *)

Lemma split_at_underscore a b x y :
  Py.all_chars (fun c => negb (Ascii.eqb c "_")) a = true ->
  Py.all_chars (fun c => negb (Ascii.eqb c "_")) b = true ->
  a +:+ String "_" x = b +:+ String "_" y ->
  a = b /\ x = y.
Proof.
  revert b. induction a as [|c a IH]; intros [|d b] Ha Hb H.
  - by injection H as ->.
  - rewrite append_cons in H. injection H as <- _. by simpl in Hb.
  - rewrite append_cons in H. injection H as -> _. by simpl in Ha.
  - rewrite !append_cons in H. injection H as -> H.
    simpl in Ha, Hb.
    apply andb_true_iff in Ha as [_ Ha]. apply andb_true_iff in Hb as [_ Hb].
    destruct (IH b Ha Hb H) as [-> ->]. done.
Qed.

Lemma str_no_underscore n :
  Py.all_chars (fun c => negb (Ascii.eqb c "_")) (Py.str n) = true.
Proof.
  assert (forall s, Py.all_chars Py.isdigit s = true ->
                    Py.all_chars (fun c => negb (Ascii.eqb c "_")) s = true) as Hd.
  { intros s. apply all_chars_impl. intros c Hc.
    by rewrite (isdigit_not_underscore c Hc). }
  unfold Py.str. destruct (Z.to_int n) as [d | d]; simpl;
    destruct (nilzero_uint_props d) as (Hdig & _ & _); auto.
Qed.

Lemma strptime_HM_no_underscore s :
  is_Some (Py.strptime_HM s) ->
  Py.all_chars (fun c => negb (Ascii.eqb c "_")) s = true.
Proof.
  intros [[h m] (hs & ms & -> & Hhs & Hms & _)%strptime_HM_inv].
  assert (forall s, Py.all_chars Py.isdigit s = true ->
                    Py.all_chars (fun c => negb (Ascii.eqb c "_")) s = true) as Hd.
  { intros s. apply all_chars_impl. intros c Hc.
    by rewrite (isdigit_not_underscore c Hc). }
  rewrite !all_chars_app. simpl. rewrite (Hd _ Hhs), (Hd _ Hms). done.
Qed.

(** Two identities are equal exactly when the recipients, the times and the
    messages with their spaces replaced are, provided the times hold no
    underscore. *)
Lemma job_id_eq_iff c1 t1 m1 c2 t2 m2 :
  Py.all_chars (fun c => negb (Ascii.eqb c "_")) t1 = true ->
  Py.all_chars (fun c => negb (Ascii.eqb c "_")) t2 = true ->
  job_id c1 t1 m1 = job_id c2 t2 m2
  <-> c1 = c2 /\ t1 = t2 /\ Py.replace " " "_" m1 = Py.replace " " "_" m2.
Proof.
  intros Ht1 Ht2. split.
  - unfold job_id. intros H. apply (inj (String.app "reminder_")) in H.
    change ("_" +:+ ?x) with (String "_" x) in H.
    apply split_at_underscore in H as [Hc H]; [| apply str_no_underscore ..].
    apply str_inj in Hc.
    apply split_at_underscore in H as [Ht H]; done.
  - by intros (-> & -> & Hm); unfold job_id; rewrite Hm.
Qed.

(** ** The [user_data] dictionary *)

Lemma dict_get_elem {V} k (d : Py.dict V) v :
  Py.dict_get k d = Some v -> (k, v) ∈ d.
Proof.
  induction d as [|[k' v'] d IH]; simpl; [done |].
  destruct (String.eqb_spec k' k) as [-> |].
  - intros [= ->]. left.
  - intros H. right. by apply IH.
Qed.

Lemma dict_get_set_eq {V} k (v : V) d :
  Py.dict_get k (Py.dict_set k v d) = Some v.
Proof.
  induction d as [|[k' v'] d IH]; simpl.
  - by rewrite String.eqb_refl.
  - destruct (String.eqb_spec k' k) as [-> |]; simpl.
    + by rewrite String.eqb_refl.
    + by destruct (String.eqb_spec k' k).
Qed.

Lemma dict_get_set_ne {V} k k' (v : V) d :
  k <> k' -> Py.dict_get k' (Py.dict_set k v d) = Py.dict_get k' d.
Proof.
  intros Hne. induction d as [|[k0 v0] d IH]; simpl.
  - by destruct (String.eqb_spec k k').
  - destruct (String.eqb_spec k0 k) as [-> |]; simpl.
    + by destruct (String.eqb_spec k k').
    + by rewrite IH.
Qed.

(** What [d[k] = v] holds: the new pair and pairs of [d]. *)
Lemma elem_of_dict_set {V} k (v : V) d kv :
  kv ∈ Py.dict_set k v d -> kv = (k, v) \/ kv ∈ d.
Proof.
  induction d as [|[k' v'] d IH]; simpl.
  - intros ->%list_elem_of_singleton. by left.
  - destruct (String.eqb_spec k' k) as [-> |].
    + intros [-> | H]%elem_of_cons; [by left | right; by right].
    + intros [-> | H]%elem_of_cons; [right; left |].
      destruct (IH H) as [-> | ?]; [by left | right; by right].
Qed.

(** What [d[k] = v] keeps: every pair of [d] but the one that [d.get(k)]
    returned. *)
Lemma elem_of_dict_set_keep {V} k (v : V) d k0 v0 :
  (k0, v0) ∈ d ->
  (k0, v0) ∈ Py.dict_set k v d \/ (k0 = k /\ Py.dict_get k d = Some v0).
Proof.
  induction d as [|[k' v'] d IH]; simpl; [by intros ?%elem_of_nil |].
  destruct (String.eqb_spec k' k) as [-> |].
  - intros [[= -> ->] | H]%elem_of_cons; [by right | left; by right].
  - intros [[= -> ->] | H]%elem_of_cons; [left; left |].
    destruct (IH H) as [? | ?]; [left; by right | by right].
Qed.

Lemma dict_set_elem {V} k (v : V) d : (k, v) ∈ Py.dict_set k v d.
Proof. apply dict_get_elem, dict_get_set_eq. Qed.

(** Replacing a present key keeps the keys and their order. *)
Lemma dict_set_keys {V} k (v : V) d :
  is_Some (Py.dict_get k d) -> (Py.dict_set k v d).*1 = d.*1.
Proof.
  induction d as [|[k' v'] d IH]; csimpl; [by intros [? ?] |].
  destruct (String.eqb_spec k' k) as [-> |]; csimpl; [done |].
  intros H. by rewrite IH.
Qed.

(** [get_user_data]: the record returned is the one stored under the
    user's key afterwards; nothing else changes, and a record that had to be
    created is empty. *)
Lemma get_user_data_spec user_id d d' r :
  get_user_data user_id d = (d', r) ->
  Py.dict_get (Py.str user_id) d' = Some r
  /\ ((d' = d /\ Py.dict_get (Py.str user_id) d = Some r)
      \/ (Py.dict_get (Py.str user_id) d = None /\ r = empty_record
          /\ d' = Py.dict_set (Py.str user_id) empty_record d)).
Proof.
  unfold get_user_data.
  destruct (Py.dict_get (Py.str user_id) d) as [r0 |] eqn:Hget; intros [= <- <-].
  - split; [done | by left].
  - split; [apply dict_get_set_eq | by right].
Qed.

Lemma store_ok_elem d k r :
  store_ok d = true -> (k, r) ∈ d ->
  is_Some (Py.int k) /\ record_ok r = true.
Proof.
  unfold store_ok. rewrite forallb_forall. intros H Hin.
  apply list_elem_of_In, H in Hin. apply andb_true_iff in Hin as [Hk Hr].
  by apply bool_decide_eq_true in Hk.
Qed.

Lemma store_ok_intro d :
  (forall k r, (k, r) ∈ d -> is_Some (Py.int k) /\ record_ok r = true) ->
  store_ok d = true.
Proof.
  intros H. unfold store_ok. apply forallb_forall. intros [k r] Hin.
  apply list_elem_of_In, H in Hin as [Hk Hr].
  apply andb_true_iff. split; [by apply bool_decide_eq_true | done].
Qed.

Lemma record_ok_elem r x :
  record_ok r = true -> x ∈ reminders r -> is_Some (Py.strptime_HM (time x)).
Proof.
  unfold record_ok. rewrite forallb_forall. intros H Hin.
  apply list_elem_of_In, H in Hin. by apply bool_decide_eq_true in Hin.
Qed.

Lemma record_ok_intro r :
  (forall x, x ∈ reminders r -> is_Some (Py.strptime_HM (time x))) ->
  record_ok r = true.
Proof.
  intros H. unfold record_ok. apply forallb_forall. intros x Hin.
  apply bool_decide_eq_true, H. by apply list_elem_of_In.
Qed.

Lemma store_ok_dict_set d user_id r :
  store_ok d = true -> record_ok r = true ->
  store_ok (Py.dict_set (Py.str user_id) r d) = true.
Proof.
  intros Hd Hr. apply store_ok_intro. intros k r' Hin.
  apply elem_of_dict_set in Hin as [[= -> ->] | Hin].
  - split; [| done]. rewrite int_str. by eexists.
  - by eapply store_ok_elem.
Qed.

Lemma store_ok_get_user_data user_id d d' r :
  get_user_data user_id d = (d', r) -> store_ok d = true ->
  store_ok d' = true /\ record_ok r = true.
Proof.
  intros (Hget & [[-> Hd] | (_ & -> & ->)])%get_user_data_spec Hok.
  - split; [done |]. by eapply store_ok_elem, dict_get_elem.
  - split; [| done]. by apply store_ok_dict_set.
Qed.

(** [get_user_data] creates no reminder. *)
Lemma derivable_get_user_data user_id d d' r jid :
  get_user_data user_id d = (d', r) ->
  derivable d' jid <-> derivable d jid.
Proof.
  intros (Hget & [[-> Hd] | (Hnone & -> & ->)])%get_user_data_spec; [done |].
  split; intros (k & r & x & c & Hin & Hx & Hk & ->).
  - apply elem_of_dict_set in Hin as [[= -> ->] | Hin].
    + by apply elem_of_nil in Hx.
    + by exists k, r, x, c.
  - apply elem_of_dict_set_keep with (k := Py.str user_id) (v := empty_record)
      in Hin as [Hin | [-> Hin]]; [| congruence].
    by exists k, r, x, c.
Qed.

(** ** The scheduler *)

Lemma schedule_reminder_job_frame chat_id t m st :
  user_data (schedule_reminder_job chat_id t m st).1 = user_data st
  /\ file (schedule_reminder_job chat_id t m st).1 = file st.
Proof.
  unfold schedule_reminder_job.
  destruct (parse_hour_minute t) as [[h mi] |]; [| done].
  destruct (scheduler st !! _); [done |].
  by destruct (cron_trigger_ok h mi).
Qed.

(** A time that passed [add_reminder_get_time] is scheduled unless a job of
    the same identity is there, in which case the scheduler is left alone
    and the function ends in its bare [return]. *)
Lemma schedule_reminder_job_valid chat_id t m st h mi :
  Py.strptime_HM t = Some (h, mi) ->
  let jid := job_id chat_id t m in
  match scheduler st !! jid with
  | Some _ =>
      scheduler (schedule_reminder_job chat_id t m st).1 = scheduler st
      /\ (schedule_reminder_job chat_id t m st).2 = None
  | None =>
      scheduler (schedule_reminder_job chat_id t m st).1
      = <[jid := {| job_hour := h; job_minute := mi; job_chat_id := chat_id;
                    job_time := t; job_message := m |}]> (scheduler st)
      /\ (schedule_reminder_job chat_id t m st).2 = Some true
  end.
Proof.
  intros [Hp Hc]%strptime_HM_schedulable. simpl.
  unfold schedule_reminder_job. rewrite Hp.
  destruct (scheduler st !! _); [done |]. by rewrite Hc.
Qed.

Lemma strptime_HM_is_schedulable t :
  is_Some (Py.strptime_HM t) -> schedulable t = true.
Proof.
  intros [[h mi] [Hp Hc]%strptime_HM_schedulable].
  unfold schedulable. by rewrite Hp.
Qed.

(** The jobs after [schedule_reminder_job], for any time string. *)
Lemma schedule_reminder_job_dom_any chat_id t m st :
  dom (scheduler (schedule_reminder_job chat_id t m st).1)
  = if schedulable t then {[job_id chat_id t m]} ∪ dom (scheduler st)
    else dom (scheduler st).
Proof.
  unfold schedule_reminder_job, schedulable.
  destruct (parse_hour_minute t) as [[h mi] |]; [| done].
  destruct (scheduler st !! job_id chat_id t m) eqn:Hj.
  - simpl. destruct (cron_trigger_ok h mi); [| done].
    apply (elem_of_dom_2 (D := gset string)) in Hj.
    symmetry. apply subseteq_union_1_L. by apply singleton_subseteq_l.
  - destruct (cron_trigger_ok h mi); simpl; [| done]. by rewrite dom_insert_L.
Qed.

Lemma schedule_reminder_job_dom chat_id t m st :
  is_Some (Py.strptime_HM t) ->
  dom (scheduler (schedule_reminder_job chat_id t m st).1)
  = {[job_id chat_id t m]} ∪ dom (scheduler st).
Proof.
  intros [[h mi] Ht].
  pose proof (schedule_reminder_job_valid chat_id t m st h mi Ht) as H.
  simpl in H. revert H.
  destruct (scheduler st !! job_id chat_id t m) eqn:Hj;
    intros [Heq _]; rewrite Heq.
  - apply (elem_of_dom_2 (D := gset string)) in Hj.
    symmetry. apply subseteq_union_1_L. by apply singleton_subseteq_l.
  - by rewrite dom_insert_L.
Qed.

Lemma schedule_all_frame chat_id rs st :
  user_data (schedule_all chat_id rs st) = user_data st
  /\ file (schedule_all chat_id rs st) = file st.
Proof.
  revert st. induction rs as [|x rs IH]; intros st; simpl; [done |].
  destruct (IH (schedule_reminder_job chat_id (time x) (message x) st).1)
    as [-> ->].
  apply schedule_reminder_job_frame.
Qed.

Lemma schedule_all_dom chat_id rs st jid :
  jid ∈ dom (scheduler (schedule_all chat_id rs st))
  <-> jid ∈ dom (scheduler st)
      \/ exists x, x ∈ rs /\ schedulable (time x) = true
                   /\ jid = job_id chat_id (time x) (message x).
Proof.
  revert st. induction rs as [|x rs IH]; intros st; simpl.
  - split; [by left |]. intros [? | (x & Hx & _)]; [done |].
    by apply elem_of_nil in Hx.
  - rewrite IH, schedule_reminder_job_dom_any. split.
    + intros [Hj | (y & Hy & Hs & ->)].
      * destruct (schedulable (time x)) eqn:Hs; [| by left].
        apply elem_of_union in Hj as [->%elem_of_singleton | ?]; [| by left].
        right. exists x. split; [left | done].
      * right. exists y. split; [by right | done].
    + intros [? | (y & [-> | Hy]%elem_of_cons & Hs & ->)].
      * left. destruct (schedulable (time x)); [| done].
        apply elem_of_union. by right.
      * left. rewrite Hs. apply elem_of_union. left. by apply elem_of_singleton.
      * right. by exists y.
Qed.

(** The reconciler's loops, when they end normally: the Store and the file
    are untouched, the jobs that were there stay, and a job is added for
    each persisted reminder whose time is schedulable. *)
Lemma repopulate_users_spec items st st' :
  repopulate_users items st = Py.Ok st' ->
  user_data st' = user_data st /\ file st' = file st
  /\ forall jid, jid ∈ dom (scheduler st')
                 <-> jid ∈ dom (scheduler st) \/ derivable_schedulable items jid.
Proof.
  revert st. induction items as [|[k r] items IH]; intros st; simpl.
  - intros [= <-]. repeat split; try done; [by left |].
    intros [? | (k & r & x & c & Hin & _)]; [done | by apply elem_of_nil in Hin].
  - destruct (Py.int k) as [c |] eqn:Hc; [| done].
    intros (Hud & Hf & Hdom)%IH.
    destruct (schedule_all_frame c (reminders r) st) as [Hud' Hf'].
    split; [congruence |]. split; [congruence |].
    intros jid. rewrite Hdom, schedule_all_dom. split.
    + intros [[? | (x & Hx & Hs & ->)]
             | (k' & r' & x & c' & Hin & Hx & Hk' & Hs & ->)].
      * by left.
      * right. exists k, r, x, c. repeat split; [left | done ..].
      * right. exists k', r', x, c'. repeat split; [by right | done ..].
    + intros [? | (k' & r' & x & c' & [[= -> ->] | Hin]%elem_of_cons
                   & Hx & Hk' & Hs & ->)].
      * left. by left.
      * left. right. exists x. split; [done |]. split; [done |]. congruence.
      * right. by exists k', r', x, c'.
Qed.

Lemma repopulate_users_total items st :
  store_ok items = true -> exists st', repopulate_users items st = Py.Ok st'.
Proof.
  revert st. induction items as [|[k r] items IH]; intros st Hok; simpl.
  - by eexists.
  - simpl in Hok. apply andb_true_iff in Hok as [Hkr Hok].
    apply andb_true_iff in Hkr as [Hk _].
    apply bool_decide_eq_true in Hk as [c ->]. by apply IH.
Qed.

Lemma derivable_schedulable_derivable d jid :
  derivable_schedulable d jid -> derivable d jid.
Proof.
  intros (k & r & x & c & Hin & Hx & Hk & _ & ->). by exists k, r, x, c.
Qed.

(** In a Store that fits the data model every reminder is schedulable. *)
Lemma derivable_schedulable_ok d jid :
  store_ok d = true -> derivable_schedulable d jid <-> derivable d jid.
Proof.
  intros Hok. split; [apply derivable_schedulable_derivable |].
  intros (k & r & x & c & Hin & Hx & Hk & ->).
  exists k, r, x, c. repeat split; try done.
  apply strptime_HM_is_schedulable.
  destruct (store_ok_elem d k r Hok Hin) as [_ Hr]. by eapply record_ok_elem.
Qed.

Lemma repopulate_scheduled_jobs_spec st st' :
  repopulate_scheduled_jobs st = Py.Ok st' ->
  user_data st' = user_data st /\ file st' = file st
  /\ forall jid, jid ∈ dom (scheduler st')
                 <-> jid ∈ dom (scheduler st)
                     \/ derivable_schedulable (user_data st) jid.
Proof.
  unfold repopulate_scheduled_jobs.
  destruct (repopulate_users (user_data st) st) as [st1 |] eqn:Hrun; [| done].
  intros [= <-]. by apply repopulate_users_spec in Hrun.
Qed.

Lemma repopulate_scheduled_jobs_total st :
  store_ok (user_data st) = true ->
  exists st', repopulate_scheduled_jobs st = Py.Ok st'.
Proof.
  intros Hok. unfold repopulate_scheduled_jobs.
  destruct (repopulate_users_total (user_data st) st Hok) as [st' ->].
  by eexists.
Qed.

(** ** Reminders under an update of one record *)

Lemma derivable_dict_set_intro k c r' d x :
  Py.int k = Some c -> x ∈ reminders r' ->
  derivable (Py.dict_set k r' d) (job_id c (time x) (message x)).
Proof.
  intros Hk Hx. exists k, r', x, c. split; [apply dict_set_elem | done].
Qed.

Lemma derivable_dict_set_keep k r r' d jid :
  Py.dict_get k d = Some r ->
  derivable d jid ->
  derivable (Py.dict_set k r' d) jid
  \/ exists c x, Py.int k = Some c /\ x ∈ reminders r
                 /\ jid = job_id c (time x) (message x).
Proof.
  intros Hget (k0 & r0 & x & c & Hin & Hx & Hk & ->).
  apply elem_of_dict_set_keep with (k := k) (v := r') in Hin as [Hin | [-> Hin]].
  - left. by exists k0, r0, x, c.
  - right. exists c, x. split; [done |]. split; [congruence | done].
Qed.

Lemma derivable_dict_set_inv k r' d jid :
  derivable (Py.dict_set k r' d) jid ->
  derivable d jid
  \/ exists c x, Py.int k = Some c /\ x ∈ reminders r'
                 /\ jid = job_id c (time x) (message x).
Proof.
  intros (k0 & r0 & x & c & Hin & Hx & Hk & ->).
  apply elem_of_dict_set in Hin as [[= -> ->] | Hin].
  - right. by exists c, x.
  - left. by exists k0, r0, x, c.
Qed.

(** An update that keeps the record's reminders keeps the identities. *)
Lemma derivable_dict_set_same k r r' d jid :
  Py.dict_get k d = Some r -> reminders r' = reminders r ->
  derivable (Py.dict_set k r' d) jid <-> derivable d jid.
Proof.
  intros Hget Hr. split.
  - intros [? | (c & x & Hk & Hx & ->)]%derivable_dict_set_inv; [done |].
    exists k, r, x, c. split; [by apply dict_get_elem |]. by rewrite <- Hr.
  - intros H. eapply derivable_dict_set_keep in H as [? | (c & x & Hk & Hx & ->)];
      [done | | done].
    apply derivable_dict_set_intro; [done |]. by rewrite Hr.
Qed.

Lemma elem_of_pop {A} (i : nat) (l : list A) x :
  x ∈ Py.pop i l -> x ∈ l.
Proof.
  unfold Py.pop. intros [H | H]%elem_of_app.
  - by eapply subseteq_take.
  - by eapply subseteq_drop.
Qed.

Lemma elem_of_pop_or {A} (i : nat) (l : list A) x y :
  l !! i = Some y -> x ∈ l -> x ∈ Py.pop i l \/ x = y.
Proof.
  intros Hi Hx. unfold Py.pop.
  rewrite <- (take_drop_middle l i y Hi) in Hx.
  apply elem_of_app in Hx as [Hx | [-> | Hx]%elem_of_cons].
  - left. apply elem_of_app. by left.
  - by right.
  - left. apply elem_of_app. by right.
Qed.

(** ** The invariants *)

Lemma truthy_Some s t : truthy s = Some t -> s = Some t.
Proof. by destruct s as [[|] |]. Qed.

(** *** Every live job has a backing reminder *)

Lemma consistent_ext st st' :
  user_data st' = user_data st -> scheduler st' = scheduler st ->
  consistent st -> consistent st'.
Proof. unfold consistent. by intros -> ->. Qed.

Lemma consistent_save_data w st : consistent st -> consistent (save_data w st).
Proof. apply consistent_ext; by destruct w. Qed.

Lemma consistent_get_user_data user_id st d r :
  get_user_data user_id (user_data st) = (d, r) ->
  consistent st -> consistent (set_user_data d st).
Proof.
  intros Hg Hc jid Hj. simpl in *.
  rewrite (derivable_get_user_data _ _ _ _ _ Hg). by apply Hc.
Qed.

Lemma add_weight_get_date_consistent e u ctx st o :
  add_weight_get_date e u ctx st = Py.Ok o ->
  consistent st -> consistent (out_state o).
Proof.
  unfold add_weight_get_date. intros H Hc.
  destruct (resolve_date e (text u)) as [d |]; [| by injection H as <-].
  destruct (get_user_data _ _) as [ud r] eqn:Hg.
  pose proof (consistent_get_user_data _ _ _ _ Hg Hc) as Hc0.
  destruct (get_user_data_spec _ _ _ _ Hg) as [Hget _].
  destruct (temp_weight ctx) as [w |]; injection H as <-; simpl; [| done].
  apply consistent_save_data. intros jid Hj. simpl in *.
  rewrite derivable_dict_set_same by done. by apply Hc0.
Qed.

Lemma add_reminder_get_message_consistent e u ctx st o :
  add_reminder_get_message e u ctx st = Py.Ok o ->
  consistent st -> consistent (out_state o).
Proof.
  unfold add_reminder_get_message, dispatcher_updater. intros H Hc.
  destruct (truthy (temp_reminder_time ctx)) as [t |]; [| by injection H as <-].
  destruct (truthy (Some (text u))) as [m |]; [| by injection H as <-].
  destruct (get_user_data _ _) as [ud r] eqn:Hg.
  pose proof (consistent_get_user_data _ _ _ _ Hg Hc) as Hc0.
  destruct (get_user_data_spec _ _ _ _ Hg) as [Hget _].
  injection H as <-. simpl.
  set (x := {| time := t; message := text u |}) in *.
  set (r' := {| weights := weights r; reminders := reminders r ++ [x] |}) in *.
  set (st2 := save_data _ _) in *.
  assert (user_data st2 = Py.dict_set (Py.str (from_user_id u)) r' ud
          /\ scheduler st2 = scheduler st) as [Hud2 Hsc2]
    by (subst st2; by destruct (disk e)).
  intros jid Hj. rewrite Hud2. rewrite Hsc2 in Hj.
  apply Hc0 in Hj. simpl in Hj.
  apply (derivable_dict_set_keep _ _ r' _ _ Hget) in Hj
    as [? | (c & y & Hk & Hy & ->)]; [done |].
  apply derivable_dict_set_intro; [done |].
  simpl. apply elem_of_app. by left.
Qed.

Lemma delete_reminder_consistent e u ctx st o :
  delete_reminder e u ctx st = Py.Ok o ->
  consistent st -> consistent (out_state o).
Proof.
  unfold delete_reminder. intros H Hc.
  destruct (get_user_data _ _) as [ud r] eqn:Hg.
  pose proof (consistent_get_user_data _ _ _ _ Hg Hc) as Hc0.
  destruct (get_user_data_spec _ _ _ _ Hg) as [Hget _].
  destruct (args u) as [|arg ?]; [by injection H as <- |].
  destruct (Py.int arg) as [n |]; [| by injection H as <-].
  destruct (negb _); [by injection H as <- |].
  destruct (reminders r !! Z.to_nat (n - 1)) as [x |] eqn:Hx;
    [| by injection H as <-].
  injection H as <-. simpl.
  set (r' := {| weights := weights r;
                reminders := Py.pop (Z.to_nat (n - 1)) (reminders r) |}) in *.
  set (st2 := save_data _ _) in *.
  assert (user_data st2 = Py.dict_set (Py.str (from_user_id u)) r' ud
          /\ scheduler st2 = scheduler st) as [Hud2 Hsc2]
    by (subst st2; by destruct (disk e)).
  assert (forall jid, jid ∈ dom (scheduler st) ->
            jid <> job_id (from_user_id u) (time x) (message x) ->
            derivable (Py.dict_set (Py.str (from_user_id u)) r' ud) jid) as Hkeep.
  { intros jid Hj Hne. apply Hc0 in Hj. simpl in Hj.
    apply (derivable_dict_set_keep _ _ r' _ _ Hget) in Hj
      as [? | (c & y & Hk & Hy & ->)]; [done |].
    rewrite int_str in Hk. injection Hk as <-.
    apply (elem_of_pop_or _ _ _ _ Hx) in Hy as [Hy | ->]; [| done].
    by apply derivable_dict_set_intro; [apply int_str |]. }
  unfold remove_reminder_job.
  destruct (scheduler st2 !! _) eqn:Hjob; simpl; intros jid; simpl.
  - rewrite dom_delete_L, Hud2, Hsc2.
    intros [Hj Hne%not_elem_of_singleton]%elem_of_difference. by apply Hkeep.
  - rewrite Hud2, Hsc2. intros Hj. apply Hkeep; [done |].
    intros ->. apply elem_of_dom in Hj as [? Hj]. rewrite <- Hsc2 in Hj.
    congruence.
Qed.

(** Every handler keeps the live jobs within the identities of the Store,
    whatever the Store holds. *)
Lemma run_handler_consistent h e u ctx st o :
  run_handler h e u ctx st = Py.Ok o ->
  consistent st -> consistent (out_state o).
Proof.
  destruct h; simpl.
  - by intros [= <-].
  - by intros [= <-].
  - unfold add_weight_get_weight. destruct (Py.split_ws _) as [|tok ?]; [done |].
    destruct (Py.float tok); by intros [= <-].
  - apply add_weight_get_date_consistent.
  - unfold view_weights. destruct (get_user_data _ _) as [ud r] eqn:Hg.
    intros H Hc. pose proof (consistent_get_user_data _ _ _ _ Hg Hc).
    destruct (weights r); by injection H as <-.
  - by intros [= <-].
  - unfold add_reminder_get_time.
    destruct (Py.strptime_HM (text u)); by intros [= <-].
  - apply add_reminder_get_message_consistent.
  - unfold list_reminders. destruct (get_user_data _ _) as [ud r] eqn:Hg.
    intros H Hc. pose proof (consistent_get_user_data _ _ _ _ Hg Hc).
    destruct (reminders r); by injection H as <-.
  - apply delete_reminder_consistent.
  - by intros [= <-].
Qed.

(** *** The Store keeps to the data model *)

Lemma state_inv_ext st st' :
  user_data st' = user_data st -> file st' = file st ->
  state_inv st -> state_inv st'.
Proof. unfold state_inv. by intros -> ->. Qed.

Lemma state_inv_save_data w st : state_inv st -> state_inv (save_data w st).
Proof. intros (Hs & Hf). by destruct w. Qed.

Lemma state_inv_get_user_data user_id st d r :
  get_user_data user_id (user_data st) = (d, r) ->
  state_inv st -> state_inv (set_user_data d st).
Proof.
  intros Hg (Hs & Hf). split; [| done]. by eapply store_ok_get_user_data.
Qed.

Lemma context_ok_empty : context_ok empty_context.
Proof. by intros t. Qed.

Lemma context_ok_clear_time ctx : context_ok (set_temp_reminder_time None ctx).
Proof. by intros t. Qed.

Lemma add_weight_get_date_inv e u ctx st o :
  add_weight_get_date e u ctx st = Py.Ok o ->
  context_ok ctx -> state_inv st ->
  state_inv (out_state o) /\ context_ok (out_context o).
Proof.
  unfold add_weight_get_date. intros H Hctx Hinv.
  destruct (resolve_date e (text u)) as [d |]; [| by injection H as <-].
  destruct (get_user_data _ _) as [ud r] eqn:Hg.
  pose proof (state_inv_get_user_data _ _ _ _ Hg Hinv) as (Hs & Hf).
  destruct (store_ok_get_user_data _ _ _ _ Hg (proj1 Hinv)) as [_ Hr].
  destruct (temp_weight ctx) as [w |]; injection H as <-; simpl;
    (split; [| done]); [| done].
  apply state_inv_save_data. split; [| done]. by apply store_ok_dict_set.
Qed.

Lemma add_reminder_get_message_inv e u ctx st o :
  add_reminder_get_message e u ctx st = Py.Ok o ->
  context_ok ctx -> state_inv st ->
  state_inv (out_state o) /\ context_ok (out_context o).
Proof.
  unfold add_reminder_get_message, dispatcher_updater. intros H Hctx Hinv.
  destruct (truthy (temp_reminder_time ctx)) as [t |] eqn:Ht;
    [| injection H as <-; split; [done | apply context_ok_clear_time]].
  destruct (truthy (Some (text u))) as [m |] eqn:Hm;
    [| injection H as <-; split; [done | apply context_ok_clear_time]].
  apply truthy_Some in Ht. pose proof (Hctx _ Ht) as Hvalid.
  destruct (get_user_data _ _) as [ud r] eqn:Hg.
  pose proof (state_inv_get_user_data _ _ _ _ Hg Hinv) as (Hs & Hf).
  destruct (store_ok_get_user_data _ _ _ _ Hg (proj1 Hinv)) as [_ Hr].
  injection H as <-. simpl. split; [| done].
  apply state_inv_save_data. split; [| done]. simpl.
  apply store_ok_dict_set; [done |]. apply record_ok_intro. simpl.
  intros y [Hy | ->%list_elem_of_singleton]%elem_of_app; [| done].
  by eapply record_ok_elem.
Qed.

Lemma delete_reminder_inv e u ctx st o :
  delete_reminder e u ctx st = Py.Ok o ->
  context_ok ctx -> state_inv st ->
  state_inv (out_state o) /\ context_ok (out_context o).
Proof.
  unfold delete_reminder. intros H Hctx Hinv.
  destruct (get_user_data _ _) as [ud r] eqn:Hg.
  pose proof (state_inv_get_user_data _ _ _ _ Hg Hinv) as Hinv0.
  destruct (store_ok_get_user_data _ _ _ _ Hg (proj1 Hinv)) as [_ Hr].
  destruct (args u) as [|arg ?]; [by injection H as <- |].
  destruct (Py.int arg) as [n |]; [| by injection H as <-].
  destruct (negb _); [by injection H as <- |].
  destruct (reminders r !! Z.to_nat (n - 1)) as [x |] eqn:Hx;
    [| by injection H as <-].
  injection H as <-. simpl. split; [| done].
  set (st2 := save_data _ _) in *.
  assert (state_inv st2) as Hinv2.
  { apply state_inv_save_data. destruct Hinv0 as [Hs Hf]. split; [| done]. simpl.
    apply store_ok_dict_set; [done |]. apply record_ok_intro. simpl.
    intros y Hy%elem_of_pop. by eapply record_ok_elem. }
  unfold remove_reminder_job. by destruct (scheduler st2 !! _).
Qed.

(** Every handler keeps the Store, the file and the context within the
    data model. *)
Lemma run_handler_inv h e u ctx st o :
  run_handler h e u ctx st = Py.Ok o ->
  context_ok ctx -> state_inv st ->
  state_inv (out_state o) /\ context_ok (out_context o).
Proof.
  destruct h; simpl.
  - by intros [= <-].
  - by intros [= <-].
  - unfold add_weight_get_weight. destruct (Py.split_ws _) as [|tok ?]; [done |].
    destruct (Py.float tok); by intros [= <-].
  - apply add_weight_get_date_inv.
  - unfold view_weights. destruct (get_user_data _ _) as [ud r] eqn:Hg.
    intros H Hctx Hinv.
    pose proof (state_inv_get_user_data _ _ _ _ Hg Hinv).
    destruct (weights r); by injection H as <-.
  - by intros [= <-].
  - unfold add_reminder_get_time. intros H Hctx Hinv.
    destruct (Py.strptime_HM (text u)) as [hm |] eqn:Ht; injection H as <-;
      simpl; [| done].
    split; [done |]. intros t [= <-]. by rewrite Ht.
  - apply add_reminder_get_message_inv.
  - unfold list_reminders. destruct (get_user_data _ _) as [ud r] eqn:Hg.
    intros H Hctx Hinv.
    pose proof (state_inv_get_user_data _ _ _ _ Hg Hinv).
    destruct (reminders r); by injection H as <-.
  - apply delete_reminder_inv.
  - intros [= <-] _ Hinv. simpl. split; [done | apply context_ok_empty].
Qed.

(** ** Start-up and reachable states *)

Lemma load_data_initial f st0 :
  load_data (initial_state f) = Py.Ok st0 ->
  file st0 = f /\ scheduler st0 = ∅
  /\ user_data st0 = match f with FileJson d => d | _ => [] end.
Proof. unfold load_data. destruct f; simpl; try done; by intros [= <-]. Qed.

(** A start that does not raise leaves the file as it was, the Store as
    the file's content, and as jobs exactly the identities of the persisted
    reminders whose time is schedulable. *)
Lemma main_startup_spec f st :
  main_startup f = Py.Ok st ->
  file st = f
  /\ user_data st = match f with FileJson d => d | _ => [] end
  /\ forall jid, jid ∈ dom (scheduler st)
                 <-> derivable_schedulable (user_data st) jid.
Proof.
  unfold main_startup.
  destruct (load_data (initial_state f)) as [st0 |] eqn:Hload; [| done].
  simpl. apply load_data_initial in Hload as (Hf0 & Hsc0 & Hud0).
  intros (Hud & Hfile & Hdom)%repopulate_scheduled_jobs_spec.
  split; [congruence |]. split; [congruence |].
  intros jid. rewrite Hdom, Hsc0, dom_empty_L, Hud. split.
  - by intros [?%not_elem_of_empty | ?].
  - by right.
Qed.

(** A start on a readable data file that fits the data model succeeds. *)
Lemma main_startup_total f :
  file_ok f = true -> exists st, main_startup f = Py.Ok st.
Proof.
  intros Hf. unfold main_startup.
  assert (exists st0, load_data (initial_state f) = Py.Ok st0
                      /\ store_ok (user_data st0) = true) as (st0 & -> & Hs0).
  { unfold load_data. destruct f as [| | | | | d]; simpl in *; try done; eauto. }
  simpl. by apply repopulate_scheduled_jobs_total.
Qed.

Lemma main_startup_consistent f st : main_startup f = Py.Ok st -> consistent st.
Proof.
  intros (_ & _ & Hdom)%main_startup_spec jid Hj.
  by apply derivable_schedulable_derivable, Hdom.
Qed.

Lemma main_startup_inv f st :
  file_ok f = true -> main_startup f = Py.Ok st -> state_inv st.
Proof.
  intros Hf (Hfile & Hud & _)%main_startup_spec. split.
  - rewrite Hud. by destruct f.
  - by rewrite Hfile.
Qed.

Lemma dispatch_consistent h e u b :
  consistent (globals b) -> consistent (globals (dispatch h e u b)).
Proof.
  intros Hc. unfold dispatch.
  destruct (run_handler h e u _ _) as [o | ex] eqn:Hrun; simpl.
  - apply run_handler_consistent in Hrun; [| done].
    destruct (out_raised o); [| done]. by apply (consistent_ext (out_state o)).
  - by apply (consistent_ext (globals b)).
Qed.

Lemma dispatch_inv h e u b : bot_inv b -> bot_inv (dispatch h e u b).
Proof.
  intros [Hst Hctx]. unfold dispatch.
  assert (context_ok (context_of b (from_user_id u))) as Hc.
  { unfold context_of. destruct (contexts b !! from_user_id u) eqn:Hl; simpl.
    - by eapply Hctx.
    - apply context_ok_empty. }
  destruct (run_handler h e u _ _) as [o | ex] eqn:Hrun.
  - destruct (run_handler_inv _ _ _ _ _ _ Hrun Hc Hst) as [Hst' Hc'].
    split.
    + simpl. destruct (out_raised o); [| done].
      by apply (state_inv_ext (out_state o)).
    + simpl. intros uid ctx.
      destruct (decide (from_user_id u = uid)) as [<- | Hne].
      * rewrite lookup_insert_eq. by intros [= <-].
      * rewrite lookup_insert_ne by done. apply Hctx.
  - split; [| done]. by apply (state_inv_ext (globals b)).
Qed.

Lemma file_at_exit_ok graceful b :
  bot_inv b -> file_ok (file_at_exit graceful b) = true.
Proof.
  intros [Hst _]. unfold file_at_exit. destruct graceful as [w |].
  - by apply state_inv_save_data.
  - apply Hst.
Qed.

Lemma reachable_consistent f0 p b : reachable f0 p b -> consistent (globals b).
Proof.
  induction 1 as [st Hst | p b h e u _ IH | p b g st _ IH Hst].
  - by eapply main_startup_consistent.
  - by apply dispatch_consistent.
  - by eapply main_startup_consistent.
Qed.

(** A bot that first started on a data file within the data model stays
    within it. *)
Lemma reachable_inv f0 p b :
  file_ok f0 = true -> reachable f0 p b -> bot_inv b.
Proof.
  intros Hf0. induction 1 as [st Hst | p b h e u _ IH | p b g st _ IH Hst].
  - split; [by eapply main_startup_inv | by intros uid ctx].
  - by apply dispatch_inv.
  - split; [| by intros uid ctx].
    eapply main_startup_inv; [| done]. by apply file_at_exit_ok.
Qed.

(** *** The data file follows the Store while the writes succeed *)

Lemma synced_ext st st' :
  user_data st' = user_data st -> file st' = file st ->
  synced st -> synced st'.
Proof. unfold synced. by intros -> ->. Qed.

Lemma synced_get_user_data user_id st d r :
  get_user_data user_id (user_data st) = (d, r) ->
  synced st -> synced (set_user_data d st).
Proof.
  intros Hg Hs jid. simpl. rewrite (derivable_get_user_data _ _ _ _ _ Hg).
  apply Hs.
Qed.

Lemma synced_save_data st : synced (save_data WriteOk st).
Proof. by intros jid. Qed.

Lemma main_startup_synced f st : main_startup f = Py.Ok st -> synced st.
Proof.
  intros (Hf & Hud & _)%main_startup_spec jid. rewrite Hf, Hud.
  destruct f; simpl; try done;
    split; try done; by intros (k & r & x & c & Hin%elem_of_nil & _).
Qed.

(** A handler whose write succeeds leaves a data file that yields the
    identities of the Store; a handler that does not write keeps it so. *)
Lemma run_handler_synced h e u ctx st o :
  disk e = WriteOk ->
  run_handler h e u ctx st = Py.Ok o ->
  synced st -> synced (out_state o).
Proof.
  intros Hw. destruct h; simpl.
  - by intros [= <-].
  - by intros [= <-].
  - unfold add_weight_get_weight. destruct (Py.split_ws _) as [|tok ?]; [done |].
    destruct (Py.float tok); by intros [= <-].
  - unfold add_weight_get_date. rewrite Hw.
    destruct (resolve_date e (text u)); [| by intros [= <-]].
    destruct (get_user_data _ _) as [ud r] eqn:Hg.
    destruct (temp_weight ctx); intros [= <-] Hs; simpl.
    + apply synced_save_data.
    + by eapply synced_get_user_data.
  - unfold view_weights. destruct (get_user_data _ _) as [ud r] eqn:Hg.
    intros H Hs. pose proof (synced_get_user_data _ _ _ _ Hg Hs).
    destruct (weights r); by injection H as <-.
  - by intros [= <-].
  - unfold add_reminder_get_time.
    destruct (Py.strptime_HM (text u)); by intros [= <-].
  - unfold add_reminder_get_message, dispatcher_updater. rewrite Hw.
    destruct (truthy (temp_reminder_time ctx)) as [t |]; [| by intros [= <-]].
    destruct (truthy (Some (text u))); [| by intros [= <-]].
    destruct (get_user_data _ _) as [ud r] eqn:Hg.
    intros [= <-] _. simpl. apply synced_save_data.
  - unfold list_reminders. destruct (get_user_data _ _) as [ud r] eqn:Hg.
    intros H Hs. pose proof (synced_get_user_data _ _ _ _ Hg Hs).
    destruct (reminders r); by injection H as <-.
  - unfold delete_reminder. rewrite Hw.
    destruct (get_user_data _ _) as [ud r] eqn:Hg.
    intros H Hs. pose proof (synced_get_user_data _ _ _ _ Hg Hs) as Hs0.
    destruct (args u) as [|arg ?]; [by injection H as <- |].
    destruct (Py.int arg) as [n |]; [| by injection H as <-].
    destruct (negb _); [by injection H as <- |].
    destruct (reminders r !! Z.to_nat (n - 1)) as [x |];
      [| by injection H as <-].
    injection H as <-. simpl. unfold remove_reminder_job.
    destruct (scheduler _ !! _); simpl;
      (eapply synced_ext; [| | apply synced_save_data]; done).
  - by intros [= <-].
Qed.

(** C1, as the code has it.  At every reachable state the live job
    identities are derivable from the Store.  In a state that the
    reconciler has just produced they are exactly the identities of the
    persisted reminders whose time is schedulable; these are all the
    persisted reminders when the data file the bot first started on fits
    the data model. *)
Theorem schedule_store_consistency f0 p b :
  reachable f0 p b ->
  (forall jid, jid ∈ dom (scheduler (globals b)) ->
               derivable (user_data (globals b)) jid)
  /\ (p = JustReconciled ->
      forall jid, jid ∈ dom (scheduler (globals b))
                  <-> derivable_schedulable (user_data (globals b)) jid)
  /\ (p = JustReconciled -> file_ok f0 = true ->
      forall jid, jid ∈ dom (scheduler (globals b))
                  <-> derivable (user_data (globals b)) jid).
Proof.
  intros Hr.
  assert (p = JustReconciled ->
          forall jid, jid ∈ dom (scheduler (globals b))
                      <-> derivable_schedulable (user_data (globals b)) jid) as Heq.
  { intros ->. inversion Hr as [st Hst | | p' b' g st Hr' Hst]; subst; simpl;
      by apply main_startup_spec in Hst as (_ & _ & Hdom). }
  split; [apply (reachable_consistent f0 p b Hr) |]. split; [done |].
  intros Hp Hf0 jid. rewrite (Heq Hp jid).
  apply derivable_schedulable_ok. by apply (reachable_inv f0 p b Hf0 Hr).
Qed.

(** A restart never fails on the file that such a bot leaves. *)
Lemma restart_succeeds f0 p b graceful :
  file_ok f0 = true -> reachable f0 p b ->
  exists st, main_startup (file_at_exit graceful b) = Py.Ok st.
Proof.
  intros Hf0 Hr. apply main_startup_total, file_at_exit_ok.
  by apply (reachable_inv f0 p b).
Qed.

Lemma boot_reachable f st :
  main_startup f = Py.Ok st -> reachable f JustReconciled (boot f).
Proof. intros Hst. unfold boot. rewrite Hst. by apply reach_boot. Qed.

Lemma schedule_store_consistency_witness :
  let f := FileJson [("7", {| weights := [];
                              reminders := [{| time := "08:30";
                                               message := "Feed the dog" |}] |})] in
  reachable f JustReconciled (boot f)
  /\ (forall jid, jid ∈ dom (scheduler (globals (boot f))) ->
                  derivable (user_data (globals (boot f))) jid)
  /\ (forall jid, jid ∈ dom (scheduler (globals (boot f)))
                  <-> derivable (user_data (globals (boot f))) jid).
Proof.
  intros f.
  assert (reachable f JustReconciled (boot f)) as Hr
    by (apply (boot_reachable f (globals (boot f))); reflexivity).
  split; [exact Hr |].
  destruct (schedule_store_consistency f JustReconciled (boot f) Hr)
    as (Hsub & _ & Heq).
  split; [exact Hsub | exact (Heq eq_refl eq_refl)].
Defined.

(** The specification's C1, as it is worded, fails after a start on a data file with
    a reminder whose time is not schedulable: the reconciler skips the
    reminder, which then has no job. *)
Lemma reconciler_skips_bad_time :
  let f := FileJson [("7", {| weights := [];
                              reminders := [{| time := "25:00";
                                               message := "Feed the dog" |}] |})] in
  reachable f JustReconciled (boot f)
  /\ derivable (user_data (globals (boot f))) (job_id 7 "25:00" "Feed the dog")
  /\ scheduler (globals (boot f)) = ∅.
Proof.
  intros f. split; [| split].
  - apply (boot_reachable f (globals (boot f))). reflexivity.
  - exists "7", {| weights := [];
                   reminders := [{| time := "25:00"; message := "Feed the dog" |}] |},
           {| time := "25:00"; message := "Feed the dog" |}, 7.
    split; [left |]. split; [left |]. split; reflexivity.
  - reflexivity.
Qed.

Example boot_example :
  let f := FileJson [("7", {| weights := [];
                              reminders := [{| time := "08:30";
                                               message := "Feed the dog" |}] |})] in
  dom (scheduler (globals (boot f))) = {[ "reminder_7_08:30_Feed_the_dog" ]}.
Proof. vm_compute. reflexivity. Qed.

(** ** Adding a reminder *)

Lemma save_data_frame w st :
  user_data (save_data w st) = user_data st
  /\ scheduler (save_data w st) = scheduler st
  /\ (w = WriteOk -> file (save_data w st) = FileJson (user_data st)).
Proof. by destruct w. Qed.

Lemma strptime_HM_nonempty t : is_Some (Py.strptime_HM t) -> t <> "".
Proof. intros [? H] ->. discriminate H. Qed.

Lemma user_reminders_get_user_data user_id d d' r :
  get_user_data user_id d = (d', r) ->
  reminders r = user_reminders user_id d /\ weights r = user_weights user_id d.
Proof.
  unfold user_reminders, user_weights.
  intros (_ & [[_ ->] | (-> & -> & _)])%get_user_data_spec; done.
Qed.

(** The globals after the two steps of the add-reminder conversation, for a
    time that passes validation and a message that is not empty: the entry
    is appended and saved, and [error_handler] has logged the exception. *)
Lemma addReminder_globals e user_id t m b :
  is_Some (Py.strptime_HM t) -> m <> "" ->
  globals (addReminder e user_id t m b)
  = error_handler
      (save_data (disk e)
         (set_user_data
            (Py.dict_set (Py.str user_id)
               {| weights := user_weights user_id (user_data (globals b));
                  reminders := user_reminders user_id (user_data (globals b))
                               ++ [{| time := t; message := m |}] |}
               (get_user_data user_id (user_data (globals b))).1)
            (globals b))).
Proof.
  intros Ht Hm. unfold addReminder.
  unfold dispatch at 2. simpl. unfold add_reminder_get_time. simpl.
  destruct Ht as [hm Ht]. rewrite Ht. simpl.
  unfold dispatch. simpl. unfold context_of. simpl.
  rewrite lookup_insert_eq. simpl.
  unfold add_reminder_get_message, dispatcher_updater, truthy. simpl.
  destruct t as [|c t]; [discriminate Ht |].
  destruct m as [|c' m]; [done |].
  destruct (get_user_data _ _) as [ud r] eqn:Hg.
  by destruct (user_reminders_get_user_data _ _ _ _ Hg) as [-> ->].
Qed.

(** The pending time is still in the user's context afterwards. *)
Lemma addReminder_context e user_id t m b :
  is_Some (Py.strptime_HM t) -> m <> "" ->
  context_of (addReminder e user_id t m b) user_id
  = set_temp_reminder_time (Some t) (context_of b user_id).
Proof.
  intros Ht Hm. unfold addReminder.
  unfold dispatch at 2. simpl. unfold add_reminder_get_time. simpl.
  destruct Ht as [hm Ht]. rewrite Ht. simpl.
  unfold dispatch. simpl. unfold context_of at 2. simpl.
  rewrite lookup_insert_eq. simpl.
  unfold add_reminder_get_message, dispatcher_updater, truthy. simpl.
  destruct t as [|c t]; [discriminate Ht |].
  destruct m as [|c' m]; [done |].
  destruct (get_user_data _ _) as [ud r] eqn:Hg. simpl.
  unfold context_of at 1. simpl. by rewrite lookup_insert_eq.
Qed.

(** C2, as the code has it.  Each add appends one Store entry, so two
    identical adds give two entries; but neither makes a job: the handler
    reads [context.dispatcher.updater] for the call of
    [schedule_reminder_job], the [AttributeError] leaves it after the append
    and the save, [error_handler] logs it, the job table is as it was and
    the pending time stays in the context.  The job of the identity appears
    once the reconciler runs, at the next start on the saved file. *)
Theorem add_reminder_makes_no_job e1 e2 user_id t m b :
  is_Some (Py.strptime_HM t) -> m <> "" ->
  let x := {| time := t; message := m |} in
  let jid := job_id user_id t m in
  let b1 := addReminder e1 user_id t m b in
  let b2 := addReminder e2 user_id t m b1 in
  (* one Store entry per add *)
  user_reminders user_id (user_data (globals b1))
  = user_reminders user_id (user_data (globals b)) ++ [x]
  /\ user_reminders user_id (user_data (globals b2))
     = user_reminders user_id (user_data (globals b)) ++ [x; x]
  (* no job is made *)
  /\ scheduler (globals b1) = scheduler (globals b)
  /\ scheduler (globals b2) = scheduler (globals b)
  (* the exception went to [error_handler]; the conversation was not closed *)
  /\ last (logged (globals b1)) = Some (WARNING, "Update caused error")
  /\ temp_reminder_time (context_of b1 user_id) = Some t
  (* an add, then a restart on the saved file *)
  /\ (disk e1 = WriteOk -> store_ok (user_data (globals b)) = true ->
      exists st,
        main_startup (file (globals b1)) = Py.Ok st
        /\ user_data st = user_data (globals b1)
        /\ is_Some (scheduler st !! jid)).
Proof.
  intros Ht Hm x jid b1 b2.
  assert (forall e b0,
    let st := globals (addReminder e user_id t m b0) in
    user_data st
    = Py.dict_set (Py.str user_id)
        {| weights := user_weights user_id (user_data (globals b0));
           reminders := user_reminders user_id (user_data (globals b0)) ++ [x] |}
        (get_user_data user_id (user_data (globals b0))).1
    /\ user_reminders user_id (user_data st)
       = user_reminders user_id (user_data (globals b0)) ++ [x]
    /\ scheduler st = scheduler (globals b0)
    /\ last (logged st) = Some (WARNING, "Update caused error")
    /\ (disk e = WriteOk -> file st = FileJson (user_data st))) as Hadd.
  { intros e b0 st. subst st. rewrite addReminder_globals by done.
    set (st1 := set_user_data _ _).
    destruct (save_data_frame (disk e) st1) as (Hud & Hsc & Hfile).
    simpl. rewrite Hud, Hsc. split; [done |]. split.
    { unfold user_reminders at 1. subst st1. simpl.
      by rewrite dict_get_set_eq. }
    split; [done |]. split; [apply last_snoc |].
    intros Hw. by rewrite Hfile. }
  destruct (Hadd e1 b) as (Hud1 & Hr1 & Hs1 & Hl1 & Hf1).
  destruct (Hadd e2 b1) as (_ & Hr2 & Hs2 & _ & _).
  fold b1 in Hud1, Hr1, Hs1, Hl1, Hf1. fold b2 in Hr2, Hs2.
  split; [done |]. split; [by rewrite Hr2, Hr1, <- app_assoc |].
  split; [done |]. split; [by rewrite Hs2 |]. split; [done |].
  split; [subst b1; by rewrite addReminder_context |].
  intros Hw Hok. specialize (Hf1 Hw).
  assert (store_ok (user_data (globals b1)) = true) as Hok1.
  { rewrite Hud1.
    destruct (get_user_data user_id (user_data (globals b))) as [ud r] eqn:Hg.
    destruct (store_ok_get_user_data _ _ _ _ Hg Hok) as [Hokud Hokr].
    destruct (user_reminders_get_user_data _ _ _ _ Hg) as [Hrr _].
    apply store_ok_dict_set; [done |]. apply record_ok_intro. simpl.
    intros y [Hy | ->%list_elem_of_singleton]%elem_of_app; [| done].
    rewrite <- Hrr in Hy. by eapply record_ok_elem. }
  destruct (main_startup_total (file (globals b1))) as [st Hst];
    [by rewrite Hf1 |].
  destruct (main_startup_spec _ _ Hst) as (_ & Hud & Heq).
  rewrite Hf1 in Hud. exists st. split; [done |]. split; [done |].
  apply (elem_of_dom (D := gset string)), Heq. rewrite Hud, Hud1.
  eexists (Py.str user_id), _, x, user_id.
  split; [apply dict_set_elem |]. simpl.
  split; [apply elem_of_app; right; left |].
  split; [apply int_str |]. split; [by apply strptime_HM_is_schedulable | done].
Qed.

Lemma add_reminder_makes_no_job_witness :
  let e := {| today := "2024-05-01"; disk := WriteOk |} in
  let b := boot FileAbsent in
  let b1 := addReminder e 7 "08:30" "Feed the dog" b in
  let b2 := addReminder e 7 "08:30" "Feed the dog" b1 in
  let x := {| time := "08:30"; message := "Feed the dog" |} in
  is_Some (Py.strptime_HM "08:30") /\ "Feed the dog" <> ""
  /\ user_reminders 7 (user_data (globals b2)) = [x; x]
  /\ scheduler (globals b2) = ∅.
Proof.
  intros e b b1 b2 x.
  assert (is_Some (Py.strptime_HM "08:30")) as H1 by (by eexists).
  assert ("Feed the dog" <> "") as H2 by done.
  destruct (add_reminder_makes_no_job e e 7 "08:30" "Feed the dog" b H1 H2)
    as (_ & Hr2 & _ & Hs & _).
  split; [exact H1 |]. split; [exact H2 |].
  split; [exact Hr2 | exact Hs].
Defined.

(** ** Rejecting a bad time *)

(** C3. A text that is not a time of the format [%H:%M] makes
    [add_reminder_get_time] answer with the invalid-format message and ask
    for the time again; the Store, the data file, the scheduler and the
    user's context stay as they were. *)
Theorem add_reminder_bad_time e u b :
  Py.strptime_HM (text u) = None ->
  add_reminder_get_time e u (context_of b (from_user_id u)) (globals b)
  = Py.Ok {| out_state := globals b;
             out_context := context_of b (from_user_id u);
             out_replies := [InvalidTimeFormat];
             out_return := Some GET_REMINDER_TIME;
             out_raised := None |}
  /\ globals (dispatch HAddReminderGetTime e u b) = globals b
  /\ (forall v, context_of (dispatch HAddReminderGetTime e u b) v = context_of b v).
Proof.
  intros Ht.
  assert (add_reminder_get_time e u (context_of b (from_user_id u)) (globals b)
          = Py.Ok {| out_state := globals b;
                     out_context := context_of b (from_user_id u);
                     out_replies := [InvalidTimeFormat];
                     out_return := Some GET_REMINDER_TIME;
                     out_raised := None |}) as Hrun.
  { unfold add_reminder_get_time. by rewrite Ht. }
  split; [done |]. unfold dispatch. simpl. rewrite Hrun. simpl.
  split; [done |]. intros v. unfold context_of at 1. simpl.
  destruct (decide (from_user_id u = v)) as [<- | Hne].
  - by rewrite lookup_insert_eq.
  - by rewrite lookup_insert_ne.
Qed.

Lemma add_reminder_bad_time_witness :
  let e := {| today := "2024-05-01"; disk := WriteOk |} in
  let u := text_update 7 "25:00" in
  let b := addReminder e 7 "08:30" "Feed the dog" (boot FileAbsent) in
  Py.strptime_HM (text u) = None
  /\ globals (dispatch HAddReminderGetTime e u b) = globals b.
Proof.
  intros e u b.
  assert (Py.strptime_HM (text u) = None) as H by reflexivity.
  split; [exact H |]. exact (proj1 (proj2 (add_reminder_bad_time e u b H))).
Defined.

(** The texts that are rejected include every text that is not an hour up
    to 23 and a minute up to 59, in digits, around a colon. *)
Lemma bad_time_rejected s :
  ~ (exists hs ms h mi,
        s = hs +:+ ":" +:+ ms
        /\ Py.all_chars Py.isdigit hs = true /\ Py.all_chars Py.isdigit ms = true
        /\ Py.int hs = Some h /\ Py.int ms = Some mi
        /\ 0 <= h <= 23 /\ 0 <= mi <= 59) ->
  Py.strptime_HM s = None.
Proof.
  intros Hn. destruct (Py.strptime_HM s) as [[h mi] |] eqn:Hs; [| done].
  destruct Hn. apply strptime_HM_inv in Hs as (hs & ms & H). by exists hs, ms, h, mi.
Qed.

Example two_identical_adds :
  let e := {| today := "2024-05-01"; disk := WriteOk |} in
  let b2 := addReminder e 7 "08:30" "Feed the dog"
              (addReminder e 7 "08:30" "Feed the dog" (boot FileAbsent)) in
  user_reminders 7 (user_data (globals b2))
  = [{| time := "08:30"; message := "Feed the dog" |};
     {| time := "08:30"; message := "Feed the dog" |}]
  /\ scheduler (globals b2) = ∅
  /\ dom (scheduler (globals (boot (file (globals b2)))))
     = {["reminder_7_08:30_Feed_the_dog"]}.
Proof. vm_compute. repeat split. Qed.

(** ** Deleting a reminder *)

Lemma dict_set_absent {V} k (v : V) d :
  Py.dict_get k d = None -> Py.dict_set k v d = d ++ [(k, v)].
Proof.
  induction d as [|[k' v'] d IH]; simpl; [done |].
  destruct (String.eqb_spec k' k); [done |]. intros H. by rewrite IH.
Qed.

(** What [get_user_data] does to the Store: nothing for a user who has a
    record, an empty record at the end for one who has none. *)
Lemma get_user_data_store user_id d :
  (get_user_data user_id d).1
  = match Py.dict_get (Py.str user_id) d with
    | Some _ => d
    | None => d ++ [(Py.str user_id, empty_record)]
    end.
Proof.
  unfold get_user_data.
  destruct (Py.dict_get (Py.str user_id) d) eqn:Hg; simpl; [done |].
  by apply dict_set_absent.
Qed.

Lemma get_user_data_lists user_id d v :
  user_reminders v (get_user_data user_id d).1 = user_reminders v d
  /\ user_weights v (get_user_data user_id d).1 = user_weights v d.
Proof.
  destruct (get_user_data user_id d) as [d' r] eqn:Hg. simpl.
  apply get_user_data_spec in Hg as (_ & [[-> _] | (Hn & -> & ->)]); [done |].
  unfold user_reminders, user_weights.
  destruct (decide (Py.str user_id = Py.str v)) as [Heq | Hne].
  - rewrite <- Heq, dict_get_set_eq, Hn. done.
  - by rewrite dict_get_set_ne.
Qed.

Lemma length_pop {A} (i : nat) (l : list A) :
  (i < length l)%nat -> length (Py.pop i l) = (length l - 1)%nat.
Proof.
  intros Hi. unfold Py.pop. rewrite length_app, length_take, length_drop. lia.
Qed.

Lemma lookup_pop_lt {A} (i j : nat) (l : list A) :
  (j < i)%nat -> Py.pop i l !! j = l !! j.
Proof.
  intros Hj. unfold Py.pop.
  destruct (decide (i <= length l)%nat) as [Hi | Hi].
  - rewrite lookup_app_l by (rewrite length_take; lia).
    by rewrite lookup_take_lt.
  - rewrite take_ge, drop_ge, app_nil_r by lia. done.
Qed.

Lemma lookup_pop_ge {A} (i j : nat) (l : list A) :
  (i < length l)%nat -> (i <= j)%nat -> Py.pop i l !! j = l !! S j.
Proof.
  intros Hi Hj. unfold Py.pop.
  rewrite lookup_app_r by (rewrite length_take; lia).
  rewrite length_take, lookup_drop. f_equal. lia.
Qed.

(** The outcome of [delete_reminder] in each of its branches.  [l] is the
    user's reminder list. *)
Lemma delete_reminder_cases e u ctx st :
  let user_id := from_user_id u in
  let l := user_reminders user_id (user_data st) in
  let st0 := set_user_data (get_user_data user_id (user_data st)).1 st in
  delete_reminder e u ctx st
  = match args u with
    | [] => Py.Ok (reply_text [DeleteNeedsNumber] None ctx st0)
    | arg :: _ =>
        match Py.int arg with
        | None => Py.Ok (reply_text [DeleteInvalidInput] None ctx st0)
        | Some n =>
            if bool_decide (1 <= n <= Z.of_nat (length l)) then
              match l !! Z.to_nat (n - 1) with
              | Some x =>
                  Py.Ok (reply_text [DeleteDone (message x) (time x)] None ctx
                    (remove_reminder_job (job_id user_id (time x) (message x))
                       (save_data (disk e)
                          (set_user_data
                             (Py.dict_set (Py.str user_id)
                                {| weights := user_weights user_id (user_data st);
                                   reminders := Py.pop (Z.to_nat (n - 1)) l |}
                                (user_data st))
                             st))).1)
              | None =>
                  Py.Ok (reply_text [DeleteError] None ctx
                           (log ERROR "Error deleting reminder" st0))
              end
            else Py.Ok (reply_text [DeleteInvalidNumber] None ctx st0)
        end
    end.
Proof.
  intros user_id l st0. unfold delete_reminder. fold user_id.
  destruct (get_user_data user_id (user_data st)) as [ud r] eqn:Hg.
  destruct (user_reminders_get_user_data _ _ _ _ Hg) as [Hr Hw].
  fold l in Hr. subst st0. simpl. rewrite Hr, Hw.
  destruct (args u) as [|arg rest]; [done |].
  destruct (Py.int arg) as [n |]; [| done].
  case_bool_decide as Hn.
  - assert ((0 <=? n - 1) && (n - 1 <? Z.of_nat (length l)) = true) as ->.
    { apply andb_true_iff. split; [apply Z.leb_le | apply Z.ltb_lt]; lia. }
    simpl. destruct (l !! Z.to_nat (n - 1)) as [x |] eqn:Hx; [| done].
    assert (ud = user_data st) as ->; [| done].
    apply get_user_data_spec in Hg as (_ & [[-> _] | (Hnone & _ & _)]); [done |].
    unfold l, user_reminders in Hx. rewrite Hnone in Hx. by destruct (Z.to_nat _).
  - assert ((0 <=? n - 1) && (n - 1 <? Z.of_nat (length l)) = false) as ->; [| done].
    apply andb_false_iff.
    destruct (decide (1 <= n)); [right; apply Z.ltb_ge | left; apply Z.leb_gt]; lia.
Qed.

(** What the call of [get_user_data] at the head of a handler leaves: the
    scheduler, the data file and the log as they were, and the Store as it
    was but for the empty record of a user who had none; every user's lists
    read the same. *)
Lemma get_user_data_frame user_id st :
  let st0 := set_user_data (get_user_data user_id (user_data st)).1 st in
  scheduler st0 = scheduler st /\ file st0 = file st /\ logged st0 = logged st
  /\ user_data st0
     = match Py.dict_get (Py.str user_id) (user_data st) with
       | Some _ => user_data st
       | None => user_data st ++ [(Py.str user_id, empty_record)]
       end
  /\ forall v,
       user_reminders v (user_data st0) = user_reminders v (user_data st)
       /\ user_weights v (user_data st0) = user_weights v (user_data st).
Proof.
  simpl. repeat split; try done.
  - apply get_user_data_store.
  - apply get_user_data_lists.
  - apply get_user_data_lists.
Qed.

(** C4, as the code has it.  An index outside [1, n] makes
    [delete_reminder] answer with the invalid-number message; the scheduler,
    the data file and every user's reminders and weights stay as they were.
    The Store itself is unchanged for a user who has a record; a user who
    has none gets an empty record. *)
Theorem delete_reminder_out_of_range e u ctx st arg rest n :
  args u = arg :: rest -> Py.int arg = Some n ->
  ~ (1 <= n <= Z.of_nat (length (user_reminders (from_user_id u) (user_data st)))) ->
  exists st',
    delete_reminder e u ctx st
    = Py.Ok (reply_text [DeleteInvalidNumber] None ctx st')
    /\ scheduler st' = scheduler st /\ file st' = file st
    /\ logged st' = logged st
    /\ user_data st'
       = match Py.dict_get (Py.str (from_user_id u)) (user_data st) with
         | Some _ => user_data st
         | None => user_data st ++ [(Py.str (from_user_id u), empty_record)]
         end
    /\ forall v,
         user_reminders v (user_data st') = user_reminders v (user_data st)
         /\ user_weights v (user_data st') = user_weights v (user_data st).
Proof.
  intros Ha Hi Hn.
  exists (set_user_data (get_user_data (from_user_id u) (user_data st)).1 st).
  split; [| apply get_user_data_frame].
  rewrite delete_reminder_cases. simpl. rewrite Ha, Hi.
  by rewrite bool_decide_eq_false_2.
Qed.

Lemma delete_reminder_out_of_range_witness :
  let e := {| today := "2024-05-01"; disk := WriteOk |} in
  let st := globals (addReminder e 7 "08:30" "Feed the dog" (boot FileAbsent)) in
  let u := command_update 7 ["2"] in
  args u = ["2"] /\ Py.int "2" = Some 2
  /\ ~ (1 <= 2 <= Z.of_nat (length (user_reminders 7 (user_data st))))
  /\ exists st',
       delete_reminder e u empty_context st
       = Py.Ok (reply_text [DeleteInvalidNumber] None empty_context st')
       /\ scheduler st' = scheduler st /\ file st' = file st
       /\ user_data st' = user_data st.
Proof.
  intros e st u.
  assert (args u = ["2"]) as H1 by reflexivity.
  assert (Py.int "2" = Some 2) as H2 by reflexivity.
  assert (~ (1 <= 2 <= Z.of_nat (length (user_reminders 7 (user_data st)))))
    as H3 by (vm_compute; intros [_ H]; by apply H).
  split; [exact H1 |]. split; [exact H2 |]. split; [exact H3 |].
  destruct (delete_reminder_out_of_range e u empty_context st "2" [] 2 H1 H2 H3)
    as (st' & Hrun & Hsc & Hf & _ & Hud & _).
  exists st'. split; [exact Hrun |]. split; [exact Hsc |]. split; [exact Hf |].
  exact Hud.
Defined.

(** The specification's C4, as it is worded, fails for a user who has no record: the
    Store gains an empty record. *)
Lemma delete_reminder_out_of_range_changes_store :
  let e := {| today := "2024-05-01"; disk := WriteOk |} in
  let st := globals (boot FileAbsent) in
  user_data st = []
  /\ user_reminders 7 (user_data st) = []
  /\ exists st',
       delete_reminder e (command_update 7 ["0"]) empty_context st
       = Py.Ok (reply_text [DeleteInvalidNumber] None empty_context st')
       /\ user_data st' = [("7", empty_record)]
       /\ user_data st' <> user_data st.
Proof.
  simpl. split; [reflexivity |]. split; [reflexivity |].
  eexists. split; [reflexivity |]. split; [reflexivity | discriminate].
Qed.

(** C5. Deleting the [n]-th reminder, [1 <= n <= length], removes that
    entry and no other: the entries before it stay in place, the entries
    after it move up by one, and nobody else's data changes. *)
Theorem delete_reminder_position e u ctx st arg rest n :
  let user_id := from_user_id u in
  let l := user_reminders user_id (user_data st) in
  args u = arg :: rest -> Py.int arg = Some n ->
  1 <= n <= Z.of_nat (length l) ->
  exists x o,
    l !! Z.to_nat (n - 1) = Some x
    /\ delete_reminder e u ctx st = Py.Ok o
    /\ out_replies o = [DeleteDone (message x) (time x)]
    /\ let l' := user_reminders user_id (user_data (out_state o)) in
       l = take (Z.to_nat (n - 1)) l ++ x :: drop (Z.to_nat n) l
       /\ l' = take (Z.to_nat (n - 1)) l ++ drop (Z.to_nat n) l
       /\ length l' = (length l - 1)%nat
       /\ (forall p, 1 <= p < n ->
                     l' !! Z.to_nat (p - 1) = l !! Z.to_nat (p - 1))
       /\ (forall p, n < p <= Z.of_nat (length l) ->
                     l' !! Z.to_nat (p - 2) = l !! Z.to_nat (p - 1))
       /\ (forall v, v <> user_id ->
                     user_reminders v (user_data (out_state o))
                     = user_reminders v (user_data st))
       /\ (forall v, user_weights v (user_data (out_state o))
                     = user_weights v (user_data st))
       /\ (user_data (out_state o)).*1 = (user_data st).*1.
Proof.
  intros user_id l Ha Hi Hn.
  assert (Z.to_nat (n - 1) < length l)%nat as Hlt by lia.
  destruct (lookup_lt_is_Some_2 l _ Hlt) as [x Hx].
  assert (is_Some (Py.dict_get (Py.str user_id) (user_data st))) as [r Hr].
  { unfold l, user_reminders in Hlt.
    destruct (Py.dict_get _ _); [by eexists | simpl in Hlt; lia]. }
  eexists x, _. split; [done |]. split.
  { rewrite delete_reminder_cases. simpl. rewrite Ha, Hi.
    fold user_id l. rewrite bool_decide_eq_true_2 by done. by rewrite Hx. }
  split; [done |]. simpl.
  set (r' := {| weights := _; reminders := _ |}).
  set (st2 := save_data _ _).
  assert (user_data (remove_reminder_job
                       (job_id user_id (time x) (message x)) st2).1
          = Py.dict_set (Py.str user_id) r' (user_data st)) as ->.
  { unfold remove_reminder_job. destruct (scheduler st2 !! _); simpl;
      subst st2; by destruct (disk e). }
  assert (user_reminders user_id (Py.dict_set (Py.str user_id) r' (user_data st))
          = Py.pop (Z.to_nat (n - 1)) l) as ->.
  { unfold user_reminders at 1. by rewrite dict_get_set_eq. }
  assert (S (Z.to_nat (n - 1)) = Z.to_nat n) as HS by lia.
  split; [by rewrite <- HS, take_drop_middle |].
  split; [unfold Py.pop; by rewrite HS |].
  split; [by apply length_pop |].
  split; [intros p Hp; apply lookup_pop_lt; lia |].
  split.
  { intros p Hp. rewrite lookup_pop_ge by lia. f_equal. lia. }
  split.
  { intros v Hv. unfold user_reminders. rewrite dict_get_set_ne; [done |].
    intros Heq%str_inj. by subst. }
  split.
  { intros v. unfold user_weights.
    destruct (decide (Py.str user_id = Py.str v)) as [Heq | Hne].
    - rewrite <- Heq, dict_get_set_eq. subst r'. simpl.
      unfold user_weights. done.
    - by rewrite dict_get_set_ne. }
  apply dict_set_keys. by eexists.
Qed.

Lemma delete_reminder_position_witness :
  let e := {| today := "2024-05-01"; disk := WriteOk |} in
  let a := {| time := "08:30"; message := "Feed the dog" |} in
  let b := {| time := "12:00"; message := "Walk" |} in
  let c := {| time := "20:15"; message := "Give medication" |} in
  let st :=
    globals (boot (FileJson [("7", {| weights := []; reminders := [a; b; c] |})])) in
  let u := command_update 7 ["2"] in
  args u = ["2"] /\ Py.int "2" = Some 2
  /\ 1 <= 2 <= Z.of_nat (length (user_reminders 7 (user_data st)))
  /\ exists o,
       delete_reminder e u empty_context st = Py.Ok o
       /\ out_replies o = [DeleteDone "Walk" "12:00"]
       /\ user_reminders 7 (user_data (out_state o)) = [a; c].
Proof.
  intros e a b c st u.
  assert (args u = ["2"]) as H1 by reflexivity.
  assert (Py.int "2" = Some 2) as H2 by reflexivity.
  assert (1 <= 2 <= Z.of_nat (length (user_reminders 7 (user_data st)))) as H3
    by (vm_compute; split; discriminate).
  split; [exact H1 |]. split; [exact H2 |]. split; [exact H3 |].
  destruct (delete_reminder_position e u empty_context st "2" [] 2 H1 H2 H3)
    as (x & o & Hx & Hrun & Hrep & _ & Hl' & _).
  exists o. split; [exact Hrun |].
  assert (Some x = Some b) as [= ->] by (rewrite <- Hx; reflexivity).
  split; [exact Hrep |]. exact Hl'.
Defined.

(** C10, as the code has it.  Without an argument, or with one that [int]
    does not accept, [delete_reminder] answers with an error message and
    returns normally; the scheduler, the data file and every user's
    reminders and weights stay as they were.  The Store itself is unchanged
    for a user who has a record; a user who has none gets an empty record,
    by the call of [get_user_data] that precedes the conversion. *)
Theorem delete_reminder_bad_argument e u ctx st :
  match args u with
  | [] => True
  | arg :: _ => Py.int arg = None
  end ->
  exists st',
    delete_reminder e u ctx st
    = Py.Ok (reply_text [match args u with
                         | [] => DeleteNeedsNumber
                         | _ :: _ => DeleteInvalidInput
                         end] None ctx st')
    /\ scheduler st' = scheduler st /\ file st' = file st
    /\ logged st' = logged st
    /\ user_data st'
       = match Py.dict_get (Py.str (from_user_id u)) (user_data st) with
         | Some _ => user_data st
         | None => user_data st ++ [(Py.str (from_user_id u), empty_record)]
         end
    /\ forall v,
         user_reminders v (user_data st') = user_reminders v (user_data st)
         /\ user_weights v (user_data st') = user_weights v (user_data st).
Proof.
  intros Ha.
  exists (set_user_data (get_user_data (from_user_id u) (user_data st)).1 st).
  split; [| apply get_user_data_frame].
  rewrite delete_reminder_cases. simpl.
  destruct (args u) as [|arg rest]; [done |]. by rewrite Ha.
Qed.

Lemma delete_reminder_bad_argument_witness :
  let e := {| today := "2024-05-01"; disk := WriteOk |} in
  let st := globals (addReminder e 7 "08:30" "Feed the dog" (boot FileAbsent)) in
  let u := command_update 7 ["first"] in
  Py.int "first" = None
  /\ exists st',
       delete_reminder e u empty_context st
       = Py.Ok (reply_text [DeleteInvalidInput] None empty_context st')
       /\ scheduler st' = scheduler st /\ file st' = file st
       /\ user_data st' = user_data st.
Proof.
  intros e st u.
  assert (Py.int "first" = None) as H by reflexivity.
  split; [exact H |].
  destruct (delete_reminder_bad_argument e u empty_context st H)
    as (st' & Hrun & Hsc & Hf & _ & Hud & _).
  exists st'. split; [exact Hrun |]. split; [exact Hsc |]. split; [exact Hf |].
  exact Hud.
Defined.

(** The specification's C10, as it is worded, fails for a user who has no record:
    [get_user_data] has created the record before [int] raises. *)
Lemma delete_reminder_bad_argument_changes_store :
  let e := {| today := "2024-05-01"; disk := WriteOk |} in
  let st := globals (boot FileAbsent) in
  Py.int "abc" = None
  /\ user_data st = []
  /\ (exists st',
        delete_reminder e (command_update 7 ["abc"]) empty_context st
        = Py.Ok (reply_text [DeleteInvalidInput] None empty_context st')
        /\ user_data st' = [("7", empty_record)]
        /\ user_data st' <> user_data st)
  /\ (exists st',
        delete_reminder e (command_update 7 []) empty_context st
        = Py.Ok (reply_text [DeleteNeedsNumber] None empty_context st')
        /\ user_data st' = [("7", empty_record)]
        /\ user_data st' <> user_data st).
Proof.
  simpl. split; [reflexivity |]. split; [reflexivity |].
  split; eexists; (split; [reflexivity |]); (split; [reflexivity | discriminate]).
Qed.

(** ** Listing *)

Lemma enumerate_from_lookup {A} (start : Z) (l : list A) (i : nat) :
  Py.enumerate_from start l !! i = (fun x => (start + Z.of_nat i, x)) <$> l !! i.
Proof.
  revert start i. induction l as [|x l IH]; intros start [|i]; simpl; try done.
  - by rewrite Z.add_0_r.
  - rewrite IH. destruct (l !! i); simpl; [| done]. do 2 f_equal. lia.
Qed.

Lemma enumerate_from_snd {A} (start : Z) (l : list A) :
  (Py.enumerate_from start l).*2 = l.
Proof.
  revert start. induction l as [|x l IH]; intros start; csimpl; [done |].
  by rewrite IH.
Qed.

Lemma sorted_insert_perm {A} (key : A -> string) x l :
  Py.sorted_insert key x l ≡ₚ x :: l.
Proof.
  induction l as [|y l IH]; simpl; [done |].
  destruct (String.leb (key x) (key y)); [done |].
  rewrite IH. apply Permutation_swap.
Qed.

Lemma sorted_perm {A} (key : A -> string) l : Py.sorted key l ≡ₚ l.
Proof.
  induction l as [|x l IH]; simpl; [done |].
  by rewrite sorted_insert_perm, IH.
Qed.

Lemma sorted_insert_sorted {A} (key : A -> string) x l :
  StronglySorted (fun a b => String.le (key a) (key b)) l ->
  StronglySorted (fun a b => String.le (key a) (key b)) (Py.sorted_insert key x l).
Proof.
  induction 1 as [|y l Hl IH Hy]; simpl.
  - constructor; [constructor | constructor].
  - destruct (String.leb (key x) (key y)) eqn:Hxy.
    + constructor; [by constructor |]. constructor.
      * unfold String.le. by rewrite Hxy.
      * eapply Forall_impl; [exact Hy |]. intros z Hz. simpl in Hz.
        etrans; [| exact Hz]. unfold String.le. by rewrite Hxy.
    + constructor; [done |].
      assert (String.le (key y) (key x)) as Hyx.
      { destruct (total String.le (key x) (key y)) as [H | H]; [| done].
        unfold String.le in H. by rewrite Hxy in H. }
      rewrite (sorted_insert_perm key x l). by constructor.
Qed.

Lemma sorted_sorted {A} (key : A -> string) l :
  StronglySorted (fun a b => String.le (key a) (key b)) (Py.sorted key l).
Proof.
  induction l as [|x l IH]; simpl; [constructor |].
  by apply sorted_insert_sorted.
Qed.

(** Stability: the entries of one key keep their order. *)
Lemma sorted_insert_filter {A} (key : A -> string) k x l :
  filter (fun a => key a = k) (Py.sorted_insert key x l)
  = filter (fun a => key a = k) (x :: l).
Proof.
  induction l as [|y l IH]; simpl; [done |].
  destruct (String.leb (key x) (key y)) eqn:Hxy; [done |].
  rewrite filter_cons, IH, !filter_cons.
  destruct (decide (key y = k)) as [Hy | Hy]; [| done].
  destruct (decide (key x = k)) as [Hx | Hx]; [| done].
  exfalso. rewrite Hx, Hy in Hxy.
  assert (String.le k k) as H by done. unfold String.le in H. by rewrite Hxy in H.
Qed.

Lemma sorted_stable {A} (key : A -> string) k l :
  filter (fun a => key a = k) (Py.sorted key l) = filter (fun a => key a = k) l.
Proof.
  induction l as [|x l IH]; simpl; [done |].
  by rewrite sorted_insert_filter, !filter_cons, IH.
Qed.

(** C8, as the code has it.  [list_reminders] and [view_weights] leave the
    scheduler, the data file and every user's reminders and weights as they
    were; the Store itself is unchanged for a user who has a record, and a
    user who has none gets an empty record.  The reminders are listed in
    stored order, numbered from 1; the weights are listed in ascending
    order of their date strings, entries of one date in stored order. *)
Theorem listing_effects e u ctx st :
  let user_id := from_user_id u in
  let st0 := set_user_data (get_user_data user_id (user_data st)).1 st in
  list_reminders e u ctx st
  = Py.Ok (reply_text
             [match user_reminders user_id (user_data st) with
              | [] => NoReminders
              | rs => ReminderList (Py.enumerate_from 1 rs)
              end] None ctx st0)
  /\ view_weights e u ctx st
     = Py.Ok (reply_text
                [match user_weights user_id (user_data st) with
                 | [] => NoWeights
                 | ws => WeightHistory (Py.sorted date ws)
                 end] None ctx st0)
  /\ (scheduler st0 = scheduler st /\ file st0 = file st
      /\ logged st0 = logged st
      /\ user_data st0
         = match Py.dict_get (Py.str user_id) (user_data st) with
           | Some _ => user_data st
           | None => user_data st ++ [(Py.str user_id, empty_record)]
           end
      /\ forall v,
           user_reminders v (user_data st0) = user_reminders v (user_data st)
           /\ user_weights v (user_data st0) = user_weights v (user_data st))
  /\ (forall rs : list reminder_entry,
        (Py.enumerate_from 1 rs).*2 = rs
        /\ forall (i : nat) x,
             rs !! i = Some x ->
             Py.enumerate_from 1 rs !! i = Some (Z.of_nat i + 1, x))
  /\ (forall ws : list weight_entry,
        StronglySorted (fun a b => String.le (date a) (date b)) (Py.sorted date ws)
        /\ Py.sorted date ws ≡ₚ ws
        /\ forall d, filter (fun a => date a = d) (Py.sorted date ws)
                     = filter (fun a => date a = d) ws).
Proof.
  intros user_id st0. split; [| split; [| split; [| split]]].
  - unfold list_reminders. fold user_id.
    destruct (get_user_data user_id (user_data st)) as [ud r] eqn:Hg.
    destruct (user_reminders_get_user_data _ _ _ _ Hg) as [<- _].
    subst st0. rewrite ?Hg. simpl. by destruct (reminders r).
  - unfold view_weights. fold user_id.
    destruct (get_user_data user_id (user_data st)) as [ud r] eqn:Hg.
    destruct (user_reminders_get_user_data _ _ _ _ Hg) as [_ <-].
    subst st0. rewrite ?Hg. simpl. by destruct (weights r).
  - apply get_user_data_frame.
  - intros rs. split; [apply enumerate_from_snd |].
    intros i x Hx. rewrite enumerate_from_lookup, Hx. simpl. f_equal. f_equal. lia.
  - intros ws. split; [apply sorted_sorted |].
    split; [apply sorted_perm |]. intros d. apply sorted_stable.
Qed.

Lemma listing_effects_witness :
  let e := {| today := "2024-05-01"; disk := WriteOk |} in
  let a := {| time := "08:30"; message := "Feed the dog" |} in
  let b := {| time := "12:00"; message := "Walk" |} in
  let st := globals (boot (FileJson [("7", {| weights := []; reminders := [a; b] |})])) in
  list_reminders e (command_update 7 []) empty_context st
  = Py.Ok (reply_text [ReminderList [(1, a); (2, b)]] None empty_context st).
Proof.
  intros e a b st.
  destruct (listing_effects e (command_update 7 []) empty_context st)
    as (Hrun & _).
  etrans; [exact Hrun |]. reflexivity.
Defined.

(** The specification's C8, as it is worded, fails for a user who has no record: both
    listings create one. *)
Lemma listing_changes_store :
  let e := {| today := "2024-05-01"; disk := WriteOk |} in
  let st := globals (boot FileAbsent) in
  user_data st = []
  /\ (exists st',
        list_reminders e (command_update 42 []) empty_context st
        = Py.Ok (reply_text [NoReminders] None empty_context st')
        /\ user_data st' = [("42", empty_record)]
        /\ user_data st' <> user_data st)
  /\ (exists st',
        view_weights e (command_update 42 []) empty_context st
        = Py.Ok (reply_text [NoWeights] None empty_context st')
        /\ user_data st' = [("42", empty_record)]
        /\ user_data st' <> user_data st).
Proof.
  simpl. split; [reflexivity |].
  split; eexists; (split; [reflexivity |]); (split; [reflexivity | discriminate]).
Qed.

(** The date strings are compared as strings: a month that was entered
    without its leading zero sorts by its first digit. *)
Example view_weights_string_order :
  Py.sorted date [ {| date := "2024-10-01"; weight := Py.FNum false 12 0 |};
                   {| date := "2024-2-1"; weight := Py.FNum false 11 0 |};
                   {| date := "2024-01-15"; weight := Py.FNum false 10 0 |} ]
  = [ {| date := "2024-01-15"; weight := Py.FNum false 10 0 |};
      {| date := "2024-10-01"; weight := Py.FNum false 12 0 |};
      {| date := "2024-2-1"; weight := Py.FNum false 11 0 |} ].
Proof. reflexivity. Qed.

(** ** Loading the data file *)

(** C6, as the code has it.  [load_data] does not raise on an absent data
    file or on one whose text [json.load] rejects with
    [json.JSONDecodeError], the one exception it catches.  Such a malformed
    file installs an empty [user_data] and logs a warning; an absent file
    leaves [user_data] as it is, which is empty when [main] calls
    [load_data], and logs at level INFO. *)
Theorem load_data_fails_soft st :
  file st = FileAbsent \/ file st = FileMalformed ->
  exists st',
    load_data st = Py.Ok st'
    /\ file st' = file st /\ scheduler st' = scheduler st
    /\ (file st = FileMalformed ->
        user_data st' = []
        /\ logged st'
           = logged st ++ [(WARNING,
                "Data file is corrupt or empty. Starting with empty data.")])
    /\ (file st = FileAbsent ->
        user_data st' = user_data st
        /\ logged st'
           = logged st ++ [(INFO, "Data file not found. Starting with empty data.")])
    /\ (user_data st = [] -> user_data st' = []).
Proof.
  unfold load_data. intros [Hf | Hf]; rewrite Hf; eexists;
    (split; [reflexivity |]); simpl; repeat split; try done.
Qed.

Lemma load_data_fails_soft_witness :
  (file (initial_state FileMalformed) = FileAbsent
   \/ file (initial_state FileMalformed) = FileMalformed)
  /\ exists st',
       load_data (initial_state FileMalformed) = Py.Ok st'
       /\ user_data st' = []
       /\ logged st'
          = [(WARNING, "Data file is corrupt or empty. Starting with empty data.")].
Proof.
  assert (file (initial_state FileMalformed) = FileAbsent
          \/ file (initial_state FileMalformed) = FileMalformed) as H
    by (right; reflexivity).
  split; [exact H |].
  destruct (load_data_fails_soft (initial_state FileMalformed) H)
    as (st' & Hrun & _ & _ & Hm & _).
  exists st'. split; [exact Hrun |]. exact (Hm eq_refl).
Defined.

(** C6, as it is worded, fails on an absent file, for which nothing is
    logged above level INFO, and on a file that cannot be read or decoded,
    for which [load_data] raises. *)
Lemma load_data_absent_no_warning :
  (exists st',
     load_data (initial_state FileAbsent) = Py.Ok st'
     /\ logged st' = [(INFO, "Data file not found. Starting with empty data.")]
     /\ Forall (fun r => r.1 <> WARNING) (logged st'))
  /\ load_data (initial_state FileUnreadable) = Py.Raise Py.OSError
  /\ load_data (initial_state FileUndecodable) = Py.Raise Py.UnicodeDecodeError.
Proof.
  split; [| split; reflexivity].
  eexists. split; [reflexivity |]. split; [reflexivity |].
  repeat constructor. discriminate.
Qed.

(** ** Adding a weight *)

Lemma resolve_date_spec e txt d :
  resolve_date e txt = Some d
  <-> (Py.lower txt = "today" /\ d = today e)
      \/ (Py.lower txt <> "today" /\ is_Some (Py.strptime_Ymd (Py.lower txt))
          /\ d = Py.lower txt).
Proof.
  unfold resolve_date. destruct (String.eqb_spec (Py.lower txt) "today") as [Heq | Hne].
  - split; [intros [= <-]; by left |].
    intros [[_ ->] | [Hne _]]; [done | by destruct Hne].
  - destruct (Py.strptime_Ymd (Py.lower txt)) as [ymd |] eqn:Hp.
    + split; [intros [= <-]; right; by eauto |].
      intros [[Heq _] | (_ & _ & ->)]; [by destruct Hne | done].
    + split; [done |]. intros [[Heq _] | (_ & [? ?] & _)]; [by destruct Hne | done].
Qed.

(** The effect of [add_weight_get_date] once the weight is in the context
    and the date is accepted. *)
Lemma add_weight_get_date_effect e u ctx st w d :
  temp_weight ctx = Some w -> resolve_date e (text u) = Some d ->
  let user_id := from_user_id u in
  exists st',
    add_weight_get_date e u ctx st
    = Py.Ok (reply_text [WeightRecorded w d] (Some END) (set_temp_weight None ctx) st')
    /\ user_weights user_id (user_data st')
       = user_weights user_id (user_data st) ++ [{| date := d; weight := w |}]
    /\ (forall v, v <> user_id ->
                  user_weights v (user_data st') = user_weights v (user_data st))
    /\ (forall v, user_reminders v (user_data st') = user_reminders v (user_data st))
    /\ scheduler st' = scheduler st
    /\ file st' = match disk e with
                  | WriteOk => FileJson (user_data st')
                  | OpenFails => file st
                  | WriteFails => FileMalformed
                  end.
Proof.
  intros Hw Hd user_id. unfold add_weight_get_date. rewrite Hd, Hw. fold user_id.
  destruct (get_user_data user_id (user_data st)) as [ud r] eqn:Hg.
  destruct (user_reminders_get_user_data _ _ _ _ Hg) as [Hr Hws].
  pose proof (get_user_data_lists user_id (user_data st)) as Hl.
  rewrite Hg in Hl. simpl in Hl.
  eexists. split; [reflexivity |].
  set (r' := {| weights := _; reminders := _ |}).
  assert (user_data (save_data (disk e)
            (set_user_data (Py.dict_set (Py.str user_id) r' ud) st))
          = Py.dict_set (Py.str user_id) r' ud) as Hud by (by destruct (disk e)).
  rewrite Hud. split.
  { unfold user_weights at 1. rewrite dict_get_set_eq. simpl. by rewrite Hws. }
  split.
  { intros v Hv. unfold user_weights at 1. rewrite dict_get_set_ne.
    - apply Hl.
    - intros Heq%str_inj. by subst. }
  split.
  { intros v. unfold user_reminders at 1.
    destruct (decide (Py.str user_id = Py.str v)) as [Heq | Hne].
    - rewrite <- Heq, dict_get_set_eq. simpl. rewrite Hr.
      unfold user_reminders. by rewrite Heq.
    - rewrite dict_get_set_ne by done. apply Hl. }
  by destruct (disk e).
Qed.

(** C7, as the code has it.  The weight text is accepted exactly when its
    first token is a [float] literal, whatever its sign; the date text is
    accepted exactly when, in lower case, it is [today] (and then stands for
    the current date) or a date of the format [%Y-%m-%d].  When both are
    accepted, one Weight Entry is appended to the user's record, nothing
    else in the Store or the scheduler changes, and [save_data] runs at
    once: the data file holds the new Store if the write succeeds. *)
Theorem add_weight_validation e u ctx st :
  (forall w,
     add_weight_get_weight e u ctx st
     = Py.Ok (reply_text [AskWeightDate] (Some GET_WEIGHT_DATE)
                (set_temp_weight (Some w) ctx) st)
     <-> exists tok rest, Py.split_ws (text u) = tok :: rest /\ Py.float tok = Some w)
  /\ (forall tok rest,
        Py.split_ws (text u) = tok :: rest -> Py.float tok = None ->
        add_weight_get_weight e u ctx st
        = Py.Ok (reply_text [InvalidWeight] (Some GET_WEIGHT) ctx st))
  /\ (forall d,
        resolve_date e (text u) = Some d
        <-> (Py.lower (text u) = "today" /\ d = today e)
            \/ (Py.lower (text u) <> "today"
                /\ is_Some (Py.strptime_Ymd (Py.lower (text u)))
                /\ d = Py.lower (text u)))
  /\ (resolve_date e (text u) = None ->
      add_weight_get_date e u ctx st
      = Py.Ok (reply_text [InvalidDate] (Some GET_WEIGHT_DATE) ctx st))
  /\ (forall w d,
        temp_weight ctx = Some w -> resolve_date e (text u) = Some d ->
        exists st',
          add_weight_get_date e u ctx st
          = Py.Ok (reply_text [WeightRecorded w d] (Some END)
                     (set_temp_weight None ctx) st')
          /\ user_weights (from_user_id u) (user_data st')
             = user_weights (from_user_id u) (user_data st)
               ++ [{| date := d; weight := w |}]
          /\ (forall v, v <> from_user_id u ->
                        user_weights v (user_data st') = user_weights v (user_data st))
          /\ (forall v, user_reminders v (user_data st')
                        = user_reminders v (user_data st))
          /\ scheduler st' = scheduler st
          /\ file st' = match disk e with
                        | WriteOk => FileJson (user_data st')
                        | OpenFails => file st
                        | WriteFails => FileMalformed
                        end).
Proof.
  split; [| split; [| split; [| split]]].
  - intros w. unfold add_weight_get_weight.
    destruct (Py.split_ws (text u)) as [|tok rest].
    + split; [done | by intros (? & ? & ? & _)].
    + destruct (Py.float tok) as [w' |] eqn:Hf.
      * split.
        -- intros [= <-]. by exists tok, rest.
        -- intros (tok' & rest' & [= <- <-] & Hw). rewrite Hf in Hw.
           by injection Hw as ->.
      * split; [done |]. intros (tok' & rest' & [= <- <-] & Hw). congruence.
  - intros tok rest Hs Hf. unfold add_weight_get_weight. by rewrite Hs, Hf.
  - intros d. apply resolve_date_spec.
  - intros Hd. unfold add_weight_get_date. by rewrite Hd.
  - intros w d. apply add_weight_get_date_effect.
Qed.

Lemma add_weight_validation_witness :
  let e := {| today := "2024-05-01"; disk := WriteOk |} in
  let st := globals (boot FileAbsent) in
  let ctx := set_temp_weight (Some (Py.FNum false 125 (-1))) empty_context in
  temp_weight ctx = Some (Py.FNum false 125 (-1))
  /\ resolve_date e "Today" = Some "2024-05-01"
  /\ exists st',
       add_weight_get_date e (text_update 42 "Today") ctx st
       = Py.Ok (reply_text [WeightRecorded (Py.FNum false 125 (-1)) "2024-05-01"]
                  (Some END) (set_temp_weight None ctx) st')
       /\ user_weights 42 (user_data st')
          = user_weights 42 (user_data st)
            ++ [{| date := "2024-05-01"; weight := Py.FNum false 125 (-1) |}].
Proof.
  intros e st ctx.
  assert (temp_weight ctx = Some (Py.FNum false 125 (-1))) as H1 by reflexivity.
  assert (resolve_date e "Today" = Some "2024-05-01") as H2 by reflexivity.
  split; [exact H1 |]. split; [exact H2 |].
  destruct (proj2 (proj2 (proj2 (proj2
              (add_weight_validation e (text_update 42 "Today") ctx st))))
              _ _ H1 H2) as (st' & Hrun & Hw & _).
  exists st'. split; [exact Hrun | exact Hw].
Defined.

(** The specification's C7, as it is worded, fails on a weight that is not positive
    and on a date that is not in the form [YYYY-MM-DD]: both are accepted
    and stored. *)
Lemma add_weight_accepts_nonpositive :
  let e := {| today := "2024-05-01"; disk := WriteOk |} in
  Py.float_positive (Py.FNum true 5 0) = false
  /\ user_weights 42 (user_data (globals (addWeight e 42 "-5" "today" (boot FileAbsent))))
     = [{| date := "2024-05-01"; weight := Py.FNum true 5 0 |}]
  /\ Py.float_positive (Py.FNum false 0 0) = false
  /\ user_weights 42 (user_data (globals (addWeight e 42 "0 kg" "2024-1-5" (boot FileAbsent))))
     = [{| date := "2024-1-5"; weight := Py.FNum false 0 0 |}].
Proof. vm_compute. repeat split. Qed.

(** ** Identities of unrelated reminders *)

Lemma replace_no_underscore_inj m1 m2 :
  Py.all_chars (fun c => negb (Ascii.eqb c "_")) m1 = true ->
  Py.all_chars (fun c => negb (Ascii.eqb c "_")) m2 = true ->
  Py.replace " " "_" m1 = Py.replace " " "_" m2 -> m1 = m2.
Proof.
  revert m2. induction m1 as [|a m1 IH]; intros [|b m2]; simpl; try done.
  intros [Ha H1]%andb_true_iff [Hb H2]%andb_true_iff [= Hab Hm].
  apply negb_true_iff in Ha, Hb.
  rewrite (IH m2 H1 H2 Hm). f_equal.
  destruct (Ascii.eqb_spec a " ") as [-> |], (Ascii.eqb_spec b " ") as [-> |];
    subst; done.
Qed.

(** C9, as the code has it.  For times that pass validation, two
    identities are equal exactly when the recipients are equal, the times
    are equal and the messages are equal once every space is replaced by an
    underscore.  Among messages that hold no underscore the identity is
    injective. *)
Theorem job_id_injectivity c1 t1 m1 c2 t2 m2 :
  is_Some (Py.strptime_HM t1) -> is_Some (Py.strptime_HM t2) ->
  (job_id c1 t1 m1 = job_id c2 t2 m2
   <-> c1 = c2 /\ t1 = t2 /\ Py.replace " " "_" m1 = Py.replace " " "_" m2)
  /\ (Py.all_chars (fun c => negb (Ascii.eqb c "_")) m1 = true ->
      Py.all_chars (fun c => negb (Ascii.eqb c "_")) m2 = true ->
      job_id c1 t1 m1 = job_id c2 t2 m2 <-> c1 = c2 /\ t1 = t2 /\ m1 = m2).
Proof.
  intros Ht1%strptime_HM_no_underscore Ht2%strptime_HM_no_underscore.
  split; [by apply job_id_eq_iff |].
  intros H1 H2. rewrite job_id_eq_iff by done. split.
  - intros (-> & -> & Hm). by rewrite (replace_no_underscore_inj m1 m2 H1 H2 Hm).
  - by intros (-> & -> & ->).
Qed.

Lemma job_id_injectivity_witness :
  is_Some (Py.strptime_HM "08:30") /\ is_Some (Py.strptime_HM "8:30")
  /\ (job_id 7 "08:30" "Feed the dog" = job_id 7 "8:30" "Feed the dog"
      <-> 7 = 7 /\ "08:30" = "8:30"
          /\ Py.replace " " "_" "Feed the dog" = Py.replace " " "_" "Feed the dog").
Proof.
  assert (is_Some (Py.strptime_HM "08:30")) as H1 by (by eexists).
  assert (is_Some (Py.strptime_HM "8:30")) as H2 by (by eexists).
  split; [exact H1 |]. split; [exact H2 |].
  exact (proj1 (job_id_injectivity 7 "08:30" "Feed the dog"
                  7 "8:30" "Feed the dog" H1 H2)).
Defined.

(** The specification's C9, as it is worded, fails on two messages with other words
    that agree once their spaces are underscores. *)
Lemma job_id_collision :
  "walk the_dog" <> "walk_the dog"
  /\ Py.split_ws "walk the_dog" = ["walk"; "the_dog"]
  /\ Py.split_ws "walk_the dog" = ["walk_the"; "dog"]
  /\ is_Some (Py.strptime_HM "08:30")
  /\ job_id 7 "08:30" "walk the_dog" = job_id 7 "08:30" "walk_the dog".
Proof.
  split; [discriminate |]. split; [reflexivity |]. split; [reflexivity |].
  split; [by eexists | reflexivity].
Qed.

(** ** The scenarios of the specification *)

(** Scenarios B and C, as the code runs them: a reminder is added, which
    makes no job; the process restarts on the saved file, and the reconciler
    makes the job without a second Store entry. *)
Example add_then_restart :
  let e := {| today := "2024-05-01"; disk := WriteOk |} in
  let b1 := addReminder e 7 "08:30" "Feed the dog" (boot FileAbsent) in
  let b2 := boot (file_at_exit None b1) in
  scheduler (globals b1) = ∅
  /\ dom (scheduler (globals b2)) = {[job_id 7 "08:30" "Feed the dog"]}
  /\ user_data (globals b2)
     = [("7", {| weights := [];
                 reminders := [{| time := "08:30"; message := "Feed the dog" |}] |})].
Proof. vm_compute. repeat split. Qed.

(** The duplicate case of the specification: of two equal persisted
    reminders one is deleted, the job goes with it and the other reminder
    stays. *)
Example delete_one_of_two :
  let e := {| today := "2024-05-01"; disk := WriteOk |} in
  let x := {| time := "08:30"; message := "Feed the dog" |} in
  let b := boot (FileJson [("7", {| weights := []; reminders := [x; x] |})]) in
  let b' := dispatch HDeleteReminder e (command_update 7 ["1"]) b in
  dom (scheduler (globals b)) = {[job_id 7 "08:30" "Feed the dog"]}
  /\ user_reminders 7 (user_data (globals b')) = [x]
  /\ scheduler (globals b') = ∅.
Proof. vm_compute. repeat split. Qed.

(** * Further properties of the code *)

(** ** Scheduling and removing one job *)

Lemma schedule_reminder_job_other chat_id t m st k :
  k <> job_id chat_id t m ->
  scheduler (schedule_reminder_job chat_id t m st).1 !! k = scheduler st !! k.
Proof.
  intros Hk. unfold schedule_reminder_job.
  destruct (parse_hour_minute t) as [[h mi] |]; [| done].
  destruct (scheduler st !! _); [done |].
  destruct (cron_trigger_ok h mi); simpl; [| done]. by rewrite lookup_insert_ne.
Qed.

Lemma schedule_reminder_job_keeps chat_id t m st k j :
  scheduler st !! k = Some j ->
  scheduler (schedule_reminder_job chat_id t m st).1 !! k = Some j.
Proof.
  intros Hk. unfold schedule_reminder_job.
  destruct (parse_hour_minute t) as [[h mi] |]; [| done].
  destruct (scheduler st !! job_id chat_id t m) eqn:Hj; [done |].
  destruct (cron_trigger_ok h mi); simpl; [| done].
  rewrite lookup_insert_ne; [done | congruence].
Qed.

Lemma remove_reminder_job_scheduler jid st :
  scheduler (remove_reminder_job jid st).1 = delete jid (scheduler st).
Proof.
  unfold remove_reminder_job.
  destruct (scheduler st !! jid) eqn:Hj; simpl; [done |]. by rewrite delete_id.
Qed.

Lemma remove_reminder_job_frame jid st :
  user_data (remove_reminder_job jid st).1 = user_data st
  /\ file (remove_reminder_job jid st).1 = file st.
Proof. unfold remove_reminder_job. by destruct (scheduler st !! jid). Qed.

(** X1. [schedule_reminder_job] never replaces a job: every job that was
    there stays as it was, the only key that can appear is the reminder's
    identity, and the Store and the data file are not touched.  It returns
    [True] exactly when it added the job, and ends in its bare [return]
    exactly when the time has two integer fields and a job of that identity
    was there. *)
Theorem schedule_reminder_job_effect chat_id t m st :
  let jid := job_id chat_id t m in
  let st' := (schedule_reminder_job chat_id t m st).1 in
  let ret := (schedule_reminder_job chat_id t m st).2 in
  user_data st' = user_data st /\ file st' = file st
  /\ (forall k j, scheduler st !! k = Some j -> scheduler st' !! k = Some j)
  /\ (forall k, k <> jid -> scheduler st' !! k = scheduler st !! k)
  /\ (ret = Some true
      <-> scheduler st !! jid = None /\ schedulable t = true)
  /\ (ret = Some true ->
      exists hour minute,
        parse_hour_minute t = Some (hour, minute)
        /\ scheduler st' !! jid
           = Some {| job_hour := hour; job_minute := minute;
                     job_chat_id := chat_id; job_time := t;
                     job_message := m |})
  /\ (ret = None
      <-> is_Some (parse_hour_minute t) /\ is_Some (scheduler st !! jid))
  /\ (ret = Some false -> scheduler st' = scheduler st).
Proof.
  intros jid st' ret. subst st' ret.
  split; [apply schedule_reminder_job_frame |].
  split; [apply schedule_reminder_job_frame |].
  split; [intros k j; apply schedule_reminder_job_keeps |].
  split; [intros k; apply schedule_reminder_job_other |].
  unfold schedule_reminder_job, schedulable. fold jid.
  destruct (parse_hour_minute t) as [[h mi] |] eqn:Hp; simpl.
  - destruct (scheduler st !! jid) as [j0 |] eqn:Hj; simpl.
    + split; [split; [done | by intros [? _]] |]. split; [done |].
      split; [| done]. split; [| done]. intros _. split; by eexists.
    + destruct (cron_trigger_ok h mi) eqn:Hc; simpl.
      * split; [done |]. split.
        { intros _. exists h, mi. by rewrite lookup_insert_eq. }
        split; [| done]. split; [done | by intros [_ [? ?]]].
      * split; [split; [done | by intros [_ ?]] |]. split; [done |].
        split; [| done]. split; [done | by intros [_ [? ?]]].
  - split; [split; [done | by intros [_ ?]] |]. split; [done |].
    split; [| done]. split; [done | by intros [[? ?] _]].
Qed.

Lemma schedule_reminder_job_effect_witness :
  let st := globals (boot FileAbsent) in
  (schedule_reminder_job 7 "08:30" "Feed the dog" st).2 = Some true
  /\ exists hour minute,
       parse_hour_minute "08:30" = Some (hour, minute)
       /\ scheduler (schedule_reminder_job 7 "08:30" "Feed the dog" st).1
            !! job_id 7 "08:30" "Feed the dog"
          = Some {| job_hour := hour; job_minute := minute; job_chat_id := 7;
                    job_time := "08:30"; job_message := "Feed the dog" |}.
Proof.
  intros st.
  assert ((schedule_reminder_job 7 "08:30" "Feed the dog" st).2 = Some true)
    as H by reflexivity.
  split; [exact H |].
  destruct (schedule_reminder_job_effect 7 "08:30" "Feed the dog" st)
    as (_ & _ & _ & _ & _ & Hnew & _).
  exact (Hnew H).
Defined.

(** X2. [remove_reminder_job] returns [True] exactly when the job was
    there; afterwards the job is not there, every other job is as it was,
    and the Store and the data file are not touched.  Removing a job that
    [schedule_reminder_job] has just added gives the job table back. *)
Theorem remove_reminder_job_effect jid st :
  let st' := (remove_reminder_job jid st).1 in
  user_data st' = user_data st /\ file st' = file st
  /\ scheduler st' = delete jid (scheduler st)
  /\ ((remove_reminder_job jid st).2 = true <-> is_Some (scheduler st !! jid))
  /\ (remove_reminder_job jid st').2 = false
  /\ forall chat_id t m,
       jid = job_id chat_id t m -> scheduler st !! jid = None ->
       scheduler (remove_reminder_job jid
                    (schedule_reminder_job chat_id t m st).1).1
       = scheduler st.
Proof.
  intros st'. subst st'.
  split; [apply remove_reminder_job_frame |].
  split; [apply remove_reminder_job_frame |].
  split; [apply remove_reminder_job_scheduler |]. split; [| split].
  - unfold remove_reminder_job. destruct (scheduler st !! jid); simpl.
    + split; [by eexists | done].
    + split; [done | by intros [? ?]].
  - unfold remove_reminder_job at 1.
    by rewrite remove_reminder_job_scheduler, lookup_delete_eq.
  - intros chat_id t m -> Hnone. rewrite remove_reminder_job_scheduler.
    apply map_eq. intros k.
    destruct (decide (k = job_id chat_id t m)) as [-> | Hne].
    + by rewrite lookup_delete_eq, Hnone.
    + rewrite lookup_delete_ne by done. by apply schedule_reminder_job_other.
Qed.

Lemma remove_reminder_job_effect_witness :
  let st := globals (boot FileAbsent) in
  let jid := job_id 7 "08:30" "Feed the dog" in
  jid = job_id 7 "08:30" "Feed the dog" /\ scheduler st !! jid = None
  /\ scheduler (remove_reminder_job jid
                  (schedule_reminder_job 7 "08:30" "Feed the dog" st).1).1
     = scheduler st.
Proof.
  intros st jid.
  assert (jid = job_id 7 "08:30" "Feed the dog") as H1 by reflexivity.
  assert (scheduler st !! jid = None) as H2 by reflexivity.
  split; [exact H1 |]. split; [exact H2 |].
  destruct (remove_reminder_job_effect jid st) as (_ & _ & _ & _ & _ & H).
  exact (H 7 "08:30" "Feed the dog" H1 H2).
Defined.

(** ** The last step of the add-reminder conversation *)

(** X3. With a pending time and a message that is not empty,
    [add_reminder_get_message] appends the reminder to the user's record
    and saves it, and then the [AttributeError] of
    [context.dispatcher.updater] leaves the handler: no reply is sent, no
    job is made, the conversation is not ended and the pending time stays
    in the context.  Nothing else changes in the Store. *)
Theorem add_reminder_get_message_raises e u ctx st t :
  temp_reminder_time ctx = Some t -> t <> "" -> text u <> "" ->
  let user_id := from_user_id u in
  exists st',
    add_reminder_get_message e u ctx st
    = Py.Ok {| out_state := st'; out_context := ctx; out_replies := [];
               out_return := None; out_raised := Some Py.AttributeError |}
    /\ user_reminders user_id (user_data st')
       = user_reminders user_id (user_data st)
         ++ [{| time := t; message := text u |}]
    /\ (forall v, v <> user_id ->
                  user_reminders v (user_data st')
                  = user_reminders v (user_data st))
    /\ (forall v, user_weights v (user_data st') = user_weights v (user_data st))
    /\ scheduler st' = scheduler st
    /\ file st' = match disk e with
                  | WriteOk => FileJson (user_data st')
                  | OpenFails => file st
                  | WriteFails => FileMalformed
                  end.
Proof.
  intros Hctx Ht Hm user_id.
  unfold add_reminder_get_message, dispatcher_updater. rewrite Hctx.
  fold user_id.
  assert (truthy (Some t) = Some t) as -> by (by destruct t).
  assert (truthy (Some (text u)) = Some (text u)) as ->
    by (by destruct (text u)).
  destruct (get_user_data user_id (user_data st)) as [ud r] eqn:Hg.
  destruct (user_reminders_get_user_data _ _ _ _ Hg) as [Hr Hw].
  destruct (get_user_data_spec _ _ _ _ Hg) as [Hget _].
  set (r' := {| weights := weights r; reminders := _ |}).
  set (st2 := save_data (disk e) _).
  assert (user_data st2 = Py.dict_set (Py.str user_id) r' ud
          /\ scheduler st2 = scheduler st
          /\ file st2 = match disk e with
                        | WriteOk => FileJson (user_data st2)
                        | OpenFails => file st
                        | WriteFails => FileMalformed
                        end) as (Hud2 & Hsc2 & Hf2)
    by (subst st2; by destruct (disk e)).
  exists st2. split; [done |].
  split; [| split; [| split; [| done]]]; rewrite Hud2.
  - unfold user_reminders at 1. rewrite dict_get_set_eq. simpl. by rewrite Hr.
  - intros v Hv.
    assert (Py.str user_id <> Py.str v) as Hk
      by (intros Heq%str_inj; by subst).
    unfold user_reminders at 1. rewrite dict_get_set_ne by done.
    pose proof (get_user_data_lists user_id (user_data st) v) as [Hl _].
    by rewrite Hg in Hl.
  - intros v. destruct (decide (v = user_id)) as [-> | Hv].
    + unfold user_weights at 1. rewrite dict_get_set_eq. simpl. by rewrite Hw.
    + assert (Py.str user_id <> Py.str v) as Hk
        by (intros Heq%str_inj; by subst).
      unfold user_weights at 1. rewrite dict_get_set_ne by done.
      pose proof (get_user_data_lists user_id (user_data st) v) as [_ Hl].
      by rewrite Hg in Hl.
Qed.

Lemma add_reminder_get_message_raises_witness :
  let e := {| today := "2024-05-01"; disk := WriteOk |} in
  let st := globals (boot FileAbsent) in
  let ctx := set_temp_reminder_time (Some "08:30") empty_context in
  let u := text_update 7 "Feed the dog" in
  temp_reminder_time ctx = Some "08:30" /\ "08:30" <> "" /\ text u <> ""
  /\ exists st',
       add_reminder_get_message e u ctx st
       = Py.Ok {| out_state := st'; out_context := ctx; out_replies := [];
                  out_return := None; out_raised := Some Py.AttributeError |}
       /\ user_reminders 7 (user_data st')
          = [{| time := "08:30"; message := "Feed the dog" |}]
       /\ scheduler st' = ∅.
Proof.
  intros e st ctx u.
  assert (temp_reminder_time ctx = Some "08:30") as H1 by reflexivity.
  assert ("08:30" <> "") as H2 by done.
  assert (text u <> "") as H3 by done.
  split; [exact H1 |]. split; [exact H2 |]. split; [exact H3 |].
  destruct (add_reminder_get_message_raises e u ctx st "08:30" H1 H2 H3)
    as (st' & Hrun & Hl & _ & _ & Hs & _).
  exists st'. split; [exact Hrun |]. split; [exact Hl | exact Hs].
Defined.

(** X4. Without a pending time, or with an empty message,
    [add_reminder_get_message] changes nothing at all, not even by a call
    of [get_user_data]: it answers that something went wrong and ends the
    conversation. *)
Theorem add_reminder_get_message_nothing_pending e u ctx st :
  temp_reminder_time ctx = None \/ temp_reminder_time ctx = Some ""
  \/ text u = "" ->
  add_reminder_get_message e u ctx st
  = Py.Ok (reply_text [ReminderWentWrong] (Some END)
             (set_temp_reminder_time None ctx) st).
Proof.
  unfold add_reminder_get_message.
  intros [-> | [-> | ->]]; simpl; [done | done |].
  by destruct (truthy (temp_reminder_time ctx)).
Qed.

Lemma add_reminder_get_message_nothing_pending_witness :
  let e := {| today := "2024-05-01"; disk := WriteOk |} in
  let st := globals (boot FileAbsent) in
  let u := text_update 7 "Feed the dog" in
  (temp_reminder_time empty_context = None
   \/ temp_reminder_time empty_context = Some "" \/ text u = "")
  /\ add_reminder_get_message e u empty_context st
     = Py.Ok (reply_text [ReminderWentWrong] (Some END)
                (set_temp_reminder_time None empty_context) st).
Proof.
  intros e st u.
  assert (temp_reminder_time empty_context = None
          \/ temp_reminder_time empty_context = Some "" \/ text u = "") as H
    by (left; reflexivity).
  split; [exact H |].
  exact (add_reminder_get_message_nothing_pending e u empty_context st H).
Defined.

(** ** Deleting and the job table *)

Lemma save_data_file w st :
  file (save_data w st) = match w with
                          | WriteOk => FileJson (user_data st)
                          | OpenFails => file st
                          | WriteFails => FileMalformed
                          end.
Proof. by destruct w. Qed.

(** X5. A successful [delete_reminder] removes the job that stands under
    the identity of the deleted entry, whether or not an equal entry stays
    in the list: an equal entry that stays is then a persisted reminder
    without a job.  The Store is saved at once. *)
Theorem delete_reminder_deschedules e u ctx st arg rest n x :
  let user_id := from_user_id u in
  let jid := job_id user_id (time x) (message x) in
  args u = arg :: rest -> Py.int arg = Some n -> 1 <= n ->
  user_reminders user_id (user_data st) !! Z.to_nat (n - 1) = Some x ->
  exists st',
    delete_reminder e u ctx st
    = Py.Ok (reply_text [DeleteDone (message x) (time x)] None ctx st')
    /\ scheduler st' = delete jid (scheduler st)
    /\ scheduler st' !! jid = None
    /\ file st' = match disk e with
                  | WriteOk => FileJson (user_data st')
                  | OpenFails => file st
                  | WriteFails => FileMalformed
                  end
    /\ (x ∈ user_reminders user_id (user_data st') ->
        derivable (user_data st') jid).
Proof.
  intros user_id jid Ha Hi Hn Hx.
  assert (Z.to_nat (n - 1) < length (user_reminders user_id (user_data st)))%nat
    as Hlt by (by eapply lookup_lt_Some).
  rewrite delete_reminder_cases. simpl. rewrite Ha, Hi. fold user_id.
  rewrite bool_decide_eq_true_2 by lia. rewrite Hx. fold jid.
  eexists. split; [reflexivity |].
  set (st2 := save_data (disk e) _).
  destruct (remove_reminder_job_frame jid st2) as [Hud Hf].
  rewrite remove_reminder_job_scheduler, Hud, Hf.
  assert (scheduler st2 = scheduler st) as -> by (subst st2; by destruct (disk e)).
  assert (user_data st2
          = Py.dict_set (Py.str user_id)
              {| weights := user_weights user_id (user_data st);
                 reminders := Py.pop (Z.to_nat (n - 1))
                                (user_reminders user_id (user_data st)) |}
              (user_data st)) as Hud2 by (subst st2; by destruct (disk e)).
  split; [done |]. split; [apply lookup_delete_eq |]. split.
  { subst st2. rewrite save_data_file. by destruct (disk e). }
  rewrite Hud2. unfold user_reminders at 1. rewrite dict_get_set_eq. simpl.
  intros Hin. unfold jid. apply derivable_dict_set_intro; [apply int_str | done].
Qed.

Lemma delete_reminder_deschedules_witness :
  let e := {| today := "2024-05-01"; disk := WriteOk |} in
  let x := {| time := "08:30"; message := "Feed the dog" |} in
  let st := globals (boot (FileJson [("7", {| weights := [];
                                              reminders := [x; x] |})])) in
  let u := command_update 7 ["1"] in
  args u = ["1"] /\ Py.int "1" = Some 1 /\ 1 <= 1
  /\ user_reminders 7 (user_data st) !! Z.to_nat (1 - 1) = Some x
  /\ exists st',
       delete_reminder e u empty_context st
       = Py.Ok (reply_text [DeleteDone "Feed the dog" "08:30"] None
                  empty_context st')
       /\ scheduler st' !! job_id 7 "08:30" "Feed the dog" = None
       /\ derivable (user_data st') (job_id 7 "08:30" "Feed the dog").
Proof.
  intros e x st u.
  assert (args u = ["1"]) as H1 by reflexivity.
  assert (Py.int "1" = Some 1) as H2 by reflexivity.
  assert (1 <= 1) as H3 by lia.
  assert (user_reminders 7 (user_data st) !! Z.to_nat (1 - 1) = Some x) as H4
    by reflexivity.
  split; [exact H1 |]. split; [exact H2 |]. split; [exact H3 |].
  split; [exact H4 |].
  destruct (delete_reminder_deschedules e u empty_context st "1" [] 1 x
              H1 H2 H3 H4) as (st' & Hrun & Hsc & Hnone & _ & Hder).
  exists st'. split; [exact Hrun |]. split; [exact Hnone |].
  apply Hder.
  assert (Py.Ok (reply_text [DeleteDone "Feed the dog" "08:30"] None
                   empty_context st')
          = delete_reminder e u empty_context st) as Heq by (symmetry; exact Hrun).
  vm_compute in Heq. injection Heq as ->. vm_compute. left.
Defined.

Lemma pop_app_last {A} (l : list A) x : Py.pop (length l) (l ++ [x]) = l.
Proof.
  unfold Py.pop. rewrite take_app_length.
  rewrite drop_ge by (rewrite length_app; simpl; lia). apply app_nil_r.
Qed.

(** X6. Adding a reminder and then deleting the entry it created gives
    every user's reminders and weights back, and leaves the job table
    without the reminder's identity: as it was when no job stood under that
    identity, short of that job when an equal reminder had one. *)
Theorem add_then_delete e e' user_id t m b :
  is_Some (Py.strptime_HM t) -> m <> "" ->
  let n := Z.of_nat (length (user_reminders user_id (user_data (globals b)))) + 1 in
  let b1 := addReminder e user_id t m b in
  let b2 := dispatch HDeleteReminder e' (command_update user_id [Py.str n]) b1 in
  (forall v,
     user_reminders v (user_data (globals b2))
     = user_reminders v (user_data (globals b))
     /\ user_weights v (user_data (globals b2))
        = user_weights v (user_data (globals b)))
  /\ scheduler (globals b2) = delete (job_id user_id t m) (scheduler (globals b))
  /\ (scheduler (globals b) !! job_id user_id t m = None ->
      scheduler (globals b2) = scheduler (globals b)).
Proof.
  intros Ht Hm n b1 b2.
  set (l := user_reminders user_id (user_data (globals b))) in *.
  set (x := {| time := t; message := m |}).
  set (d0 := (get_user_data user_id (user_data (globals b))).1).
  set (r1 := {| weights := user_weights user_id (user_data (globals b));
                reminders := l ++ [x] |}).
  assert (user_data (globals b1) = Py.dict_set (Py.str user_id) r1 d0
          /\ scheduler (globals b1) = scheduler (globals b))
    as (Hud1 & Hsc1).
  { subst b1. rewrite addReminder_globals by done. fold l x r1 d0.
    set (st1 := set_user_data _ _).
    destruct (save_data_frame (disk e) st1) as (Hud & Hsc & _).
    simpl. by rewrite Hud, Hsc. }
  assert (user_reminders user_id (user_data (globals b1)) = l ++ [x]) as Hl1.
  { rewrite Hud1. unfold user_reminders. by rewrite dict_get_set_eq. }
  assert (user_weights user_id (user_data (globals b1))
          = user_weights user_id (user_data (globals b))) as Hw1.
  { rewrite Hud1. unfold user_weights at 1. by rewrite dict_get_set_eq. }
  assert (globals b2
          = (remove_reminder_job (job_id user_id t m)
               (save_data (disk e')
                  (set_user_data
                     (Py.dict_set (Py.str user_id)
                        {| weights := user_weights user_id (user_data (globals b));
                           reminders := l |}
                        (user_data (globals b1)))
                     (globals b1)))).1) as Hg2.
  { subst b2. unfold dispatch. simpl run_handler.
    rewrite delete_reminder_cases. simpl. rewrite int_str, Hl1, Hw1.
    rewrite bool_decide_eq_true_2
      by (rewrite length_app; simpl; subst n l; lia).
    replace (Z.to_nat (n - 1)) with (length l) by (subst n l; lia).
    rewrite lookup_app_r, Nat.sub_diag by lia. simpl.
    by rewrite pop_app_last. }
  set (r2 := {| weights := user_weights user_id (user_data (globals b));
                reminders := l |}) in *.
  set (st2 := save_data (disk e') _) in *.
  assert (user_data (globals b2)
          = Py.dict_set (Py.str user_id) r2 (user_data (globals b1))) as Hud2.
  { rewrite Hg2, (proj1 (remove_reminder_job_frame _ _)).
    subst st2. by destruct (disk e'). }
  assert (scheduler (globals b2)
          = delete (job_id user_id t m) (scheduler (globals b))) as Hsc2.
  { rewrite Hg2, remove_reminder_job_scheduler.
    assert (scheduler st2 = scheduler (globals b1)) as ->
      by (subst st2; by destruct (disk e')).
    by rewrite Hsc1. }
  split; [| split; [done |]].
  - intros v. rewrite Hud2, Hud1.
    destruct (get_user_data_lists user_id (user_data (globals b)) v) as [Hr Hw].
    fold d0 in Hr, Hw. unfold user_reminders at 1, user_weights at 1.
    destruct (decide (Py.str user_id = Py.str v)) as [Heq | Hne].
    + rewrite <- Heq, dict_get_set_eq. simpl.
      apply str_inj in Heq. by subst v.
    + rewrite !dict_get_set_ne by done. split; [apply Hr | apply Hw].
  - intros Hnone. rewrite Hsc2. by apply delete_id.
Qed.

Lemma add_then_delete_witness :
  let e := {| today := "2024-05-01"; disk := WriteOk |} in
  let b := boot (FileJson [("7", {| weights := [];
                                    reminders := [{| time := "12:00";
                                                     message := "Walk" |}] |})]) in
  let b2 := dispatch HDeleteReminder e (command_update 7 [Py.str 2])
              (addReminder e 7 "08:30" "Feed the dog" b) in
  is_Some (Py.strptime_HM "08:30") /\ "Feed the dog" <> ""
  /\ user_reminders 7 (user_data (globals b2))
     = user_reminders 7 (user_data (globals b))
  /\ scheduler (globals b2)
     = delete (job_id 7 "08:30" "Feed the dog") (scheduler (globals b)).
Proof.
  intros e b b2.
  assert (is_Some (Py.strptime_HM "08:30")) as H1 by (by eexists).
  assert ("Feed the dog" <> "") as H2 by done.
  split; [exact H1 |]. split; [exact H2 |].
  destruct (add_then_delete e e 7 "08:30" "Feed the dog" b H1 H2)
    as (Hl & Hs & _).
  split; [exact (proj1 (Hl 7)) | exact Hs].
Defined.

(** ** What one update can change *)

(** The Store after a handler: as it was, with the sender's record
    created, or with the sender's record replaced. *)
Lemma run_handler_store_shape h e u ctx st o :
  run_handler h e u ctx st = Py.Ok o ->
  let d0 := (get_user_data (from_user_id u) (user_data st)).1 in
  user_data (out_state o) = user_data st
  \/ user_data (out_state o) = d0
  \/ exists r', user_data (out_state o)
                = Py.dict_set (Py.str (from_user_id u)) r' d0.
Proof.
  intros H d0. subst d0. destruct h; simpl in H.
  - injection H as <-. by left.
  - injection H as <-. by left.
  - unfold add_weight_get_weight in H.
    destruct (Py.split_ws _) as [|tok ?]; [done |].
    destruct (Py.float tok); injection H as <-; by left.
  - unfold add_weight_get_date in H.
    destruct (resolve_date e (text u)); [| injection H as <-; by left].
    destruct (get_user_data _ _) as [ud r].
    destruct (temp_weight ctx); injection H as <-; simpl.
    + right. right. eexists. by destruct (disk e).
    + right. by left.
  - unfold view_weights in H. destruct (get_user_data _ _) as [ud r].
    destruct (weights r); injection H as <-; right; by left.
  - injection H as <-. by left.
  - unfold add_reminder_get_time in H.
    destruct (Py.strptime_HM (text u)); injection H as <-; by left.
  - unfold add_reminder_get_message, dispatcher_updater in H.
    destruct (truthy (temp_reminder_time ctx)) as [t |];
      [| injection H as <-; by left].
    destruct (truthy (Some (text u))); [| injection H as <-; by left].
    destruct (get_user_data _ _) as [ud r].
    injection H as <-. simpl. right. right. eexists. by destruct (disk e).
  - unfold list_reminders in H. destruct (get_user_data _ _) as [ud r].
    destruct (reminders r); injection H as <-; right; by left.
  - unfold delete_reminder in H. destruct (get_user_data _ _) as [ud r].
    destruct (args u) as [|arg ?]; [injection H as <-; right; by left |].
    destruct (Py.int arg) as [n |]; [| injection H as <-; right; by left].
    destruct (negb _); [injection H as <-; right; by left |].
    destruct (reminders r !! Z.to_nat (n - 1)) as [x |];
      [| injection H as <-; right; by left].
    injection H as <-. simpl. right. right. eexists.
    rewrite (proj1 (remove_reminder_job_frame _ _)). by destruct (disk e).
  - injection H as <-. by left.
Qed.

Lemma get_user_data_has_key user_id d :
  is_Some (Py.dict_get (Py.str user_id) (get_user_data user_id d).1).
Proof.
  destruct (get_user_data user_id d) as [d' r] eqn:Hg.
  apply get_user_data_spec in Hg as [Hget _]. by eexists.
Qed.

(** The bot after an update: the globals are those of the handler's
    outcome, up to the record that [error_handler] logs, and the sender's
    context is the outcome's; when the handler raised at once, only the log
    has changed. *)
Lemma dispatch_cases h e u b :
  let b' := dispatch h e u b in
  (exists o,
     run_handler h e u (context_of b (from_user_id u)) (globals b) = Py.Ok o
     /\ user_data (globals b') = user_data (out_state o)
     /\ file (globals b') = file (out_state o)
     /\ scheduler (globals b') = scheduler (out_state o)
     /\ contexts b' = <[from_user_id u := out_context o]> (contexts b))
  \/ ((exists ex,
         run_handler h e u (context_of b (from_user_id u)) (globals b)
         = Py.Raise ex)
      /\ user_data (globals b') = user_data (globals b)
      /\ file (globals b') = file (globals b)
      /\ scheduler (globals b') = scheduler (globals b)
      /\ contexts b' = contexts b).
Proof.
  unfold dispatch.
  destruct (run_handler h e u _ _) as [o | ex] eqn:Hrun; simpl.
  - left. exists o. split; [done |]. by destruct (out_raised o).
  - right. split; [by exists ex | done].
Qed.

Lemma dispatch_store_shape h e u b :
  let d0 := (get_user_data (from_user_id u) (user_data (globals b))).1 in
  user_data (globals (dispatch h e u b)) = user_data (globals b)
  \/ user_data (globals (dispatch h e u b)) = d0
  \/ exists r', user_data (globals (dispatch h e u b))
                = Py.dict_set (Py.str (from_user_id u)) r' d0.
Proof.
  destruct (dispatch_cases h e u b) as [(o & Hrun & -> & _) | (_ & -> & _)];
    [| by left].
  by apply run_handler_store_shape in Hrun.
Qed.

(** X7. An update of one user changes no other user's reminders, weights
    or conversation context, whichever handler runs. *)
Theorem dispatch_other_users h e u b v :
  v <> from_user_id u ->
  user_reminders v (user_data (globals (dispatch h e u b)))
  = user_reminders v (user_data (globals b))
  /\ user_weights v (user_data (globals (dispatch h e u b)))
     = user_weights v (user_data (globals b))
  /\ context_of (dispatch h e u b) v = context_of b v.
Proof.
  intros Hv.
  assert (Py.str (from_user_id u) <> Py.str v) as Hk
    by (intros Heq%str_inj; by subst).
  destruct (get_user_data_lists (from_user_id u) (user_data (globals b)) v)
    as [Hr Hw].
  split; [| split].
  - destruct (dispatch_store_shape h e u b) as [-> | [-> | [r' ->]]];
      [done | done |].
    unfold user_reminders at 1. rewrite dict_get_set_ne by done. apply Hr.
  - destruct (dispatch_store_shape h e u b) as [-> | [-> | [r' ->]]];
      [done | done |].
    unfold user_weights at 1. rewrite dict_get_set_ne by done. apply Hw.
  - unfold dispatch.
    destruct (run_handler h e u _ _) as [o | ex]; [| done].
    unfold context_of. simpl. by rewrite lookup_insert_ne.
Qed.

Lemma dispatch_other_users_witness :
  let e := {| today := "2024-05-01"; disk := WriteOk |} in
  let b := addReminder e 7 "08:30" "Feed the dog" (boot FileAbsent) in
  let b' := dispatch HDeleteReminder e (command_update 8 ["1"]) b in
  7 <> 8
  /\ user_reminders 7 (user_data (globals b'))
     = user_reminders 7 (user_data (globals b)).
Proof.
  intros e b b'.
  assert (7 <> from_user_id (command_update 8 ["1"])) as H by done.
  split; [exact H |].
  exact (proj1 (dispatch_other_users HDeleteReminder e
                  (command_update 8 ["1"]) b 7 H)).
Defined.

Lemma dict_get_None_keys {V} k (d : Py.dict V) :
  Py.dict_get k d = None -> k ∉ d.*1.
Proof.
  induction d as [|[k' v'] d IH]; csimpl; [intros _; apply not_elem_of_nil |].
  destruct (String.eqb_spec k' k) as [-> | Hne]; [done |].
  intros Hn [-> | Hin]%elem_of_cons; [done | by apply IH].
Qed.

(** X8. No update removes or reorders the users of the Store: the keys
    after an update are the keys before it, followed by the sender's key if
    the sender had no record.  Keys that were pairwise distinct stay so. *)
Theorem dispatch_keeps_users h e u b :
  let keys := (user_data (globals b)).*1 in
  let keys' := (user_data (globals (dispatch h e u b))).*1 in
  (keys' = keys
   \/ (keys' = keys ++ [Py.str (from_user_id u)]
       /\ Py.dict_get (Py.str (from_user_id u)) (user_data (globals b)) = None))
  /\ (NoDup keys -> NoDup keys').
Proof.
  intros keys keys'.
  assert (keys' = keys
          \/ (keys' = keys ++ [Py.str (from_user_id u)]
              /\ Py.dict_get (Py.str (from_user_id u)) (user_data (globals b))
                 = None)) as Hshape.
  { subst keys keys'.
    pose proof (get_user_data_store (from_user_id u) (user_data (globals b)))
      as Hd0.
    pose proof (get_user_data_has_key (from_user_id u) (user_data (globals b)))
      as Hkey.
    assert (forall d, d = (get_user_data (from_user_id u)
                             (user_data (globals b))).1 ->
              d.*1 = (user_data (globals b)).*1
              \/ (d.*1 = (user_data (globals b)).*1 ++ [Py.str (from_user_id u)]
                  /\ Py.dict_get (Py.str (from_user_id u))
                       (user_data (globals b)) = None)) as Hcase.
    { intros d ->. rewrite Hd0.
      destruct (Py.dict_get _ (user_data (globals b))); [by left |].
      right. by rewrite fmap_app. }
    destruct (dispatch_store_shape h e u b) as [-> | [-> | [r' ->]]].
    - by left.
    - by apply Hcase.
    - rewrite dict_set_keys by done. by apply Hcase. }
  split; [done |].
  destruct Hshape as [-> | [-> Hnone]]; [done |].
  intros Hnd. apply NoDup_app. split; [done |]. split.
  - intros k Hk ->%list_elem_of_singleton.
    by apply dict_get_None_keys in Hnone.
  - apply NoDup_singleton.
Qed.

Lemma dispatch_keeps_users_witness :
  let e := {| today := "2024-05-01"; disk := WriteOk |} in
  let b := addReminder e 7 "08:30" "Feed the dog" (boot FileAbsent) in
  NoDup (user_data (globals b)).*1
  /\ NoDup (user_data (globals (dispatch HViewWeights e (command_update 8 []) b))).*1.
Proof.
  intros e b.
  assert (NoDup (user_data (globals b)).*1) as H
    by (vm_compute; apply NoDup_singleton).
  split; [exact H |].
  exact (proj2 (dispatch_keeps_users HViewWeights e (command_update 8 []) b) H).
Defined.

(** The data file and the job table after a handler. *)
Lemma run_handler_writes h e u ctx st o :
  run_handler h e u ctx st = Py.Ok o ->
  (file (out_state o) = file st
   \/ ((h = HAddWeightGetDate \/ h = HAddReminderGetMessage
        \/ h = HDeleteReminder)
       /\ file (out_state o)
          = match disk e with
            | WriteOk => FileJson (user_data (out_state o))
            | OpenFails => file st
            | WriteFails => FileMalformed
            end))
  /\ (scheduler (out_state o) = scheduler st
      \/ h = HAddReminderGetMessage \/ h = HDeleteReminder).
Proof.
  intros H. destruct h; simpl in H.
  - injection H as <-. split; by left.
  - injection H as <-. split; by left.
  - unfold add_weight_get_weight in H.
    destruct (Py.split_ws _) as [|tok ?]; [done |].
    destruct (Py.float tok); injection H as <-; split; by left.
  - unfold add_weight_get_date in H.
    destruct (resolve_date e (text u)); [| injection H as <-; split; by left].
    destruct (get_user_data _ _) as [ud r].
    destruct (temp_weight ctx); injection H as <-; simpl.
    + split; [right; split; [by left |] | left]; by destruct (disk e).
    + split; by left.
  - unfold view_weights in H. destruct (get_user_data _ _) as [ud r].
    destruct (weights r); injection H as <-; split; by left.
  - injection H as <-. split; by left.
  - unfold add_reminder_get_time in H.
    destruct (Py.strptime_HM (text u)); injection H as <-; split; by left.
  - split; [| right; by left].
    unfold add_reminder_get_message, dispatcher_updater in H.
    destruct (truthy (temp_reminder_time ctx)) as [t |];
      [| injection H as <-; by left].
    destruct (truthy (Some (text u))); [| injection H as <-; by left].
    destruct (get_user_data _ _) as [ud r].
    injection H as <-. simpl. right. split; [right; by left |].
    by destruct (disk e).
  - unfold list_reminders in H. destruct (get_user_data _ _) as [ud r].
    destruct (reminders r); injection H as <-; split; by left.
  - split; [| right; by right]. unfold delete_reminder in H.
    destruct (get_user_data _ _) as [ud r].
    destruct (args u) as [|arg ?]; [injection H as <-; by left |].
    destruct (Py.int arg) as [n |]; [| injection H as <-; by left].
    destruct (negb _); [injection H as <-; by left |].
    destruct (reminders r !! Z.to_nat (n - 1)) as [x |];
      [| injection H as <-; by left].
    injection H as <-. simpl. right. split; [right; by right |].
    rewrite (proj1 (remove_reminder_job_frame _ _)),
      (proj2 (remove_reminder_job_frame _ _)).
    by destruct (disk e).
  - injection H as <-. split; by left.
Qed.

(** X9. Only three handlers write the data file, and only two touch the
    job table.  The file after an update is the file before it, unless
    [add_weight_get_date], [add_reminder_get_message] or [delete_reminder]
    saved: then it holds the Store if the write succeeded, is as before if
    [open] failed and is malformed if the write broke off.  The job table
    is as before unless [add_reminder_get_message] or [delete_reminder]
    ran; the weight handlers never touch it. *)
Theorem dispatch_writes h e u b :
  let b' := dispatch h e u b in
  (file (globals b') = file (globals b)
   \/ ((h = HAddWeightGetDate \/ h = HAddReminderGetMessage
        \/ h = HDeleteReminder)
       /\ file (globals b')
          = match disk e with
            | WriteOk => FileJson (user_data (globals b'))
            | OpenFails => file (globals b)
            | WriteFails => FileMalformed
            end))
  /\ (scheduler (globals b') = scheduler (globals b)
      \/ h = HAddReminderGetMessage \/ h = HDeleteReminder)
  /\ (disk e = OpenFails -> file (globals b') = file (globals b)).
Proof.
  intros b'. subst b'.
  destruct (dispatch_cases h e u b)
    as [(o & Hrun & -> & -> & -> & _) | (_ & -> & -> & -> & _)].
  - destruct (run_handler_writes _ _ _ _ _ _ Hrun) as [Hf Hs].
    split; [done |]. split; [done |].
    intros Hw. destruct Hf as [? | [_ Hf]]; [done |]. by rewrite Hf, Hw.
  - split; [by left |]. split; [by left | done].
Qed.

Lemma dispatch_writes_witness :
  let e := {| today := "2024-05-01"; disk := OpenFails |} in
  let b := boot FileAbsent in
  let b' := addReminder e 7 "08:30" "Feed the dog" b in
  disk e = OpenFails
  /\ file (globals b') = FileAbsent
  /\ user_reminders 7 (user_data (globals b'))
     = [{| time := "08:30"; message := "Feed the dog" |}].
Proof.
  intros e b b'.
  assert (disk e = OpenFails) as H by reflexivity.
  split; [exact H |]. split; [| reflexivity].
  destruct (dispatch_writes HAddReminderGetMessage e
              (text_update 7 "Feed the dog")
              (dispatch HAddReminderGetTime e (text_update 7 "08:30") b))
    as (_ & _ & Hf).
  etrans; [exact (Hf H) |]. reflexivity.
Defined.

(** ** Starting and restarting *)

Lemma repopulate_users_raises items st ex :
  repopulate_users items st = Py.Raise ex
  <-> ex = Py.ValueError /\ exists k r, (k, r) ∈ items /\ Py.int k = None.
Proof.
  revert st. induction items as [|[k r] items IH]; intros st; simpl.
  - split; [done |]. by intros (_ & k & r & Hin%elem_of_nil & _).
  - destruct (Py.int k) as [c |] eqn:Hc.
    + rewrite IH. split.
      * intros (-> & k' & r' & Hin & Hk). split; [done |].
        exists k', r'. split; [by right | done].
      * intros (-> & k' & r' & [[= -> ->] | Hin]%elem_of_cons & Hk);
          [congruence |].
        split; [done |]. by exists k', r'.
    + split.
      * intros [= <-]. split; [done |]. exists k, r. split; [left | done].
      * by intros (-> & _).
Qed.

(** X10. What the data file does to the start of [main].  An absent
    file and a file whose text is not JSON start the bot with an empty
    Store and no job.  A file that cannot be read, bytes that are not text
    and JSON that nests too deep end [main] with the exception of
    [load_data], which catches only [json.JSONDecodeError].  A Store with a
    user key that [int] does not accept ends [main] with [ValueError],
    raised in the reconciler outside any [try]; a Store whose keys all read
    as integers starts the bot, whatever the times of its reminders. *)
Theorem main_startup_outcomes f :
  (f = FileAbsent \/ f = FileMalformed ->
   exists st, main_startup f = Py.Ok st
              /\ user_data st = [] /\ scheduler st = ∅)
  /\ (f = FileUnreadable -> main_startup f = Py.Raise Py.OSError)
  /\ (f = FileUndecodable -> main_startup f = Py.Raise Py.UnicodeDecodeError)
  /\ (f = FileTooDeep -> main_startup f = Py.Raise Py.RecursionError)
  /\ (forall d, f = FileJson d ->
        (exists k r, (k, r) ∈ d /\ Py.int k = None) ->
        main_startup f = Py.Raise Py.ValueError)
  /\ (forall d, f = FileJson d ->
        (forall k r, (k, r) ∈ d -> is_Some (Py.int k)) ->
        exists st, main_startup f = Py.Ok st /\ user_data st = d).
Proof.
  split; [| split; [| split; [| split; [| split]]]].
  - intros [-> | ->]; eexists; (split; [reflexivity |]); by split.
  - by intros ->.
  - by intros ->.
  - by intros ->.
  - intros d -> Hbad. unfold main_startup, repopulate_scheduled_jobs. simpl.
    assert (repopulate_users d
              (log INFO "Data loaded successfully."
                 (set_user_data d (initial_state (FileJson d))))
            = Py.Raise Py.ValueError) as ->
      by (by apply repopulate_users_raises).
    done.
  - intros d -> Hkeys. unfold main_startup, repopulate_scheduled_jobs. simpl.
    destruct (repopulate_users d _) as [st' | ex] eqn:Hrun.
    + eexists. split; [reflexivity |]. simpl.
      by apply repopulate_users_spec in Hrun as (-> & _).
    + apply repopulate_users_raises in Hrun as (_ & k & r & Hin & Hk).
      destruct (Hkeys k r Hin) as [c Hc]. congruence.
Qed.

Lemma main_startup_outcomes_witness :
  let d := [("seven", {| weights := []; reminders := [] |})] in
  (exists k r, (k, r) ∈ d /\ Py.int k = None)
  /\ main_startup (FileJson d) = Py.Raise Py.ValueError.
Proof.
  intros d.
  assert (exists k r, (k, r) ∈ d /\ Py.int k = None) as H.
  { exists "seven", {| weights := []; reminders := [] |}.
    split; [left | reflexivity]. }
  split; [exact H |].
  exact (proj1 (proj2 (proj2 (proj2 (proj2
           (main_startup_outcomes (FileJson d)))))) d eq_refl H).
Defined.

(** X11. A bot that first started on a data file within the data model
    never fails to restart, whether it exits gracefully or is killed and
    whatever became of its writes; the restarted bot has a job for exactly
    the reminders of the Store it loaded.  After a graceful exit whose
    write succeeded it comes back with the same Store and with every job
    it had. *)
Theorem restart_after_exit f0 p b graceful :
  file_ok f0 = true -> reachable f0 p b ->
  exists st,
    main_startup (file_at_exit graceful b) = Py.Ok st
    /\ (forall jid, jid ∈ dom (scheduler st) <-> derivable (user_data st) jid)
    /\ (graceful = Some WriteOk ->
        user_data st = user_data (globals b)
        /\ dom (scheduler (globals b)) ⊆ dom (scheduler st)).
Proof.
  intros Hf0 Hr.
  pose proof (reachable_inv f0 p b Hf0 Hr) as Hinv.
  pose proof (reachable_consistent f0 p b Hr) as Hc.
  pose proof (file_at_exit_ok graceful b Hinv) as Hfile.
  destruct (main_startup_total _ Hfile) as [st Hst].
  exists st. split; [done |].
  pose proof (main_startup_inv _ _ Hfile Hst) as [Hok _].
  apply main_startup_spec in Hst as (_ & Hud & Hdom).
  assert (forall jid, jid ∈ dom (scheduler st) <-> derivable (user_data st) jid)
    as Heq.
  { intros jid. rewrite Hdom. by apply derivable_schedulable_ok. }
  split; [done |]. intros ->. simpl in Hud. split; [done |].
  intros jid Hj. apply Heq. rewrite Hud. by apply Hc.
Qed.

Lemma restart_after_exit_witness :
  let e := {| today := "2024-05-01"; disk := OpenFails |} in
  let b := addReminder e 7 "08:30" "Feed the dog" (boot FileAbsent) in
  file_ok FileAbsent = true /\ reachable FileAbsent Serving b
  /\ exists st,
       main_startup (file_at_exit (Some WriteOk) b) = Py.Ok st
       /\ user_data st = user_data (globals b).
Proof.
  intros e b.
  assert (file_ok FileAbsent = true) as H1 by reflexivity.
  assert (reachable FileAbsent Serving b) as H2.
  { apply reach_update with (p := Serving).
    apply reach_update with (p := JustReconciled).
    apply (boot_reachable FileAbsent (globals (boot FileAbsent))). reflexivity. }
  split; [exact H1 |]. split; [exact H2 |].
  destruct (restart_after_exit FileAbsent Serving b (Some WriteOk) H1 H2)
    as (st & Hst & _ & Hud).
  exists st. split; [exact Hst | exact (proj1 (Hud eq_refl))].
Defined.

(** X12. A reminder whose save fails is not on disk, although the running
    bot lists it.  If [open] failed, the file is as before, so a process
    that is killed comes back as if the reminder had never been added.  If
    the write broke off after [open] truncated the file, the killed process
    comes back with an empty Store and no job. *)
Theorem unsaved_reminder e user_id t m b :
  is_Some (Py.strptime_HM t) -> m <> "" ->
  let b1 := addReminder e user_id t m b in
  let x := {| time := t; message := m |} in
  user_reminders user_id (user_data (globals b1))
  = user_reminders user_id (user_data (globals b)) ++ [x]
  /\ (disk e = OpenFails ->
      file_at_exit None b1 = file_at_exit None b)
  /\ (disk e = WriteFails ->
      exists st,
        main_startup (file_at_exit None b1) = Py.Ok st
        /\ user_data st = [] /\ scheduler st = ∅).
Proof.
  intros Ht Hm b1 x. subst b1.
  pose proof (addReminder_globals e user_id t m b Ht Hm) as Hg.
  set (st1 := set_user_data _ _) in Hg.
  split; [| split].
  - rewrite Hg. simpl. rewrite (proj1 (save_data_frame _ _)). subst st1. simpl.
    unfold user_reminders at 1. by rewrite dict_get_set_eq.
  - intros Hw. unfold file_at_exit. rewrite Hg. simpl.
    by rewrite save_data_file, Hw.
  - intros Hw.
    assert (file_at_exit None (addReminder e user_id t m b) = FileMalformed)
      as -> by (unfold file_at_exit; rewrite Hg; simpl;
                by rewrite save_data_file, Hw).
    eexists. split; [reflexivity |]. split; reflexivity.
Qed.

Lemma unsaved_reminder_witness :
  let e := {| today := "2024-05-01"; disk := WriteFails |} in
  let b := addReminder {| today := "2024-05-01"; disk := WriteOk |}
             7 "12:00" "Walk" (boot FileAbsent) in
  let b1 := addReminder e 7 "08:30" "Feed the dog" b in
  is_Some (Py.strptime_HM "08:30") /\ "Feed the dog" <> ""
  /\ disk e = WriteFails
  /\ exists st,
       main_startup (file_at_exit None b1) = Py.Ok st
       /\ user_data st = [] /\ scheduler st = ∅.
Proof.
  intros e b b1.
  assert (is_Some (Py.strptime_HM "08:30")) as H1 by (by eexists).
  assert ("Feed the dog" <> "") as H2 by done.
  assert (disk e = WriteFails) as H3 by reflexivity.
  split; [exact H1 |]. split; [exact H2 |]. split; [exact H3 |].
  destruct (unsaved_reminder e 7 "08:30" "Feed the dog" b H1 H2)
    as (_ & _ & H).
  exact (H H3).
Defined.

(** ** The jobs and what they send *)

(** A job found after [schedule_reminder_job] was there before, or is the
    one just made from the arguments. *)
Lemma schedule_reminder_job_new chat_id t m st k j :
  scheduler (schedule_reminder_job chat_id t m st).1 !! k = Some j ->
  scheduler st !! k = Some j
  \/ (job_ok k j
      /\ job_chat_id j = chat_id /\ job_time j = t /\ job_message j = m).
Proof.
  unfold schedule_reminder_job.
  destruct (parse_hour_minute t) as [[h mi] |] eqn:Hp; [| by left].
  destruct (scheduler st !! job_id chat_id t m) eqn:Hj; [by left |].
  destruct (cron_trigger_ok h mi) eqn:Hc; simpl; [| by left].
  destruct (decide (k = job_id chat_id t m)) as [-> | Hne].
  - rewrite lookup_insert_eq. intros [= <-]. right. by repeat split.
  - rewrite lookup_insert_ne by done. by left.
Qed.

Lemma backed_get_user_data user_id d d' r j :
  get_user_data user_id d = (d', r) -> backed d j -> backed d' j.
Proof.
  intros (_ & [[-> _] | (Hnone & -> & ->)])%get_user_data_spec; [done |].
  intros (k & r & x & Hin & Hx & Hk & Ht & Hm).
  apply elem_of_dict_set_keep with (k := Py.str user_id) (v := empty_record)
    in Hin as [Hin | [-> Hin]]; [| congruence].
  by exists k, r, x.
Qed.

Lemma backed_dict_set_keep user_id r r' d j :
  Py.dict_get (Py.str user_id) d = Some r ->
  backed d j ->
  backed (Py.dict_set (Py.str user_id) r' d) j
  \/ exists x, x ∈ reminders r /\ job_chat_id j = user_id
               /\ time x = job_time j /\ message x = job_message j.
Proof.
  intros Hget (k & r0 & x & Hin & Hx & Hk & Ht & Hm).
  apply elem_of_dict_set_keep with (k := Py.str user_id) (v := r')
    in Hin as [Hin | [-> Hin]].
  - left. by exists k, r0, x.
  - right. exists x. rewrite int_str in Hk.
    split; [congruence |]. split; [congruence | done].
Qed.

Lemma backed_dict_set_intro user_id r' d j x :
  x ∈ reminders r' -> job_chat_id j = user_id ->
  time x = job_time j -> message x = job_message j ->
  backed (Py.dict_set (Py.str user_id) r' d) j.
Proof.
  intros Hx Hc Ht Hm. exists (Py.str user_id), r', x.
  split; [apply dict_set_elem |]. rewrite int_str.
  split; [done |]. split; [congruence | done].
Qed.

Lemma jobs_backed_ext st st' :
  user_data st' = user_data st -> scheduler st' = scheduler st ->
  jobs_backed st -> jobs_backed st'.
Proof. unfold jobs_backed. by intros -> ->. Qed.

Lemma jobs_backed_get_user_data user_id st d r :
  get_user_data user_id (user_data st) = (d, r) ->
  jobs_backed st -> jobs_backed (set_user_data d st).
Proof.
  intros Hg Hb jid j Hj. destruct (Hb jid j Hj) as [Hok Hbk].
  split; [done |]. by eapply backed_get_user_data.
Qed.

Lemma add_weight_get_date_jobs_backed e u ctx st o :
  add_weight_get_date e u ctx st = Py.Ok o ->
  jobs_backed st -> jobs_backed (out_state o).
Proof.
  unfold add_weight_get_date. intros H Hb.
  destruct (resolve_date e (text u)); [| by injection H as <-].
  destruct (get_user_data _ _) as [ud r] eqn:Hg.
  pose proof (jobs_backed_get_user_data _ _ _ _ Hg Hb) as Hb0.
  destruct (get_user_data_spec _ _ _ _ Hg) as [Hget _].
  destruct (temp_weight ctx) as [w |]; injection H as <-; simpl; [| done].
  set (r' := {| weights := _; reminders := reminders r |}).
  intros jid j Hj.
  rewrite (proj1 (proj2 (save_data_frame _ _))) in Hj.
  rewrite (proj1 (save_data_frame _ _)). simpl in *.
  destruct (Hb0 jid j Hj) as [Hok Hbk]. split; [done |]. simpl in Hbk.
  apply (backed_dict_set_keep _ _ r' _ _ Hget) in Hbk
    as [? | (x & Hx & Hc & Ht & Hm)]; [done |].
  by apply (backed_dict_set_intro _ r' _ _ x).
Qed.

Lemma add_reminder_get_message_jobs_backed e u ctx st o :
  add_reminder_get_message e u ctx st = Py.Ok o ->
  jobs_backed st -> jobs_backed (out_state o).
Proof.
  unfold add_reminder_get_message, dispatcher_updater. intros H Hb.
  destruct (truthy (temp_reminder_time ctx)) as [t |]; [| by injection H as <-].
  destruct (truthy (Some (text u))) as [m |]; [| by injection H as <-].
  destruct (get_user_data _ _) as [ud r] eqn:Hg.
  pose proof (jobs_backed_get_user_data _ _ _ _ Hg Hb) as Hb0.
  destruct (get_user_data_spec _ _ _ _ Hg) as [Hget _].
  injection H as <-. simpl.
  set (x := {| time := t; message := text u |}) in *.
  set (r' := {| weights := weights r; reminders := reminders r ++ [x] |}) in *.
  set (st2 := save_data _ _) in *.
  assert (user_data st2 = Py.dict_set (Py.str (from_user_id u)) r' ud
          /\ scheduler st2 = scheduler st) as [Hud2 Hsc2]
    by (subst st2; by destruct (disk e)).
  intros jid j Hj. rewrite Hud2. rewrite Hsc2 in Hj.
  destruct (Hb0 jid j Hj) as [Hok Hbk].
  split; [done |]. simpl in Hbk.
  apply (backed_dict_set_keep _ _ r' _ _ Hget) in Hbk
    as [? | (y & Hy & Hc & Ht & Hm)]; [done |].
  apply (backed_dict_set_intro _ r' _ _ y); try done.
  simpl. apply elem_of_app. by left.
Qed.

Lemma delete_reminder_jobs_backed e u ctx st o :
  delete_reminder e u ctx st = Py.Ok o ->
  jobs_backed st -> jobs_backed (out_state o).
Proof.
  unfold delete_reminder. intros H Hb.
  destruct (get_user_data _ _) as [ud r] eqn:Hg.
  pose proof (jobs_backed_get_user_data _ _ _ _ Hg Hb) as Hb0.
  destruct (get_user_data_spec _ _ _ _ Hg) as [Hget _].
  destruct (args u) as [|arg ?]; [by injection H as <- |].
  destruct (Py.int arg) as [n |]; [| by injection H as <-].
  destruct (negb _); [by injection H as <- |].
  destruct (reminders r !! Z.to_nat (n - 1)) as [x |] eqn:Hx;
    [| by injection H as <-].
  injection H as <-. simpl.
  set (r' := {| weights := weights r;
                reminders := Py.pop (Z.to_nat (n - 1)) (reminders r) |}) in *.
  set (st2 := save_data _ _) in *.
  assert (user_data st2 = Py.dict_set (Py.str (from_user_id u)) r' ud
          /\ scheduler st2 = scheduler st) as [Hud2 Hsc2]
    by (subst st2; by destruct (disk e)).
  intros jid j.
  rewrite remove_reminder_job_scheduler,
    (proj1 (remove_reminder_job_frame _ _)), Hud2, Hsc2.
  intros [Hne Hj]%lookup_delete_Some.
  destruct (Hb0 jid j Hj) as [Hok Hbk]. split; [done |]. simpl in Hbk.
  apply (backed_dict_set_keep _ _ r' _ _ Hget) in Hbk
    as [? | (y & Hy & Hc & Ht & Hm)]; [done |].
  apply (elem_of_pop_or _ _ _ _ Hx) in Hy as [Hy | ->].
  - by apply (backed_dict_set_intro _ r' _ _ y).
  - destruct Hok as [Hid _]. rewrite Hc, <- Ht, <- Hm in Hid. congruence.
Qed.

Lemma run_handler_jobs_backed h e u ctx st o :
  run_handler h e u ctx st = Py.Ok o ->
  jobs_backed st -> jobs_backed (out_state o).
Proof.
  destruct h; simpl.
  - by intros [= <-].
  - by intros [= <-].
  - unfold add_weight_get_weight. destruct (Py.split_ws _) as [|tok ?]; [done |].
    destruct (Py.float tok); by intros [= <-].
  - apply add_weight_get_date_jobs_backed.
  - unfold view_weights. destruct (get_user_data _ _) as [ud r] eqn:Hg.
    intros H Hb. pose proof (jobs_backed_get_user_data _ _ _ _ Hg Hb).
    destruct (weights r); by injection H as <-.
  - by intros [= <-].
  - unfold add_reminder_get_time.
    destruct (Py.strptime_HM (text u)); by intros [= <-].
  - apply add_reminder_get_message_jobs_backed.
  - unfold list_reminders. destruct (get_user_data _ _) as [ud r] eqn:Hg.
    intros H Hb. pose proof (jobs_backed_get_user_data _ _ _ _ Hg Hb).
    destruct (reminders r); by injection H as <-.
  - apply delete_reminder_jobs_backed.
  - by intros [= <-].
Qed.

Lemma schedule_all_new chat_id rs st k j :
  scheduler (schedule_all chat_id rs st) !! k = Some j ->
  scheduler st !! k = Some j
  \/ (job_ok k j /\ job_chat_id j = chat_id
      /\ exists x, x ∈ rs /\ time x = job_time j /\ message x = job_message j).
Proof.
  revert st. induction rs as [|x rs IH]; intros st; simpl; [by left |].
  intros [Hj | (Hok & Hc & y & Hy & Ht & Hm)]%IH.
  - apply schedule_reminder_job_new in Hj as [? | (Hok & Hc & Ht & Hm)];
      [by left |].
    right. split; [done |]. split; [done |]. exists x. split; [left | done].
  - right. split; [done |]. split; [done |]. exists y. split; [by right | done].
Qed.

Lemma repopulate_users_new items st st' k j :
  repopulate_users items st = Py.Ok st' ->
  scheduler st' !! k = Some j ->
  scheduler st !! k = Some j \/ (job_ok k j /\ backed items j).
Proof.
  revert st. induction items as [|[k0 r] items IH]; intros st; simpl.
  - intros [= <-]. by left.
  - destruct (Py.int k0) as [c |] eqn:Hc; [| done].
    intros Hrun Hj. destruct (IH _ Hrun Hj) as [Hj' | [Hok Hbk]].
    + apply schedule_all_new in Hj' as [? | (Hok & Hcj & x & Hx & Ht & Hm)];
        [by left |].
      right. split; [done |]. exists k0, r, x.
      split; [left |]. split; [done |]. split; [congruence | done].
    + right. split; [done |].
      destruct Hbk as (k1 & r1 & x & Hin & Hrest).
      exists k1, r1, x. split; [by right | done].
Qed.

Lemma main_startup_jobs_backed f st :
  main_startup f = Py.Ok st -> jobs_backed st.
Proof.
  unfold main_startup.
  destruct (load_data (initial_state f)) as [st0 |] eqn:Hload; [| done].
  simpl. apply load_data_initial in Hload as (Hf0 & Hsc0 & Hud0).
  unfold repopulate_scheduled_jobs.
  destruct (repopulate_users (user_data st0) st0) as [st1 |] eqn:Hrun; [| done].
  intros [= <-] jid j Hj. simpl in *.
  pose proof (repopulate_users_spec _ _ _ Hrun) as (Hud & _).
  destruct (repopulate_users_new _ _ _ _ _ Hrun Hj) as [Hj' | [Hok Hbk]].
  - by rewrite Hsc0 in Hj'.
  - split; [done |]. by rewrite Hud.
Qed.

Lemma reachable_jobs_backed f0 p b : reachable f0 p b -> jobs_backed (globals b).
Proof.
  induction 1 as [st Hst | p b h e u _ IH | p b g st _ IH Hst].
  - by eapply main_startup_jobs_backed.
  - destruct (dispatch_cases h e u b)
      as [(o & Hrun & Hud & _ & Hsc & _) | (_ & Hud & _ & Hsc & _)].
    + apply (jobs_backed_ext (out_state o)); [done | done |].
      by eapply run_handler_jobs_backed.
    + by apply (jobs_backed_ext (globals b)).
  - by eapply main_startup_jobs_backed.
Qed.

(** X13. Every live job of a running bot, on whatever data file it first
    started, stands under the identity of the recipient, time and message it
    captured, has the hour and the minute that [int] reads off its time
    string, within the ranges of a cron trigger, and is backed by the
    Store: the recipient has a persisted reminder with the job's very time
    and message. *)
Theorem live_jobs_backed f0 p b jid j :
  reachable f0 p b ->
  scheduler (globals b) !! jid = Some j ->
  jid = job_id (job_chat_id j) (job_time j) (job_message j)
  /\ parse_hour_minute (job_time j) = Some (job_hour j, job_minute j)
  /\ 0 <= job_hour j <= 23 /\ 0 <= job_minute j <= 59
  /\ exists k r x,
       (k, r) ∈ user_data (globals b) /\ x ∈ reminders r
       /\ Py.int k = Some (job_chat_id j)
       /\ time x = job_time j /\ message x = job_message j.
Proof.
  intros Hr Hj.
  destruct (reachable_jobs_backed f0 p b Hr jid j Hj) as [(Hid & Hp & Hc) Hbk].
  split; [done |]. split; [done |].
  unfold cron_trigger_ok in Hc.
  apply andb_true_iff in Hc as [Hc Hc4]. apply andb_true_iff in Hc as [Hc Hc3].
  apply andb_true_iff in Hc as [Hc1 Hc2].
  apply Z.leb_le in Hc1, Hc2, Hc3, Hc4.
  split; [done |]. split; [done | done].
Qed.

Lemma live_jobs_backed_witness :
  let e := {| today := "2024-05-01"; disk := WriteOk |} in
  let f := FileJson [("7", {| weights := [];
                              reminders := [{| time := "08:30";
                                               message := "Feed the dog" |}] |})] in
  let b := dispatch HViewWeights e (command_update 8 []) (boot f) in
  let j := {| job_hour := 8; job_minute := 30; job_chat_id := 7;
              job_time := "08:30"; job_message := "Feed the dog" |} in
  reachable f Serving b
  /\ scheduler (globals b) !! "reminder_7_08:30_Feed_the_dog" = Some j
  /\ exists k r x,
       (k, r) ∈ user_data (globals b) /\ x ∈ reminders r
       /\ Py.int k = Some 7
       /\ time x = "08:30" /\ message x = "Feed the dog".
Proof.
  intros e f b j.
  assert (reachable f Serving b) as H1.
  { apply reach_update with (p := JustReconciled).
    apply (boot_reachable f (globals (boot f))). reflexivity. }
  assert (scheduler (globals b) !! "reminder_7_08:30_Feed_the_dog" = Some j)
    as H2 by (vm_compute; reflexivity).
  split; [exact H1 |]. split; [exact H2 |].
  exact (proj2 (proj2 (proj2 (proj2
           (live_jobs_backed f Serving b _ j H1 H2))))).
Defined.

Lemma run_jobs_spec js st :
  (run_jobs js st).2
  = map (fun j => (job_chat_id j, "🔔 Reminder: " +:+ job_message j)) js
  /\ user_data (run_jobs js st).1 = user_data st
  /\ file (run_jobs js st).1 = file st
  /\ scheduler (run_jobs js st).1 = scheduler st.
Proof.
  revert st. induction js as [|j js IH]; intros st; simpl; [done |].
  destruct (run_jobs js _) as [st2 rest] eqn:Hrun.
  specialize (IH (log INFO ("Reminder sent to " +:+ Py.str (job_chat_id j)
                            +:+ " at " +:+ job_time j) st)).
  rewrite Hrun in IH. simpl in *. destruct IH as (-> & -> & -> & ->). done.
Qed.

Lemma elem_of_fire hour minute st c txt :
  (c, txt) ∈ (fire hour minute st).2
  <-> exists jid j, scheduler st !! jid = Some j
                    /\ job_hour j = hour /\ job_minute j = minute
                    /\ c = job_chat_id j
                    /\ txt = "🔔 Reminder: " +:+ job_message j.
Proof.
  unfold fire. rewrite (proj1 (run_jobs_spec _ _)).
  change (map ?f ?l) with (f <$> l). rewrite list_elem_of_fmap. split.
  - intros (j & [= -> ->] & [Hdue Hj]%list_elem_of_filter).
    apply list_elem_of_fmap in Hj as ([jid j'] & -> & Hj).
    apply elem_of_map_to_list in Hj. exists jid, j'. split; [done |].
    unfold due in Hdue. simpl in Hdue.
    apply andb_true_iff in Hdue as [Hh%Z.eqb_eq Hm%Z.eqb_eq].
    split; [done |]. split; [done | done].
  - intros (jid & j & Hj & <- & <- & -> & ->). exists j. split; [done |].
    apply list_elem_of_filter. split.
    + unfold due. by rewrite !Z.eqb_refl.
    + apply list_elem_of_fmap. exists (jid, j). split; [done |].
      by apply elem_of_map_to_list.
Qed.

(** X14. What the scheduler sends at one minute of the day.  Firing
    changes neither the job table nor the Store nor the data file, so every
    job fires again the next day.  Every message that a running bot sends
    at [hour]:[minute] goes to a recipient who has a persisted reminder
    with that very message and with a time that reads as that hour and
    minute: nothing is sent for a reminder that was deleted. *)
Theorem fired_reminders_persisted f0 p b hour minute :
  reachable f0 p b ->
  let st := globals b in
  scheduler (fire hour minute st).1 = scheduler st
  /\ user_data (fire hour minute st).1 = user_data st
  /\ file (fire hour minute st).1 = file st
  /\ forall c txt,
       (c, txt) ∈ (fire hour minute st).2 ->
       exists k r x,
         (k, r) ∈ user_data st /\ x ∈ reminders r /\ Py.int k = Some c
         /\ parse_hour_minute (time x) = Some (hour, minute)
         /\ txt = "🔔 Reminder: " +:+ message x.
Proof.
  intros Hr st. subst st.
  destruct (run_jobs_spec
              (filter (fun j => due hour minute j = true)
                 ((map_to_list (scheduler (globals b))).*2)) (globals b))
    as (_ & Hud & Hf & Hsc).
  split; [exact Hsc |]. split; [exact Hud |]. split; [exact Hf |].
  intros c txt (jid & j & Hj & <- & <- & -> & ->)%elem_of_fire.
  destruct (reachable_jobs_backed f0 p b Hr jid j Hj)
    as [(_ & Hp & _) (k & r & x & Hin & Hx & Hk & Ht & Hm)].
  exists k, r, x. rewrite Ht, Hm. done.
Qed.

Lemma fired_reminders_persisted_witness :
  let e := {| today := "2024-05-01"; disk := WriteOk |} in
  let f := FileJson [("7", {| weights := [];
                              reminders := [{| time := "08:30";
                                               message := "Feed the dog" |};
                                            {| time := "8:30";
                                               message := "Walk" |}] |})] in
  let b := dispatch HDeleteReminder e (command_update 7 ["1"]) (boot f) in
  reachable f Serving b
  /\ (fire 8 30 (globals b)).2 = [(7, "🔔 Reminder: Walk")]
  /\ forall c txt, (c, txt) ∈ (fire 8 30 (globals b)).2 ->
       exists k r x,
         (k, r) ∈ user_data (globals b) /\ x ∈ reminders r /\ Py.int k = Some c
         /\ parse_hour_minute (time x) = Some (8, 30)
         /\ txt = "🔔 Reminder: " +:+ message x.
Proof.
  intros e f b.
  assert (reachable f Serving b) as H1.
  { apply reach_update with (p := JustReconciled).
    apply (boot_reachable f (globals (boot f))). reflexivity. }
  split; [exact H1 |]. split; [vm_compute; reflexivity |].
  exact (proj2 (proj2 (proj2
           (fired_reminders_persisted f Serving b 8 30 H1)))).
Defined.

(** A live identity of a valid time fires at that time to that
    recipient. *)
Lemma live_identity_fires st c t m hour minute :
  store_ok (user_data st) = true -> jobs_backed st ->
  Py.strptime_HM t = Some (hour, minute) ->
  is_Some (scheduler st !! job_id c t m) ->
  exists m', (c, "🔔 Reminder: " +:+ m') ∈ (fire hour minute st).2
             /\ Py.replace " " "_" m' = Py.replace " " "_" m.
Proof.
  intros Hok Hb Ht [j Hj].
  destruct (Hb _ j Hj) as [(Hid & Hp & _) (k & r & x & Hin & Hx & Hk & Htx & Hm)].
  assert (is_Some (Py.strptime_HM (job_time j))) as Hv.
  { rewrite <- Htx. eapply record_ok_elem; [| done].
    by eapply store_ok_elem. }
  apply job_id_eq_iff in Hid as (Hc & Htj & Hrep);
    [| apply strptime_HM_no_underscore; by eexists
     | by apply strptime_HM_no_underscore].
  apply strptime_HM_schedulable in Ht as [Hpt _].
  rewrite <- Htj, Hpt in Hp. injection Hp as Hh Hmi.
  exists (job_message j). split; [| done].
  apply elem_of_fire. by exists (job_id c t m), j.
Qed.

(** X15. After a start or restart of a bot whose first data file was
    within the data model, every persisted reminder is delivered: at the
    hour and minute of its time the scheduler sends the recipient a
    message that equals the reminder's message up to spaces against
    underscores. *)
Theorem persisted_reminders_fire f0 b k r x c hour minute :
  file_ok f0 = true -> reachable f0 JustReconciled b ->
  (k, r) ∈ user_data (globals b) -> x ∈ reminders r ->
  Py.int k = Some c ->
  Py.strptime_HM (time x) = Some (hour, minute) ->
  exists m', (c, "🔔 Reminder: " +:+ m') ∈ (fire hour minute (globals b)).2
             /\ Py.replace " " "_" m' = Py.replace " " "_" (message x).
Proof.
  intros Hf0 Hr Hin Hx Hk Ht.
  pose proof (reachable_inv f0 _ b Hf0 Hr) as [[Hok _] _].
  apply (live_identity_fires _ c (time x) (message x)); try done.
  - by apply (reachable_jobs_backed f0 JustReconciled).
  - apply (elem_of_dom (D := gset string)).
    assert (forall jid, jid ∈ dom (scheduler (globals b))
                        <-> derivable_schedulable (user_data (globals b)) jid)
      as Hdom.
    { inversion Hr as [st Hst | | p' b' g st Hr' Hst]; subst; simpl;
        by apply main_startup_spec in Hst as (_ & _ & Hdom). }
    apply Hdom, derivable_schedulable_ok; [done |]. by exists k, r, x, c.
Qed.

Lemma persisted_reminders_fire_witness :
  let f := FileJson [("7", {| weights := [];
                              reminders := [{| time := "08:30";
                                               message := "Feed the dog" |}] |})] in
  file_ok f = true /\ reachable f JustReconciled (boot f)
  /\ exists m', (7, "🔔 Reminder: " +:+ m') ∈ (fire 8 30 (globals (boot f))).2
                /\ Py.replace " " "_" m' = Py.replace " " "_" "Feed the dog".
Proof.
  intros f.
  assert (file_ok f = true) as H1 by reflexivity.
  assert (reachable f JustReconciled (boot f)) as H2
    by (apply (boot_reachable f (globals (boot f))); reflexivity).
  split; [exact H1 |]. split; [exact H2 |].
  apply (persisted_reminders_fire f (boot f) "7"
           {| weights := [];
              reminders := [{| time := "08:30"; message := "Feed the dog" |}] |}
           {| time := "08:30"; message := "Feed the dog" |} 7 8 30 H1 H2).
  - vm_compute. left.
  - left.
  - reflexivity.
  - reflexivity.
Defined.

(** X16. A reminder added through the conversation is not scheduled by
    the running bot: at every minute of the day the scheduler sends what it
    sent before the add.  In a bot whose first data file was within the
    data model the reminder is delivered from the next start on the saved
    file: at the hour and minute of the accepted time the restarted bot
    sends the user a message that equals the reminder's message up to
    spaces against underscores. *)
Theorem added_reminder_waits_for_restart f0 p b e user_id t m hour minute :
  file_ok f0 = true -> reachable f0 p b ->
  Py.strptime_HM t = Some (hour, minute) -> m <> "" ->
  let b1 := addReminder e user_id t m b in
  (forall h mi, (fire h mi (globals b1)).2 = (fire h mi (globals b)).2)
  /\ (disk e = WriteOk ->
      exists st,
        main_startup (file_at_exit None b1) = Py.Ok st
        /\ exists m',
             (user_id, "🔔 Reminder: " +:+ m') ∈ (fire hour minute st).2
             /\ Py.replace " " "_" m' = Py.replace " " "_" m).
Proof.
  intros Hf0 Hr Ht Hm b1.
  assert (is_Some (Py.strptime_HM t)) as Hv by (by eexists).
  pose proof (addReminder_globals e user_id t m b Hv Hm) as Hg.
  set (st1 := set_user_data _ _) in Hg.
  destruct (save_data_frame (disk e) st1) as (Hud & Hsc & Hfile).
  split.
  - intros h mi. subst b1. rewrite Hg. unfold fire.
    rewrite !(proj1 (run_jobs_spec _ _)). simpl. by rewrite Hsc.
  - intros Hw.
    assert (reachable f0 Serving b1) as Hr1.
    { apply reach_update with (p := Serving).
      by apply reach_update with (p := p). }
    destruct (restart_succeeds f0 Serving b1 None Hf0 Hr1) as [st Hst].
    exists st. split; [done |].
    assert (reachable f0 JustReconciled {| globals := st; contexts := ∅ |})
      as Hr2 by (by apply reach_restart with (p := Serving) (b := b1)
                                             (graceful := None)).
    pose proof (reachable_inv f0 _ _ Hf0 Hr2) as [[Hok _] _].
    pose proof (reachable_jobs_backed f0 _ _ Hr2) as Hb.
    simpl in Hok, Hb.
    apply (live_identity_fires st user_id t m); try done.
    apply (elem_of_dom (D := gset string)).
    apply main_startup_spec in Hst as (_ & Hst & Hdom).
    apply Hdom. rewrite Hst. unfold file_at_exit. subst b1. rewrite Hg. simpl.
    rewrite (Hfile Hw). subst st1. simpl.
    eexists (Py.str user_id), _, {| time := t; message := m |}, user_id.
    split; [apply dict_set_elem |]. simpl.
    split; [apply elem_of_app; right; left |].
    split; [apply int_str |].
    split; [by apply strptime_HM_is_schedulable | done].
Qed.

Lemma added_reminder_waits_for_restart_witness :
  let e := {| today := "2024-05-01"; disk := WriteOk |} in
  let b1 := addReminder e 7 "08:30" "Feed the dog" (boot FileAbsent) in
  file_ok FileAbsent = true /\ reachable FileAbsent JustReconciled (boot FileAbsent)
  /\ Py.strptime_HM "08:30" = Some (8, 30) /\ "Feed the dog" <> ""
  /\ (fire 8 30 (globals b1)).2 = []
  /\ exists st,
       main_startup (file_at_exit None b1) = Py.Ok st
       /\ exists m',
            (7, "🔔 Reminder: " +:+ m') ∈ (fire 8 30 st).2
            /\ Py.replace " " "_" m' = Py.replace " " "_" "Feed the dog".
Proof.
  intros e b1.
  assert (file_ok FileAbsent = true) as H1 by reflexivity.
  assert (reachable FileAbsent JustReconciled (boot FileAbsent)) as H2
    by (apply (boot_reachable FileAbsent (globals (boot FileAbsent)));
        reflexivity).
  assert (Py.strptime_HM "08:30" = Some (8, 30)) as H3 by reflexivity.
  assert ("Feed the dog" <> "") as H4 by done.
  split; [exact H1 |]. split; [exact H2 |]. split; [exact H3 |].
  split; [exact H4 |].
  destruct (added_reminder_waits_for_restart FileAbsent JustReconciled
              (boot FileAbsent) e 7 "08:30" "Feed the dog" 8 30 H1 H2 H3 H4)
    as [Hsame Hrestart].
  split; [etrans; [exact (Hsame 8 30) | reflexivity] |].
  exact (Hrestart eq_refl).
Defined.

(** ** A weight text without a token *)

Lemma split_ws_go_nil cur s :
  Py.split_ws_go cur s = [] <-> cur = None /\ Py.all_chars Py.isspace s = true.
Proof.
  revert cur. induction s as [|c s IH]; intros cur; simpl.
  - destruct cur; split; try done. by intros [? _].
  - destruct (Py.isspace c); simpl.
    + destruct cur; [split; [done | by intros [? _]] |]. apply IH.
    + rewrite IH. split; [by intros [? _] | by intros [_ ?]].
Qed.

(** X17. [add_weight_get_weight] raises exactly when the text holds no
    token, that is when it is empty or white space only: [split()[0]] is an
    [IndexError], which the handler's [except ValueError] does not catch.
    The dispatcher then hands the update to [error_handler]: one warning is
    logged, and the Store, the data file, the job table and every user's
    conversation context are as before. *)
Theorem add_weight_blank_text e u b :
  (forall ctx st,
     add_weight_get_weight e u ctx st = Py.Raise Py.IndexError
     <-> Py.all_chars Py.isspace (text u) = true)
  /\ (forall ctx st ex,
        add_weight_get_weight e u ctx st = Py.Raise ex -> ex = Py.IndexError)
  /\ (Py.all_chars Py.isspace (text u) = true ->
      let b' := dispatch HAddWeightGetWeight e u b in
      user_data (globals b') = user_data (globals b)
      /\ file (globals b') = file (globals b)
      /\ scheduler (globals b') = scheduler (globals b)
      /\ contexts b' = contexts b
      /\ logged (globals b')
         = logged (globals b) ++ [(WARNING, "Update caused error")]).
Proof.
  assert (forall ctx st,
            add_weight_get_weight e u ctx st = Py.Raise Py.IndexError
            <-> Py.all_chars Py.isspace (text u) = true) as Hiff.
  { intros ctx st. unfold add_weight_get_weight, Py.split_ws.
    destruct (Py.split_ws_go None (text u)) as [|tok rest] eqn:Hs.
    - split; [| done]. intros _. by apply split_ws_go_nil in Hs as [_ ?].
    - split.
      + by destruct (Py.float tok).
      + intros Hsp.
        assert (Py.split_ws_go None (text u) = []) as Hnil
          by (by apply split_ws_go_nil).
        congruence. }
  split; [done |]. split.
  - intros ctx st ex. unfold add_weight_get_weight.
    destruct (Py.split_ws (text u)) as [|tok rest]; [by intros [= <-] |].
    by destruct (Py.float tok).
  - intros Hsp b'. subst b'. unfold dispatch. simpl run_handler.
    by rewrite (proj2 (Hiff _ _) Hsp).
Qed.

Lemma add_weight_blank_text_witness :
  let e := {| today := "2024-05-01"; disk := WriteOk |} in
  let b := addReminder e 7 "08:30" "Feed the dog" (boot FileAbsent) in
  let b' := dispatch HAddWeightGetWeight e (text_update 7 "   ") b in
  Py.all_chars Py.isspace "   " = true
  /\ user_data (globals b') = user_data (globals b)
  /\ contexts b' = contexts b.
Proof.
  intros e b b'.
  assert (Py.all_chars Py.isspace (text (text_update 7 "   ")) = true) as H
    by reflexivity.
  split; [exact H |].
  destruct (add_weight_blank_text e (text_update 7 "   ") b) as (_ & _ & Hb).
  destruct (Hb H) as (Hud & _ & _ & Hctx & _).
  split; [exact Hud | exact Hctx].
Defined.

(** ** Cancelling *)

(** X18. [cancel] discards what the conversation had collected.  It
    clears the user's context and changes nothing but the log; if that
    user's next message reaches the last step of either conversation, no
    weight and no reminder is stored, no job is made and the data file is
    not written, whatever the message says. *)
Theorem cancel_discards_pending e1 e2 u1 u2 b h :
  from_user_id u2 = from_user_id u1 ->
  h = HAddWeightGetDate \/ h = HAddReminderGetMessage ->
  let b1 := dispatch HCancel e1 u1 b in
  let b2 := dispatch h e2 u2 b1 in
  context_of b1 (from_user_id u1) = empty_context
  /\ user_data (globals b1) = user_data (globals b)
  /\ scheduler (globals b1) = scheduler (globals b)
  /\ file (globals b1) = file (globals b)
  /\ (forall v,
        user_reminders v (user_data (globals b2))
        = user_reminders v (user_data (globals b))
        /\ user_weights v (user_data (globals b2))
           = user_weights v (user_data (globals b)))
  /\ scheduler (globals b2) = scheduler (globals b)
  /\ file (globals b2) = file (globals b).
Proof.
  intros Hu Hh b1 b2.
  assert (context_of b1 (from_user_id u1) = empty_context) as Hctx.
  { subst b1. unfold dispatch, context_of. simpl. by rewrite lookup_insert_eq. }
  split; [done |]. split; [reflexivity |]. split; [reflexivity |].
  split; [reflexivity |].
  subst b2. unfold dispatch. rewrite Hu, Hctx.
  change (user_data (globals b)) with (user_data (globals b1)).
  change (scheduler (globals b)) with (scheduler (globals b1)).
  change (file (globals b)) with (file (globals b1)).
  clearbody b1.
  destruct Hh as [-> | ->]; simpl run_handler.
  - unfold add_weight_get_date.
    destruct (resolve_date e2 (text u2)); [| by simpl].
    destruct (get_user_data _ _) as [ud r] eqn:Hg. simpl.
    split; [| done]. intros v.
    pose proof (get_user_data_lists (from_user_id u2) (user_data (globals b1)) v)
      as Hl.
    by rewrite Hg in Hl.
  - unfold add_reminder_get_message. simpl. done.
Qed.

Lemma cancel_discards_pending_witness :
  let e := {| today := "2024-05-01"; disk := WriteOk |} in
  let b := dispatch HAddReminderGetTime e (text_update 7 "08:30")
             (boot FileAbsent) in
  let b2 := dispatch HAddReminderGetMessage e (text_update 7 "Feed the dog")
              (dispatch HCancel e (command_update 7 []) b) in
  temp_reminder_time (context_of b 7) = Some "08:30"
  /\ user_reminders 7 (user_data (globals b2)) = []
  /\ scheduler (globals b2) = ∅.
Proof.
  intros e b b2.
  assert (from_user_id (text_update 7 "Feed the dog")
          = from_user_id (command_update 7 [])) as H1 by reflexivity.
  split; [reflexivity |].
  destruct (cancel_discards_pending e e (command_update 7 [])
              (text_update 7 "Feed the dog") b HAddReminderGetMessage
              H1 (or_intror eq_refl))
    as (_ & _ & _ & _ & Hl & Hs & _).
  split.
  - etrans; [exact (proj1 (Hl 7)) |]. reflexivity.
  - etrans; [exact Hs |]. reflexivity.
Defined.

(** ** Looking up a user's record *)

(** X19. [get_user_data] is idempotent: a second call for the same user
    returns the same record and changes nothing more.  The record it
    returns is the one the Store holds under the user's key afterwards, the
    records under all other keys are untouched, and the Store itself is
    unchanged exactly when the user had a record. *)
Theorem get_user_data_idempotent user_id d :
  get_user_data user_id (get_user_data user_id d).1 = get_user_data user_id d
  /\ Py.dict_get (Py.str user_id) (get_user_data user_id d).1
     = Some (get_user_data user_id d).2
  /\ (forall k, k <> Py.str user_id ->
                Py.dict_get k (get_user_data user_id d).1 = Py.dict_get k d)
  /\ ((get_user_data user_id d).1 = d
      <-> is_Some (Py.dict_get (Py.str user_id) d)).
Proof.
  unfold get_user_data.
  destruct (Py.dict_get (Py.str user_id) d) as [r |] eqn:Hget; simpl.
  - rewrite Hget. split; [done |]. split; [done |]. split; [done |].
    split; [by eexists | done].
  - rewrite dict_get_set_eq. split; [done |]. split; [done |]. split.
    + intros k Hk. by apply dict_get_set_ne.
    + split; [| by intros [? ?]].
      intros Heq. rewrite <- Heq, dict_get_set_eq in Hget. done.
Qed.

(** ** The dates of the weight entries *)

Lemma field_Y_spec s v r :
  (v, r) ∈ Py.field_Y s ->
  0 <= v <= 9999
  /\ exists a b c d,
       s = String a (String b (String c (String d r)))
       /\ Py.isdigit a = true /\ Py.isdigit b = true
       /\ Py.isdigit c = true /\ Py.isdigit d = true
       /\ v = 100 * Py.two_digits a b + Py.two_digits c d.
Proof.
  unfold Py.field_Y. intros H.
  destruct s as [|a [|b [|c [|d s]]]]; try (by apply elem_of_nil in H).
  destruct (_ && _) eqn:Hd; [| by apply elem_of_nil in H].
  apply list_elem_of_singleton in H. injection H as -> ->.
  apply andb_true_iff in Hd as [Hd H4]. apply andb_true_iff in Hd as [Hd H3].
  apply andb_true_iff in Hd as [H1 H2].
  split; [digit_bounds |]. by exists a, b, c, d.
Qed.

Ltac field_shape :=
  split; [digit_bounds |];
  first
    [ left; eexists _, _; split; [reflexivity |];
      split; [done |]; split; [done |];
      unfold Py.two_digits, Py.digit_val; simpl N_of_ascii; lia
    | right; left; eexists; split; [reflexivity |]; split; [done |]; done
    | right; right; eexists; split; [reflexivity |]; split; [done |]; done ].

Lemma field_m_spec s v r :
  (v, r) ∈ Py.field_m s ->
  1 <= v <= 12
  /\ ((exists a b, s = String a (String b r)
                   /\ Py.isdigit a = true /\ Py.isdigit b = true
                   /\ v = Py.two_digits a b)
      \/ (exists a, s = String a r /\ Py.isdigit a = true /\ v = Py.digit_val a)
      \/ (exists b, s = String " " (String b r) /\ Py.isdigit b = true
                    /\ v = Py.digit_val b)).
Proof.
  unfold Py.field_m. intros H.
  destruct s as [|a [|b s]]; field_cases H; field_shape.
Qed.

Lemma field_d_spec s v r :
  (v, r) ∈ Py.field_d s ->
  1 <= v <= 31
  /\ ((exists a b, s = String a (String b r)
                   /\ Py.isdigit a = true /\ Py.isdigit b = true
                   /\ v = Py.two_digits a b)
      \/ (exists a, s = String a r /\ Py.isdigit a = true /\ v = Py.digit_val a)
      \/ (exists b, s = String " " (String b r) /\ Py.isdigit b = true
                    /\ v = Py.digit_val b)).
Proof.
  unfold Py.field_d. intros H.
  destruct s as [|a [|b s]]; field_cases H; field_shape.
Qed.

Lemma strptime_Ymd_inv s y m d :
  Py.strptime_Ymd s = Some (y, m, d) ->
  exists r2 r4,
    (y, String "-" r2) ∈ Py.field_Y s
    /\ (m, String "-" r4) ∈ Py.field_m r2
    /\ (d, "") ∈ Py.field_d r4
    /\ 1 <= y /\ d <= Py.days_in_month y m.
Proof.
  unfold Py.strptime_Ymd. intros H.
  destruct (Py.first_match _ _) as [[[[y' m'] d'] r] |] eqn:Hfm; [| done].
  destruct r; [| done].
  destruct (_ && _) eqn:Hchk; [| done]. injection H as -> -> ->.
  apply andb_true_iff in Hchk as [Hy%Z.leb_le Hd%Z.leb_le].
  apply first_match_Some in Hfm as (y' & r1 & HY & Hfm).
  apply lit_Some in Hfm as (r2 & -> & Hfm).
  apply first_match_Some in Hfm as (m' & r3 & Hm & Hfm).
  apply lit_Some in Hfm as (r4 & -> & Hfm).
  apply first_match_Some in Hfm as (d' & r5 & Hdd & Hfm).
  injection Hfm as -> -> -> ->.
  by exists r2, r4.
Qed.

(** The dates that [strptime] accepts for ['%Y-%m-%d'] are days of the
    calendar. *)
Lemma strptime_Ymd_range s y m d :
  Py.strptime_Ymd s = Some (y, m, d) ->
  1 <= y <= 9999 /\ 1 <= m <= 12 /\ 1 <= d <= Py.days_in_month y m.
Proof.
  intros (r2 & r4 & HY & Hm & Hd & Hy1 & Hdm)%strptime_Ymd_inv.
  apply field_Y_spec in HY as [HY _]. apply field_m_spec in Hm as [Hm _].
  apply field_d_spec in Hd as [Hd _]. lia.
Qed.

(** X20. Every date that [add_weight_get_date] stores is the clock's date
    or names a day of the calendar: a year from 1 to 9999, a month from 1
    to 12 and a day that this month has in this year, leap years counted.
    The entries that were there are kept. *)
Theorem stored_dates_are_real e u ctx st o x :
  add_weight_get_date e u ctx st = Py.Ok o ->
  x ∈ user_weights (from_user_id u) (user_data (out_state o)) ->
  x ∈ user_weights (from_user_id u) (user_data st)
  \/ date x = today e
  \/ exists y m d,
       Py.strptime_Ymd (date x) = Some (y, m, d)
       /\ 1 <= y <= 9999 /\ 1 <= m <= 12 /\ 1 <= d <= Py.days_in_month y m.
Proof.
  intros H Hx.
  destruct (resolve_date e (text u)) as [d |] eqn:Hd.
  - destruct (temp_weight ctx) as [w |] eqn:Hw.
    + destruct (add_weight_get_date_effect e u ctx st w d Hw Hd)
        as (st' & Heq & Hws & _).
      rewrite Heq in H. injection H as <-. simpl in Hx. rewrite Hws in Hx.
      apply elem_of_app in Hx as [Hx | ->%list_elem_of_singleton]; [by left |].
      right. simpl.
      apply resolve_date_spec in Hd as [[_ ->] | (_ & [[[y m] dd] Hs] & ->)];
        [by left |].
      right. exists y, m, dd. split; [done |].
      exact (strptime_Ymd_range _ _ _ _ Hs).
    + left. unfold add_weight_get_date in H. rewrite Hd, Hw in H.
      destruct (get_user_data _ _) as [ud r] eqn:Hg. injection H as <-.
      simpl in Hx.
      pose proof (get_user_data_lists (from_user_id u) (user_data st)
                    (from_user_id u)) as [_ Hl].
      rewrite Hg in Hl. simpl in Hl. by rewrite <- Hl.
  - left. unfold add_weight_get_date in H. rewrite Hd in H.
    by injection H as <-.
Qed.

Lemma stored_dates_are_real_witness :
  let e := {| today := "2024-05-01"; disk := WriteOk |} in
  let u := text_update 7 "2024-02-29" in
  let ctx := {| temp_weight := Some (Py.FNum false 152 (-1));
                temp_reminder_time := None |} in
  let st := initial_state FileAbsent in
  let x := {| date := "2024-02-29"; weight := Py.FNum false 152 (-1) |} in
  exists o,
    add_weight_get_date e u ctx st = Py.Ok o
    /\ x ∈ user_weights 7 (user_data (out_state o))
    /\ (x ∈ user_weights 7 (user_data st)
        \/ date x = today e
        \/ exists y m d,
             Py.strptime_Ymd (date x) = Some (y, m, d)
             /\ 1 <= y <= 9999 /\ 1 <= m <= 12
             /\ 1 <= d <= Py.days_in_month y m).
Proof.
  intros e u ctx st x.
  eexists. split; [reflexivity |].
  assert (x ∈ user_weights (from_user_id u)
                (user_data (out_state
                   (reply_text [WeightRecorded (Py.FNum false 152 (-1)) "2024-02-29"]
                      (Some END) (set_temp_weight None ctx)
                      (save_data (disk e)
                         (set_user_data
                            (Py.dict_set (Py.str 7)
                               {| weights := [x]; reminders := [] |}
                               (get_user_data 7 (user_data st)).1) st))))))
    as Hx by (vm_compute; left).
  split; [exact Hx |].
  exact (stored_dates_are_real e u ctx st _ x eq_refl Hx).
Defined.

(** A canonical date is ten characters, [YYYY-MM-DD] with every field
    padded with zeros. *)
Lemma canonical_date_inv s :
  canonical_date s = true ->
  exists a b c d e f g h,
    s = String a (String b (String c (String d (String "-"
          (String e (String f (String "-" (String g (String h "")))))))))
    /\ Py.isdigit a = true /\ Py.isdigit b = true /\ Py.isdigit c = true
    /\ Py.isdigit d = true /\ Py.isdigit e = true /\ Py.isdigit f = true
    /\ Py.isdigit g = true /\ Py.isdigit h = true
    /\ date_key s
       = 10000 * (100 * Py.two_digits a b + Py.two_digits c d)
         + 100 * Py.two_digits e f + Py.two_digits g h.
Proof.
  unfold canonical_date. intros [[Hs Hlen]%andb_true_iff Hsp]%andb_true_iff.
  apply bool_decide_eq_true in Hs as [[[y m] dd] Hs].
  apply Nat.eqb_eq in Hlen.
  pose proof Hs as (r2 & r4 & HY & Hm & Hd & _)%strptime_Ymd_inv.
  apply field_Y_spec in HY as (_ & a & b & c & d & -> & Ha & Hb & Hc & Hdg & ->).
  unfold date_key. rewrite Hs. clear Hs.
  apply field_m_spec in Hm
    as (_ & [(e & f & -> & He & Hf & ->)
            | [(e & -> & He & ->) | (f & -> & Hf & ->)]]);
    apply field_d_spec in Hd
      as (_ & [(g & h & -> & Hg & Hh & ->)
              | [(g & -> & Hg & ->) | (h & -> & Hh & ->)]]);
    simpl in Hlen; try discriminate Hlen;
    simpl in Hsp; rewrite ?andb_false_r in Hsp; try discriminate Hsp.
  exists a, b, c, d, e, f, g, h. done.
Qed.

Ltac compare_digits :=
  cbv iota; rewrite ?N.compare_refl; cbv iota;
  match goal with
  | |- context [N.compare (N_of_ascii ?x) (N_of_ascii ?y)] =>
      destruct (N.compare_spec (N_of_ascii x) (N_of_ascii y));
      [compare_digits | split; [intros _; lia | done] | split; [done | lia]]
  | _ => split; [intros _; lia | done]
  end.

(** For canonical dates the order of [str] comparison is the order of the
    calendar. *)
Lemma canonical_date_leb s1 s2 :
  canonical_date s1 = true -> canonical_date s2 = true ->
  String.leb s1 s2 = true <-> date_key s1 <= date_key s2.
Proof.
  intros (a1 & b1 & c1 & d1 & e1 & f1 & g1 & h1 & -> & Ha1 & Hb1 & Hc1 & Hd1
          & He1 & Hf1 & Hg1 & Hh1 & ->)%canonical_date_inv
         (a2 & b2 & c2 & d2 & e2 & f2 & g2 & h2 & -> & Ha2 & Hb2 & Hc2 & Hd2
          & He2 & Hf2 & Hg2 & Hh2 & ->)%canonical_date_inv.
  repeat match goal with
    | H : Py.isdigit ?c = true |- _ => apply isdigit_bounds in H
    end.
  unfold Py.two_digits, Py.digit_val, String.leb.
  cbn [String.compare]. unfold Ascii.compare.
  compare_digits.
Qed.

Lemma StronglySorted_impl {A} (R R' : A -> A -> Prop) l :
  (forall x y, x ∈ l -> y ∈ l -> R x y -> R' x y) ->
  StronglySorted R l -> StronglySorted R' l.
Proof.
  intros HR Hs. induction Hs as [|x l Hs IH Hx]; constructor.
  - apply IH. intros y z Hy Hz. apply HR; by right.
  - apply Forall_forall. intros y Hy. apply HR; [left | by right |].
    by eapply Forall_forall in Hx.
Qed.

(** X21. When every stored date of a user is canonical (ten characters,
    [YYYY-MM-DD] with zero-padded fields, as the clock's date is), the
    history that [view_weights] shows is in the order of the calendar,
    because on canonical dates the [str] comparison of [sorted] agrees with
    the order of year, month and day. *)
Theorem view_weights_chronological ws :
  Forall (fun w => canonical_date (date w) = true) ws ->
  StronglySorted (fun a b => date_key (date a) <= date_key (date b))
                 (Py.sorted date ws)
  /\ forall a b, a ∈ ws -> b ∈ ws ->
                 (String.leb (date a) (date b) = true
                  <-> date_key (date a) <= date_key (date b)).
Proof.
  intros Hcan. rewrite Forall_forall in Hcan. split.
  - eapply StronglySorted_impl; [| apply sorted_sorted].
    intros x y Hx Hy Hle. simpl in Hle.
    rewrite (sorted_perm date ws) in Hx, Hy.
    apply canonical_date_leb; [by apply Hcan | by apply Hcan |].
    unfold String.le in Hle. by apply Is_true_true.
  - intros a b Ha Hb. apply canonical_date_leb; by apply Hcan.
Qed.

Lemma view_weights_chronological_witness :
  let ws := [ {| date := "2024-10-01"; weight := Py.FNum false 12 0 |};
              {| date := "2024-02-01"; weight := Py.FNum false 11 0 |};
              {| date := "2023-12-31"; weight := Py.FNum false 10 0 |} ] in
  Forall (fun w => canonical_date (date w) = true) ws
  /\ StronglySorted (fun a b => date_key (date a) <= date_key (date b))
                    (Py.sorted date ws).
Proof.
  intros ws.
  assert (Forall (fun w => canonical_date (date w) = true) ws) as H
    by (repeat constructor).
  split; [exact H |].
  exact (proj1 (view_weights_chronological ws H)).
Defined.

(** ** The lists of one user under an update *)

Lemma user_lists_dict_set user_id r d :
  user_reminders user_id (Py.dict_set (Py.str user_id) r d) = reminders r
  /\ user_weights user_id (Py.dict_set (Py.str user_id) r d) = weights r.
Proof. unfold user_reminders, user_weights. by rewrite dict_get_set_eq. Qed.

Lemma run_handler_lists h e u ctx st o :
  run_handler h e u ctx st = Py.Ok o ->
  let rs := user_reminders (from_user_id u) (user_data st) in
  let ws := user_weights (from_user_id u) (user_data st) in
  let rs' := user_reminders (from_user_id u) (user_data (out_state o)) in
  let ws' := user_weights (from_user_id u) (user_data (out_state o)) in
  (rs' = rs /\ ws' = ws)
  \/ (h = HAddWeightGetDate /\ rs' = rs /\ exists x, ws' = ws ++ [x])
  \/ (h = HAddReminderGetMessage /\ ws' = ws /\ exists x, rs' = rs ++ [x])
  \/ (h = HDeleteReminder /\ ws' = ws
      /\ exists i x, rs !! i = Some x /\ rs' = Py.pop i rs).
Proof.
  intros H rs ws rs' ws'. subst rs rs' ws ws'.
  assert (forall ud r,
            get_user_data (from_user_id u) (user_data st) = (ud, r) ->
            user_reminders (from_user_id u) ud
            = user_reminders (from_user_id u) (user_data st)
            /\ user_weights (from_user_id u) ud
               = user_weights (from_user_id u) (user_data st)
            /\ reminders r = user_reminders (from_user_id u) (user_data st)
            /\ weights r = user_weights (from_user_id u) (user_data st))
    as Hget.
  { intros ud r Hg.
    pose proof (get_user_data_lists (from_user_id u) (user_data st)
                  (from_user_id u)) as [H1 H2].
    rewrite Hg in H1, H2.
    by destruct (user_reminders_get_user_data _ _ _ _ Hg). }
  destruct h; simpl in H.
  - injection H as <-. by left.
  - injection H as <-. by left.
  - unfold add_weight_get_weight in H.
    destruct (Py.split_ws _) as [|tok ?]; [done |].
    destruct (Py.float tok); injection H as <-; by left.
  - unfold add_weight_get_date in H.
    destruct (resolve_date e (text u)); [| injection H as <-; by left].
    destruct (get_user_data _ _) as [ud r] eqn:Hg.
    destruct (Hget ud r eq_refl) as (Hr & Hw & Hrr & Hwr).
    destruct (temp_weight ctx); injection H as <-; simpl; [| by left].
    right. left. split; [done |].
    rewrite (proj1 (save_data_frame _ _)). simpl.
    rewrite (proj1 (user_lists_dict_set _ _ _)),
      (proj2 (user_lists_dict_set _ _ _)). simpl.
    rewrite Hrr, Hwr. split; [done |]. by eexists.
  - unfold view_weights in H. destruct (get_user_data _ _) as [ud r] eqn:Hg.
    destruct (Hget ud r eq_refl) as (Hr & Hw & _).
    destruct (weights r); injection H as <-; by left.
  - injection H as <-. by left.
  - unfold add_reminder_get_time in H.
    destruct (Py.strptime_HM (text u)); injection H as <-; by left.
  - unfold add_reminder_get_message, dispatcher_updater in H.
    destruct (truthy (temp_reminder_time ctx)) as [t |];
      [| injection H as <-; by left].
    destruct (truthy (Some (text u))); [| injection H as <-; by left].
    destruct (get_user_data _ _) as [ud r] eqn:Hg.
    destruct (Hget ud r eq_refl) as (Hr & Hw & Hrr & Hwr).
    injection H as <-. simpl. right. right. left. split; [done |].
    rewrite (proj1 (save_data_frame _ _)). simpl.
    rewrite (proj1 (user_lists_dict_set _ _ _)),
      (proj2 (user_lists_dict_set _ _ _)). simpl.
    rewrite Hrr, Hwr. split; [done |]. by eexists.
  - unfold list_reminders in H. destruct (get_user_data _ _) as [ud r] eqn:Hg.
    destruct (Hget ud r eq_refl) as (Hr & Hw & _).
    destruct (reminders r); injection H as <-; by left.
  - rewrite delete_reminder_cases in H. simpl in H.
    destruct (get_user_data _ _) as [ud r] eqn:Hg.
    destruct (Hget ud r eq_refl) as (Hr & Hw & _). simpl in H.
    destruct (args u) as [|arg ?]; [injection H as <-; by left |].
    destruct (Py.int arg) as [n |]; [| injection H as <-; by left].
    destruct (bool_decide _); [| injection H as <-; by left].
    destruct (user_reminders _ _ !! Z.to_nat (n - 1)) as [x |] eqn:Hx;
      [| injection H as <-; by left].
    injection H as <-. simpl. right. right. right. split; [done |].
    rewrite (proj1 (remove_reminder_job_frame _ _)),
      (proj1 (save_data_frame _ _)). simpl.
    rewrite (proj1 (user_lists_dict_set _ _ _)),
      (proj2 (user_lists_dict_set _ _ _)). simpl.
    split; [done |]. by exists (Z.to_nat (n - 1)), x.
  - injection H as <-. by left.
Qed.

(** X22. What one update can do to a user's lists.  An update leaves
    every user's reminders and weights as they are, except that
    [add_weight_get_date] may append one weight entry to the sender's
    weights, [add_reminder_get_message] may append one reminder to the
    sender's reminders, and [delete_reminder] may take one reminder out of
    the sender's reminders.  No update removes or changes a weight entry, and
    none changes or reorders the reminders that stay. *)
Theorem dispatch_lists h e u b v :
  let rs := user_reminders v (user_data (globals b)) in
  let ws := user_weights v (user_data (globals b)) in
  let rs' := user_reminders v (user_data (globals (dispatch h e u b))) in
  let ws' := user_weights v (user_data (globals (dispatch h e u b))) in
  (rs' = rs /\ ws' = ws)
  \/ (v = from_user_id u
      /\ ((h = HAddWeightGetDate /\ rs' = rs /\ exists x, ws' = ws ++ [x])
          \/ (h = HAddReminderGetMessage /\ ws' = ws
              /\ exists x, rs' = rs ++ [x])
          \/ (h = HDeleteReminder /\ ws' = ws
              /\ exists i x, rs !! i = Some x /\ rs' = Py.pop i rs))).
Proof.
  intros rs ws rs' ws'. subst rs ws rs' ws'.
  destruct (decide (v = from_user_id u)) as [-> | Hv].
  - destruct (dispatch_cases h e u b) as [(o & Hrun & -> & _) | (_ & -> & _)];
      [| by left].
    apply run_handler_lists in Hrun as [? | Hrun]; [by left |].
    right. done.
  - left.
    assert (Py.str (from_user_id u) <> Py.str v) as Hk
      by (intros Heq%str_inj; by subst).
    destruct (get_user_data_lists (from_user_id u) (user_data (globals b)) v)
      as [Hr Hw].
    destruct (dispatch_store_shape h e u b) as [-> | [-> | [r' ->]]];
      [done | done |].
    unfold user_reminders at 1, user_weights at 1.
    by rewrite dict_get_set_ne.
Qed.

(** ** Listing, then deleting *)

(** X23. The number that [list_reminders] shows beside a reminder is the
    number that [delete_reminder] takes: if the list shows [n] beside [x],
    then [/deletereminder n] from that user deletes that entry, replies
    with its message and time, and leaves the user's other reminders in
    their order. *)
Theorem listed_number_deletes e1 e2 u1 u2 ctx1 ctx2 st n x rest :
  let l := user_reminders (from_user_id u1) (user_data st) in
  from_user_id u2 = from_user_id u1 ->
  (n, x) ∈ Py.enumerate_from 1 l ->
  args u2 = Py.str n :: rest ->
  exists o1 o2,
    list_reminders e1 u1 ctx1 st = Py.Ok o1
    /\ out_replies o1 = [ReminderList (Py.enumerate_from 1 l)]
    /\ delete_reminder e2 u2 ctx2 (out_state o1) = Py.Ok o2
    /\ out_replies o2 = [DeleteDone (message x) (time x)]
    /\ l !! Z.to_nat (n - 1) = Some x
    /\ user_reminders (from_user_id u1) (user_data (out_state o2))
       = Py.pop (Z.to_nat (n - 1)) l.
Proof.
  intros l Hu Hin Ha.
  apply list_elem_of_lookup in Hin as [i Hi].
  rewrite enumerate_from_lookup in Hi.
  destruct (l !! i) as [y |] eqn:Hl; [| done]. simpl in Hi.
  injection Hi as <- <-.
  assert (Z.to_nat (1 + Z.of_nat i - 1) = i) as Hidx by lia.
  assert (i < length l)%nat as Hlt by (by eapply lookup_lt_Some).
  unfold list_reminders.
  destruct (get_user_data _ _) as [ud r] eqn:Hg.
  destruct (user_reminders_get_user_data _ _ _ _ Hg) as [Hr _]. fold l in Hr.
  pose proof (get_user_data_lists (from_user_id u1) (user_data st)
                (from_user_id u1)) as [Hl1 _].
  rewrite Hg in Hl1. simpl in Hl1. fold l in Hl1.
  rewrite Hr.
  destruct l as [|z l'] eqn:El; [done |]. rewrite <- El in *.
  eexists _, _. split; [reflexivity |]. split; [by rewrite El |].
  rewrite delete_reminder_cases. simpl. rewrite Ha, int_str, Hu, Hl1, Hidx, Hl.
  rewrite bool_decide_eq_true_2 by lia.
  split; [reflexivity |]. split; [reflexivity |]. split; [done |].
  simpl. rewrite (proj1 (remove_reminder_job_frame _ _)),
    (proj1 (save_data_frame _ _)). simpl.
  by rewrite (proj1 (user_lists_dict_set _ _ _)).
Qed.

Lemma listed_number_deletes_witness :
  let e := {| today := "2024-05-01"; disk := WriteOk |} in
  let b := addReminder e 7 "12:00" "Walk"
             (addReminder e 7 "08:30" "Feed the dog" (boot FileAbsent)) in
  let st := globals b in
  let x := {| time := "12:00"; message := "Walk" |} in
  (2, x) ∈ Py.enumerate_from 1 (user_reminders 7 (user_data st))
  /\ exists o1 o2,
       list_reminders e (command_update 7 []) empty_context st = Py.Ok o1
       /\ delete_reminder e (command_update 7 ["2"]) empty_context (out_state o1)
          = Py.Ok o2
       /\ out_replies o2 = [DeleteDone "Walk" "12:00"].
Proof.
  intros e b st x.
  assert ((2, x) ∈ Py.enumerate_from 1
            (user_reminders (from_user_id (command_update 7 []))
               (user_data st))) as H
    by (vm_compute; right; left).
  split; [exact H |].
  destruct (listed_number_deletes e e (command_update 7 [])
              (command_update 7 ["2"]) empty_context empty_context st 2 x []
              eq_refl H eq_refl)
    as (o1 & o2 & H1 & _ & H2 & H3 & _).
  exists o1, o2. split; [exact H1 |]. split; [exact H2 | exact H3].
Defined.
